(** * Perseverance motion-control core: Movement_PID and Navigation_Controller

    A shallow embedding of [Sub/Src/Dynamics/movement_pid.py] and
    [Sub/Src/Dynamics/navigation_controller.py].

    Numbers.  Python floats (and the integers mixed with them) are read as
    real numbers: [+], [-], [*], [/], [<], [>=] are the operations of [R].
    Rounding, infinities, NaN and the sign of zero are outside the model,
    except in [Double], where the rotation of [advance_move] is embedded
    a second time on IEEE 754 doubles.

    Effects.  A method is a function from the state of the object it works
    on to a [result]: the returned value or a raised exception, the state
    at that point, and the calls made to the outside world so far
    ([effect]): thruster commands, waypoint-file operations and the
    zero-position publication. *)

From Stdlib Require Import Reals Lra ZArith Lia.
From Stdlib Require Floats.
From stdpp Require Import base option list.

Open Scope R_scope.

(** ** Calls that leave the program *)

Inductive effect : Type :=
| set_thrust (id : Z) (thrust : R)      (* Thruster(id).set_thrust(thrust) *)
| file_open                             (* open(waypoint_file, 'w') *)
| file_close                            (* waypoint_file.close() *)
| writerow (number : Z) (north_pos east_pos depth : R)
| publish_zero_position.                (* zero_position_publisher.publish(True) *)

(** ** State, output and exceptions *)

Inductive result (St A : Type) : Type :=
| Returns (a : A) (s : St) (out : list effect)
| Raises (s : St) (out : list effect).
Arguments Returns {St A} a s out.
Arguments Raises {St A} s out.

Definition M (St A : Type) : Type := St -> result St A.

Definition ret {St A} (a : A) : M St A := fun s => Returns a s [].

Definition bind {St A B} (m : M St A) (f : A -> M St B) : M St B := fun s =>
  match m s with
  | Returns a s1 o1 =>
      match f a s1 with
      | Returns b s2 o2 => Returns b s2 (o1 ++ o2)
      | Raises s2 o2 => Raises s2 (o1 ++ o2)
      end
  | Raises s1 o1 => Raises s1 o1
  end.

Declare Scope py_scope.
Delimit Scope py_scope with py.
Notation "x <- m ;; k" := (bind m (fun x => k))
  (at level 63, m at next level, right associativity) : py_scope.
Notation "m ;;; k" := (bind m (fun _ => k))
  (at level 63, right associativity) : py_scope.
Open Scope py_scope.

Definition raise {St A} : M St A := fun s => Raises s [].
Definition gets {St A} (f : St -> A) : M St A := fun s => Returns (f s) s [].
Definition modify {St} (f : St -> St) : M St unit := fun s => Returns tt (f s) [].
Definition emit {St} (e : effect) : M St unit := fun s => Returns tt s [e].

(** [l[i]] for a non-negative [i]: IndexError past the end. *)
Definition index {St A} (l : list A) (i : nat) : M St A :=
  match l !! i with
  | Some a => ret a
  | None => raise
  end.

(** A method of a sub-object run inside the object that owns it. *)
Definition zoom {St T A} (get : St -> T) (set : T -> St -> St) (m : M T A) : M St A :=
  fun s =>
    match m (get s) with
    | Returns a t o => Returns a (set t s) o
    | Raises t o => Raises (set t s) o
    end.

(** [for i, a in enumerate(l): body(i, a)], counting from [i]. *)
Fixpoint for_enumerate {St A} (body : nat -> A -> M St unit) (i : nat) (l : list A)
  : M St unit :=
  match l with
  | [] => ret tt
  | a :: l' => body i a ;;; for_enumerate body (S i) l'
  end.

Definition state_of {St A} (r : result St A) : St :=
  match r with Returns _ s _ => s | Raises s _ => s end.

Definition output_of {St A} (r : result St A) : list effect :=
  match r with Returns _ _ o => o | Raises _ o => o end.

(** ** Library functions used by the controller *)

(** [math.copysign(x, y)]: the magnitude of [x] with the sign of [y]. *)
Definition copysign (x y : R) : R :=
  if Rlt_dec y 0 then - Rabs x else Rabs x.

(** [math.radians]. *)
Definition radians (deg : R) : R := deg * (PI / 180).

(** [np.interp(x, [x0, x1], [f0, f1])] for two sample points [x0 < x1]:
    the end values outside [[x0, x1]], the chord inside. *)
Definition interp (x x0 x1 f0 f1 : R) : R :=
  if Rlt_dec x x0 then f0
  else if Rlt_dec x1 x then f1
  else (f1 - f0) / (x1 - x0) * (x - x0) + f0.

(** Truth value of a number ([if v:]). *)
Definition truthy (v : R) : bool :=
  if Req_dec_T v 0 then false else true.

(** ** Thrusters *)

(** The arguments of [Thruster(serial, id, orientation, location,
    max_thrust, invert)]; the serial port is left out. *)
Record Thruster : Type := {
  id : Z;
  orientation : list R;
  location : list R;
  max_thrust : R;
  invert_thruster : bool
}.

Definition make_thrusters (max_thrust : R) : list Thruster :=
  [ {| id := 1; orientation := [0; 0; 1]; location := [1; -1; 0];
       max_thrust := max_thrust; invert_thruster := true |};
    {| id := 2; orientation := [0; 1; 0]; location := [1; 0; 0];
       max_thrust := max_thrust; invert_thruster := true |};
    {| id := 3; orientation := [0; 0; 1]; location := [1; 1; 0];
       max_thrust := max_thrust; invert_thruster := false |};
    {| id := 4; orientation := [1; 0; 0]; location := [0; 1; 0];
       max_thrust := max_thrust; invert_thruster := false |};
    {| id := 5; orientation := [0; 0; 1]; location := [-1; 1; 0];
       max_thrust := max_thrust; invert_thruster := true |};
    {| id := 6; orientation := [0; 1; 0]; location := [-1; 0; 0];
       max_thrust := max_thrust; invert_thruster := true |};
    {| id := 7; orientation := [0; 0; 1]; location := [-1; -1; 0];
       max_thrust := max_thrust; invert_thruster := false |};
    {| id := 8; orientation := [1; 0; 0]; location := [0; -1; 0];
       max_thrust := max_thrust; invert_thruster := true |} ].

(** ** PID primitive *)

(** Modelled from the spec: the class [PID_Controller] of
    [pid_controller.py], which is not among the sources.  The state is
    the spec's PIDState; [control_step] follows the spec's formula
    [gain_p*error + gain_i*(sum of error*dt) + gain_d*(error - previous_error)/dt]
    and [set_gains] replaces the gain tuple, keeping the accumulated state. *)
Record PID_Controller : Type := {
  gain_p : R;
  gain_i : R;
  gain_d : R;
  dt : R;
  integral_accumulator : R;
  previous_error : R
}.

Definition control_step (c : PID_Controller) (error : R) : R * PID_Controller :=
  let acc := integral_accumulator c + error * dt c in
  (gain_p c * error + gain_i c * acc + gain_d c * (error - previous_error c) / dt c,
   {| gain_p := gain_p c; gain_i := gain_i c; gain_d := gain_d c; dt := dt c;
      integral_accumulator := acc; previous_error := error |}).

Definition set_gains (p i d d_t : R) (c : PID_Controller) : PID_Controller :=
  {| gain_p := p; gain_i := i; gain_d := d; dt := d_t;
     integral_accumulator := integral_accumulator c;
     previous_error := previous_error c |}.

Definition new_PID_Controller (p i d d_t : R) : PID_Controller :=
  {| gain_p := p; gain_i := i; gain_d := d; dt := d_t;
     integral_accumulator := 0; previous_error := 0 |}.

(** ** Movement_PID *)

(** The attributes [set_up_PID_controllers] reads from the parameter
    server, under Control/PID and Control/Limits. *)
Record Control_Params : Type := {
  roll_min_error : R;  roll_max_error : R;  max_roll : R;
  pitch_min_error : R; pitch_max_error : R; max_pitch : R;
  yaw_min_error : R;   yaw_max_error : R;
  x_min_error : R;     x_max_error : R;
  y_min_error : R;     y_max_error : R;
  z_min_error : R;     z_max_error : R;
  min_z : R;           max_z : R;
  z_bias : R;          z_active_bias_depth : R
}.

(** The parameters under Control/Remote, read once in [__init__]. *)
Record Remote_Params : Type := {
  remote_yaw_min_thrust : R; remote_yaw_max_thrust : R;
  remote_x_min_thrust : R;   remote_x_max_thrust : R;
  remote_y_min_thrust : R;   remote_y_max_thrust : R
}.

Record Movement_PID : Type := {
  thrusters : list Thruster;
  remote_desired_depth : R;
  remote_depth_recorded : bool;
  remote_params :> Remote_Params;
  control_params :> Control_Params;
  roll_pid_controller : PID_Controller;
  pitch_pid_controller : PID_Controller;
  yaw_pid_controller : PID_Controller;
  x_pid_controller : PID_Controller;
  y_pid_controller : PID_Controller;
  z_pid_controller : PID_Controller;
  thruster_strengths : list R
}.

(** Attribute assignments. *)
Definition set_remote_desired_depth (v : R) (mp : Movement_PID) : Movement_PID :=
  {| thrusters := thrusters mp; remote_desired_depth := v;
     remote_depth_recorded := remote_depth_recorded mp;
     remote_params := remote_params mp; control_params := control_params mp;
     roll_pid_controller := roll_pid_controller mp;
     pitch_pid_controller := pitch_pid_controller mp;
     yaw_pid_controller := yaw_pid_controller mp;
     x_pid_controller := x_pid_controller mp;
     y_pid_controller := y_pid_controller mp;
     z_pid_controller := z_pid_controller mp;
     thruster_strengths := thruster_strengths mp |}.

Definition set_remote_depth_recorded (b : bool) (mp : Movement_PID) : Movement_PID :=
  {| thrusters := thrusters mp; remote_desired_depth := remote_desired_depth mp;
     remote_depth_recorded := b;
     remote_params := remote_params mp; control_params := control_params mp;
     roll_pid_controller := roll_pid_controller mp;
     pitch_pid_controller := pitch_pid_controller mp;
     yaw_pid_controller := yaw_pid_controller mp;
     x_pid_controller := x_pid_controller mp;
     y_pid_controller := y_pid_controller mp;
     z_pid_controller := z_pid_controller mp;
     thruster_strengths := thruster_strengths mp |}.

(** The six controller objects, in the order roll, pitch, yaw, x, y, z. *)
Inductive axis : Type := Roll | Pitch | Yaw | X | Y | Z_.

Definition pid_of (a : axis) (mp : Movement_PID) : PID_Controller :=
  match a with
  | Roll => roll_pid_controller mp
  | Pitch => pitch_pid_controller mp
  | Yaw => yaw_pid_controller mp
  | X => x_pid_controller mp
  | Y => y_pid_controller mp
  | Z_ => z_pid_controller mp
  end.

Definition set_pid (a : axis) (c : PID_Controller) (mp : Movement_PID) : Movement_PID :=
  {| thrusters := thrusters mp; remote_desired_depth := remote_desired_depth mp;
     remote_depth_recorded := remote_depth_recorded mp;
     remote_params := remote_params mp; control_params := control_params mp;
     roll_pid_controller := match a with Roll => c | _ => roll_pid_controller mp end;
     pitch_pid_controller := match a with Pitch => c | _ => pitch_pid_controller mp end;
     yaw_pid_controller := match a with Yaw => c | _ => yaw_pid_controller mp end;
     x_pid_controller := match a with X => c | _ => x_pid_controller mp end;
     y_pid_controller := match a with Y => c | _ => y_pid_controller mp end;
     z_pid_controller := match a with Z_ => c | _ => z_pid_controller mp end;
     thruster_strengths := thruster_strengths mp |}.

(** [self.<axis>_pid_controller.control_step(error)]: the controller
    object is updated in place and the control output returned. *)
Definition pid_control_step (a : axis) (error : R) : M Movement_PID R :=
  fun mp =>
    let step := control_step (pid_of a mp) error in
    Returns (fst step) (set_pid a (snd step) mp) [].

(** [simple_thrust]. *)
Definition simple_thrust (thrusts : list R) : M Movement_PID unit :=
  for_enumerate
    (fun thruster_id thrust =>
       ts <- gets thrusters ;;
       t <- index ts thruster_id ;;
       emit (set_thrust (id t) thrust))
    0%nat thrusts.

(** [controlled_thrust]; [allocate_thruster] is the body of its loop. *)
Definition allocate_thruster
    (roll_control pitch_control yaw_control x_control y_control z_control
       curr_z_pos : R) (thruster_id : nat) (thruster : Thruster)
  : M Movement_PID unit :=
  o2 <- index (orientation thruster) 2 ;;
  l1 <- index (location thruster) 1 ;;
  l0 <- index (location thruster) 0 ;;
  o1 <- index (orientation thruster) 1 ;;
  o0 <- index (orientation thruster) 0 ;;
  let thrust :=
    (-1 * roll_control * o2 * l1) +
    (pitch_control * o2 * l0) +
    (yaw_control * o1 * l0) +
    (-1 * x_control * o0) +
    (y_control * o1) +
    (z_control * o2) in
  strengths <- gets thruster_strengths ;;
  strength <- index strengths thruster_id ;;
  let thrust := thrust + (thrust * strength) in
  active_depth <- gets (fun self : Movement_PID => z_active_bias_depth self) ;;
  bias <- gets (fun self : Movement_PID => z_bias self) ;;
  let thrust :=
    if Rge_dec curr_z_pos active_depth
    then thrust + (bias * o2)
    else thrust in
  ts <- gets thrusters ;;
  t <- index ts thruster_id ;;
  emit (set_thrust (id t) thrust).

Definition controlled_thrust
    (roll_control pitch_control yaw_control x_control y_control z_control
       curr_z_pos : R) : M Movement_PID unit :=
  ts <- gets thrusters ;;
  for_enumerate
    (allocate_thruster roll_control pitch_control yaw_control x_control
       y_control z_control curr_z_pos)
    0%nat ts.

(** [bound_error]. *)
Definition bound_error (unbounded_error min_error max_error : R) : R :=
  if Rlt_dec unbounded_error min_error then min_error
  else if Rgt_dec unbounded_error max_error then max_error
  else unbounded_error.

(** [advance_move].  The method works on two objects: [self] and the
    list passed as [desired_position], which it assigns to; the state
    is the pair of them.  The warnings printed to the console are left
    out.  [math.radians], [math.cos] and [math.sin] are the parameters
    of [advance_move_with]; [advance_move] takes them exact. *)
Definition on_self {A} (m : M Movement_PID A) : M (Movement_PID * list R) A :=
  zoom fst (fun mp s => (mp, snd s)) m.

Definition self_ {A} (f : Movement_PID -> A) : M (Movement_PID * list R) A :=
  gets (fun s => f (fst s)).

Definition desired (i : nat) : M (Movement_PID * list R) R :=
  l <- gets snd ;; index l i.

Definition assign_desired (i : nat) (v : R) : M (Movement_PID * list R) unit :=
  modify (fun s => (fst s, <[i := v]> (snd s))).

Definition advance_move_with (radians cos sin : R -> R)
    (current_position : list R)
  : M (Movement_PID * list R) (list R) :=
  let error := [0; 0; 0; 0; 0; 0] in
  (* roll *)
  d0 <- desired 0 ;;
  m_roll <- self_ (fun self => max_roll self) ;;
  (if Rgt_dec (Rabs d0) m_roll
   then d0' <- desired 0 ;; assign_desired 0 (copysign m_roll d0')
   else ret tt) ;;;
  d0 <- desired 0 ;;
  c0 <- index current_position 0 ;;
  lo <- self_ (fun self => roll_min_error self) ;;
  hi <- self_ (fun self => roll_max_error self) ;;
  let error := <[0%nat := bound_error (d0 - c0) lo hi]> error in
  (* pitch *)
  d1 <- desired 1 ;;
  m_pitch <- self_ (fun self => max_pitch self) ;;
  (if Rgt_dec (Rabs d1) m_pitch
   then d1' <- desired 1 ;; assign_desired 1 (copysign m_pitch d1')
   else ret tt) ;;;
  d1 <- desired 1 ;;
  c1 <- index current_position 1 ;;
  lo <- self_ (fun self => pitch_min_error self) ;;
  hi <- self_ (fun self => pitch_max_error self) ;;
  let error := <[1%nat := bound_error (d1 - c1) lo hi]> error in
  (* yaw, along the shortest angle *)
  desired_yaw <- desired 2 ;;
  curr_yaw <- index current_position 2 ;;
  let yaw_error := desired_yaw - curr_yaw in
  let yaw_error :=
    if Rgt_dec (Rabs yaw_error) 180
    then if Rlt_dec yaw_error 0 then yaw_error + 360 else yaw_error - 360
    else yaw_error in
  lo <- self_ (fun self => yaw_min_error self) ;;
  hi <- self_ (fun self => yaw_max_error self) ;;
  let error := <[2%nat := bound_error yaw_error lo hi]> error in
  (* north/east error turned into the frame of the sub *)
  d3 <- desired 3 ;;
  c3 <- index current_position 3 ;;
  let north_error := d3 - c3 in
  d4 <- desired 4 ;;
  c4 <- index current_position 4 ;;
  let east_error := d4 - c4 in
  let yaw_rad := radians curr_yaw in
  let x_error := (cos yaw_rad * north_error) + (sin yaw_rad * east_error) in
  let y_error := (-1 * sin yaw_rad * north_error) + (cos yaw_rad * east_error) in
  lo <- self_ (fun self => x_min_error self) ;;
  hi <- self_ (fun self => x_max_error self) ;;
  let error := <[3%nat := bound_error x_error lo hi]> error in
  lo <- self_ (fun self => y_min_error self) ;;
  hi <- self_ (fun self => y_max_error self) ;;
  let error := <[4%nat := bound_error y_error lo hi]> error in
  (* depth *)
  d5 <- desired 5 ;;
  lo_z <- self_ (fun self => min_z self) ;;
  hi_z <- self_ (fun self => max_z self) ;;
  (if Rlt_dec d5 lo_z then assign_desired 5 lo_z
   else
     d5' <- desired 5 ;;
     if Rgt_dec d5' hi_z then assign_desired 5 hi_z else ret tt) ;;;
  d5 <- desired 5 ;;
  c5 <- index current_position 5 ;;
  lo <- self_ (fun self => z_min_error self) ;;
  hi <- self_ (fun self => z_max_error self) ;;
  let error := <[5%nat := bound_error (d5 - c5) lo hi]> error in
  (* the six controllers, then the thrusters *)
  e0 <- index error 0 ;;
  roll_control <- on_self (pid_control_step Roll e0) ;;
  e1 <- index error 1 ;;
  pitch_control <- on_self (pid_control_step Pitch e1) ;;
  e2 <- index error 2 ;;
  yaw_control <- on_self (pid_control_step Yaw e2) ;;
  e3 <- index error 3 ;;
  x_control <- on_self (pid_control_step X e3) ;;
  e4 <- index error 4 ;;
  y_control <- on_self (pid_control_step Y e4) ;;
  e5 <- index error 5 ;;
  z_control <- on_self (pid_control_step Z_ e5) ;;
  c5 <- index current_position 5 ;;
  on_self (controlled_thrust roll_control pitch_control yaw_control
             x_control y_control z_control c5) ;;;
  ret error.

Definition advance_move
  : list R -> M (Movement_PID * list R) (list R) :=
  advance_move_with radians cos sin.

(** [remote_move]. *)
Definition remote_move (current_position remote_commands : list R)
  : M Movement_PID unit :=
  c0 <- index current_position 0 ;;
  lo <- gets (fun self : Movement_PID => roll_min_error self) ;;
  hi <- gets (fun self : Movement_PID => roll_max_error self) ;;
  let roll_error := bound_error (0 - c0) lo hi in
  c1 <- index current_position 1 ;;
  lo <- gets (fun self : Movement_PID => pitch_min_error self) ;;
  hi <- gets (fun self : Movement_PID => pitch_max_error self) ;;
  let pitch_error := bound_error (0 - c1) lo hi in
  r0 <- index remote_commands 0 ;;
  lo <- gets (fun self : Movement_PID => remote_yaw_min_thrust self) ;;
  hi <- gets (fun self : Movement_PID => remote_yaw_max_thrust self) ;;
  let yaw_control := interp r0 (-1) 1 lo hi in
  r1 <- index remote_commands 1 ;;
  lo <- gets (fun self : Movement_PID => remote_x_min_thrust self) ;;
  hi <- gets (fun self : Movement_PID => remote_x_max_thrust self) ;;
  let x_control := interp r1 (-1) 1 lo hi in
  r2 <- index remote_commands 2 ;;
  lo <- gets (fun self : Movement_PID => remote_y_min_thrust self) ;;
  hi <- gets (fun self : Movement_PID => remote_y_max_thrust self) ;;
  let y_control := interp r2 (-1) 1 lo hi in
  r4 <- index remote_commands 4 ;;
  depth_error <-
    (if truthy r4 then
       recorded <- gets remote_depth_recorded ;;
       (if negb recorded then
          c5 <- index current_position 5 ;;
          modify (set_remote_desired_depth c5) ;;;
          modify (set_remote_depth_recorded true)
        else ret tt) ;;;
       d <- gets remote_desired_depth ;;
       c5 <- index current_position 5 ;;
       lo <- gets (fun self : Movement_PID => z_min_error self) ;;
       hi <- gets (fun self : Movement_PID => z_max_error self) ;;
       ret (bound_error (d - c5) lo hi)
     else
       modify (set_remote_depth_recorded false) ;;;
       modify (set_remote_desired_depth 0) ;;;
       r3 <- index remote_commands 3 ;;
       if Rle_dec r3 0 then
         lo <- gets (fun self : Movement_PID => z_min_error self) ;;
         ret (interp r3 (-1) 0 lo 0)
       else
         hi <- gets (fun self : Movement_PID => z_max_error self) ;;
         ret (interp r3 0 1 0 hi)) ;;
  roll_control <- pid_control_step Roll roll_error ;;
  pitch_control <- pid_control_step Pitch pitch_error ;;
  z_control <- pid_control_step Z_ depth_error ;;
  c5 <- index current_position 5 ;;
  controlled_thrust roll_control pitch_control yaw_control (-1 * x_control)
    y_control z_control c5.

(** What the parameter server holds when it is read: the values behind
    Control/max_thrust, Control/Remote, Control/PID, Control/Limits and
    Control/Thruster_Strengths/T1 .. T8, already converted by [float]. *)
Record Param_Server : Type := {
  ps_max_thrust : R;
  ps_remote : Remote_Params;
  ps_dt : R;
  ps_gains : axis -> R * R * R;
  ps_control : Control_Params;
  ps_thruster_strength : nat -> R
}.

Definition configured (make : R -> R -> R -> R -> PID_Controller)
    (ps : Param_Server) (a : axis) : PID_Controller :=
  let '(p, i, d) := ps_gains ps a in make p i d (ps_dt ps).

(** [set_up_PID_controllers(initialization=False)]: limits, gains and
    thruster strengths are read again; the controller objects are kept
    and given the new gains. *)
Definition set_up_PID_controllers (ps : Param_Server) (mp : Movement_PID)
  : Movement_PID :=
  let regain a := configured (fun p i d d_t => set_gains p i d d_t (pid_of a mp)) ps a in
  {| thrusters := thrusters mp;
     remote_desired_depth := remote_desired_depth mp;
     remote_depth_recorded := remote_depth_recorded mp;
     remote_params := remote_params mp;
     control_params := ps_control ps;
     roll_pid_controller := regain Roll;
     pitch_pid_controller := regain Pitch;
     yaw_pid_controller := regain Yaw;
     x_pid_controller := regain X;
     y_pid_controller := regain Y;
     z_pid_controller := regain Z_;
     thruster_strengths := map (fun i => ps_thruster_strength ps (i + 1)) (seq 0 8) |}.

(** [Movement_PID.__init__], which ends in
    [set_up_PID_controllers(True)]. *)
Definition new_Movement_PID (ps : Param_Server) : Movement_PID :=
  {| thrusters := make_thrusters (ps_max_thrust ps);
     remote_desired_depth := 0;
     remote_depth_recorded := false;
     remote_params := ps_remote ps;
     control_params := ps_control ps;
     roll_pid_controller := configured new_PID_Controller ps Roll;
     pitch_pid_controller := configured new_PID_Controller ps Pitch;
     yaw_pid_controller := configured new_PID_Controller ps Yaw;
     x_pid_controller := configured new_PID_Controller ps X;
     y_pid_controller := configured new_PID_Controller ps Y;
     z_pid_controller := configured new_PID_Controller ps Z_;
     thruster_strengths := map (fun i => ps_thruster_strength ps (i + 1)) (seq 0 8) |}.

(** ** Navigation_Controller *)

(** [sub_killed] starts as the integer 1 and later holds the boolean of
    the last KILL_SUB message; [True == 1] and [False == 0], so it is
    kept as an integer.  [waypoint_file] is [None] or a file object,
    which is open ([Some true]) or closed ([Some false]); the csv
    writer writes to that object.  [current_waypoint_number] does not
    exist before the first enable.  The flags set by the movement-mode
    callback ([pid_values_update_freeze] and the like) are read nowhere
    and are left out. *)
Record Navigation_Controller : Type := {
  movement_mode : Z;
  sub_killed : Z;
  pid_controller : Movement_PID;
  current_position : list R;
  pos_error : list R;
  desired_position : list R;
  remote_commands : list R;
  waypoint_file : option bool;
  enable_waypoint_collection : bool;
  current_waypoint_number : option Z
}.

Definition set_movement_mode (v : Z) (nc : Navigation_Controller) :=
  {| movement_mode := v; sub_killed := sub_killed nc;
     pid_controller := pid_controller nc;
     current_position := current_position nc; pos_error := pos_error nc;
     desired_position := desired_position nc;
     remote_commands := remote_commands nc; waypoint_file := waypoint_file nc;
     enable_waypoint_collection := enable_waypoint_collection nc;
     current_waypoint_number := current_waypoint_number nc |}.

Definition set_sub_killed (v : Z) (nc : Navigation_Controller) :=
  {| movement_mode := movement_mode nc; sub_killed := v;
     pid_controller := pid_controller nc;
     current_position := current_position nc; pos_error := pos_error nc;
     desired_position := desired_position nc;
     remote_commands := remote_commands nc; waypoint_file := waypoint_file nc;
     enable_waypoint_collection := enable_waypoint_collection nc;
     current_waypoint_number := current_waypoint_number nc |}.

Definition set_pid_controller (v : Movement_PID) (nc : Navigation_Controller) :=
  {| movement_mode := movement_mode nc; sub_killed := sub_killed nc;
     pid_controller := v;
     current_position := current_position nc; pos_error := pos_error nc;
     desired_position := desired_position nc;
     remote_commands := remote_commands nc; waypoint_file := waypoint_file nc;
     enable_waypoint_collection := enable_waypoint_collection nc;
     current_waypoint_number := current_waypoint_number nc |}.

Definition set_current_position (v : list R) (nc : Navigation_Controller) :=
  {| movement_mode := movement_mode nc; sub_killed := sub_killed nc;
     pid_controller := pid_controller nc;
     current_position := v; pos_error := pos_error nc;
     desired_position := desired_position nc;
     remote_commands := remote_commands nc; waypoint_file := waypoint_file nc;
     enable_waypoint_collection := enable_waypoint_collection nc;
     current_waypoint_number := current_waypoint_number nc |}.

Definition set_pos_error (v : list R) (nc : Navigation_Controller) :=
  {| movement_mode := movement_mode nc; sub_killed := sub_killed nc;
     pid_controller := pid_controller nc;
     current_position := current_position nc; pos_error := v;
     desired_position := desired_position nc;
     remote_commands := remote_commands nc; waypoint_file := waypoint_file nc;
     enable_waypoint_collection := enable_waypoint_collection nc;
     current_waypoint_number := current_waypoint_number nc |}.

Definition set_desired_position (v : list R) (nc : Navigation_Controller) :=
  {| movement_mode := movement_mode nc; sub_killed := sub_killed nc;
     pid_controller := pid_controller nc;
     current_position := current_position nc; pos_error := pos_error nc;
     desired_position := v;
     remote_commands := remote_commands nc; waypoint_file := waypoint_file nc;
     enable_waypoint_collection := enable_waypoint_collection nc;
     current_waypoint_number := current_waypoint_number nc |}.

Definition set_remote_commands (v : list R) (nc : Navigation_Controller) :=
  {| movement_mode := movement_mode nc; sub_killed := sub_killed nc;
     pid_controller := pid_controller nc;
     current_position := current_position nc; pos_error := pos_error nc;
     desired_position := desired_position nc;
     remote_commands := v; waypoint_file := waypoint_file nc;
     enable_waypoint_collection := enable_waypoint_collection nc;
     current_waypoint_number := current_waypoint_number nc |}.

Definition set_waypoint_file (v : option bool) (nc : Navigation_Controller) :=
  {| movement_mode := movement_mode nc; sub_killed := sub_killed nc;
     pid_controller := pid_controller nc;
     current_position := current_position nc; pos_error := pos_error nc;
     desired_position := desired_position nc;
     remote_commands := remote_commands nc; waypoint_file := v;
     enable_waypoint_collection := enable_waypoint_collection nc;
     current_waypoint_number := current_waypoint_number nc |}.

Definition set_enable_waypoint_collection (v : bool) (nc : Navigation_Controller) :=
  {| movement_mode := movement_mode nc; sub_killed := sub_killed nc;
     pid_controller := pid_controller nc;
     current_position := current_position nc; pos_error := pos_error nc;
     desired_position := desired_position nc;
     remote_commands := remote_commands nc; waypoint_file := waypoint_file nc;
     enable_waypoint_collection := v;
     current_waypoint_number := current_waypoint_number nc |}.

Definition set_current_waypoint_number (v : option Z) (nc : Navigation_Controller) :=
  {| movement_mode := movement_mode nc; sub_killed := sub_killed nc;
     pid_controller := pid_controller nc;
     current_position := current_position nc; pos_error := pos_error nc;
     desired_position := desired_position nc;
     remote_commands := remote_commands nc; waypoint_file := waypoint_file nc;
     enable_waypoint_collection := enable_waypoint_collection nc;
     current_waypoint_number := v |}.

(** [Navigation_Controller.__init__]. *)
Definition new_Navigation_Controller (ps : Param_Server) : Navigation_Controller :=
  {| movement_mode := 0; sub_killed := 1;
     pid_controller := new_Movement_PID ps;
     current_position := [0; 0; 0; 0; 0; 0];
     pos_error := [0; 0; 0; 0; 0; 0];
     desired_position := [0; 0; 0; 0; 0; 0];
     remote_commands := [0; 0; 0; 0; 0];
     waypoint_file := None;
     enable_waypoint_collection := false;
     current_waypoint_number := None |}.

(** Methods of [self.pid_controller], and [advance_move] called on
    [self.pid_controller] with [self.desired_position] itself. *)
Definition on_pid_controller {A} (m : M Movement_PID A) : M Navigation_Controller A :=
  zoom pid_controller set_pid_controller m.

Definition with_desired_position {A} (m : M (Movement_PID * list R) A)
  : M Navigation_Controller A :=
  zoom (fun nc => (pid_controller nc, desired_position nc))
       (fun s nc => set_desired_position (snd s) (set_pid_controller (fst s) nc))
       m.

(** [_update_sub_killed_state]. *)
Definition _update_sub_killed_state (killed_state : bool)
  : M Navigation_Controller unit :=
  modify (set_sub_killed (Z.b2z killed_state)).

(** [__update_sensor_data]. *)
Definition __update_sensor_data (sensor_data : list R)
  : M Navigation_Controller unit :=
  modify (set_current_position sensor_data).

(** [__update_movement_mode_callback]. *)
Definition __update_movement_mode_callback (mode : Z)
  : M Navigation_Controller unit :=
  modify (set_movement_mode mode).

(** [__update_pid_configs_callback]; [ps] is what the parameter server
    holds at that moment. *)
Definition __update_pid_configs_callback (ps : Param_Server)
  : M Navigation_Controller unit :=
  on_pid_controller (modify (set_up_PID_controllers ps)).

(** [_read_remote_control]. *)
Definition _read_remote_control (commands : list R)
  : M Navigation_Controller unit :=
  modify (set_remote_commands commands) ;;;
  enabled <- gets enable_waypoint_collection ;;
  (if enabled then
     rc <- gets remote_commands ;;
     r5 <- index rc 5 ;;
     if truthy r5 then
       cp <- gets current_position ;;
       match drop 3 cp with
       | [north_pos; east_pos; depth] =>
           number <- gets current_waypoint_number ;;
           match number with
           | Some n =>
               file <- gets waypoint_file ;;
               match file with
               | Some true =>
                   emit (writerow n north_pos east_pos depth) ;;;
                   modify (set_current_waypoint_number (Some (n + 1)%Z))
               | _ => raise
               end
           | None => raise
           end
       | _ => raise
       end
     else ret tt
   else ret tt) ;;;
  rc <- gets remote_commands ;;
  r6 <- index rc 6 ;;
  if truthy r6 then emit publish_zero_position else ret tt.

(** [__update_enable_waypoint_collection]; reading the file name from
    the parameter server and opening the file are taken to succeed. *)
Definition close_waypoint_file : M Navigation_Controller unit :=
  file <- gets waypoint_file ;;
  match file with
  | Some _ => emit file_close ;;; modify (set_waypoint_file (Some false))
  | None => ret tt
  end.

Definition __update_enable_waypoint_collection (enable : bool)
  : M Navigation_Controller unit :=
  modify (set_enable_waypoint_collection enable) ;;;
  enabled <- gets enable_waypoint_collection ;;
  if enabled then
    close_waypoint_file ;;;
    emit file_open ;;;
    modify (set_waypoint_file (Some true)) ;;;
    modify (set_current_waypoint_number (Some 0%Z))
  else
    close_waypoint_file.

(** [__unpack_desired_position_callback]: the new list is stored, then
    printed axis by axis against the six names of [MOVEMENT_AXIS]. *)
Definition __unpack_desired_position_callback (position : list R)
  : M Navigation_Controller unit :=
  modify (set_desired_position position) ;;;
  dp <- gets desired_position ;;
  for_enumerate
    (fun i _ => if (i <? 6)%nat then ret tt else raise) 0%nat dp.

(** [__update_thruster_test_callback]. *)
Definition __update_thruster_test_callback (thrusts : list R)
  : M Navigation_Controller unit :=
  on_pid_controller (simple_thrust thrusts).

(** [run]: one turn of its loop, after the wait for the next tick. *)
Definition run : M Navigation_Controller unit :=
  killed <- gets sub_killed ;;
  if (killed =? 1)%Z then
    on_pid_controller (simple_thrust [0; 0; 0; 0; 0; 0; 0; 0])
  else
    mode <- gets movement_mode ;;
    if (mode =? 0)%Z then
      cp <- gets current_position ;;
      error <- with_desired_position (advance_move cp) ;;
      modify (set_pos_error error)
    else if (mode =? 1)%Z then
      ret tt
    else if (mode =? 2)%Z then
      cp <- gets current_position ;;
      rc <- gets remote_commands ;;
      on_pid_controller (remote_move cp rc)
    else if (mode =? 3)%Z then
      cp <- gets current_position ;;
      with_desired_position (advance_move cp) ;;;
      ret tt
    else
      ret tt.

(** ** The controller as a machine

    The subscriber callbacks are all run by the command-listener thread,
    one message at a time, and an exception of a callback is caught
    there; the loop of [run] is stopped by an exception.  Taking each
    callback and each turn of the loop as one step gives the following
    machine. *)
Inductive event : Type :=
| Tick
| KILL_SUB (killed_state : bool)
| SENSOR_DATA (sensor_data : list R)
| MOVEMENT_MODE (mode : Z)
| UPDATE_PID_CONFIGS (ps : Param_Server)
| REMOTE_CONTROL_COMMAND (commands : list R)
| ENABLE_WAYPOINT_COLLECTION (enable : bool)
| DESIRED_POSITION (position : list R)
| THRUSTS (thrusts : list R).

Definition handle (e : event) : M Navigation_Controller unit :=
  match e with
  | Tick => run
  | KILL_SUB b => _update_sub_killed_state b
  | SENSOR_DATA d => __update_sensor_data d
  | MOVEMENT_MODE m => __update_movement_mode_callback m
  | UPDATE_PID_CONFIGS ps => __update_pid_configs_callback ps
  | REMOTE_CONTROL_COMMAND c => _read_remote_control c
  | ENABLE_WAYPOINT_COLLECTION b => __update_enable_waypoint_collection b
  | DESIRED_POSITION p => __unpack_desired_position_callback p
  | THRUSTS t => __update_thruster_test_callback t
  end.

(** The state and the output after a list of events; nothing follows a
    turn of the loop that raised. *)
Fixpoint run_events (es : list event) (nc : Navigation_Controller)
  : Navigation_Controller * list effect :=
  match es with
  | [] => (nc, [])
  | e :: es' =>
      match handle e nc, e with
      | Raises nc' o, Tick => (nc', o)
      | r, _ =>
          let '(nc'', o') := run_events es' (state_of r) in
          (nc'', output_of r ++ o')
      end
  end.

(** [simple_depth_move_no_yaw], the helper for tuning roll, pitch and
    depth. *)
Definition simple_depth_move_no_yaw
    (curr_roll curr_pitch curr_z_pos desired_roll desired_pitch desired_z_pos : R)
  : M Movement_PID (list R) :=
  let error := [0; 0; 0; 0; 0; 0] in
  let error := <[0%nat := desired_roll - curr_roll]> error in
  e0 <- index error 0 ;;
  roll_control <- pid_control_step Roll e0 ;;
  let error := <[1%nat := desired_pitch - curr_pitch]> error in
  e1 <- index error 1 ;;
  pitch_control <- pid_control_step Pitch e1 ;;
  let error := <[2%nat := desired_z_pos - curr_z_pos]> error in
  e2 <- index error 2 ;;
  z_control <- pid_control_step Z_ e2 ;;
  controlled_thrust roll_control pitch_control 0 0 0 z_control curr_z_pos ;;;
  ret error.

(** ** The senders of the messages: [GUI/Src]

    Both work on a list object they own ([self._axes], [self.thrusts]);
    the state of the computations below is that list.  [l[i] = v] on a
    list raises IndexError past the end. *)
Definition item (i : nat) : M (list R) R :=
  l <- gets (fun l : list R => l) ;; index l i.

Definition assign_item (i : nat) (v : R) : M (list R) unit :=
  fun l =>
    if (i <? length l)%nat then Returns tt (<[i := v]> l) [] else Raises l [].

(** [Remote_Control_Input._control]: the dead zones are written into
    the list passed as [axis_array], the message is a new list.  The
    literal [0.3] is read as three tenths. *)
Definition _control : M (list R) (list R) :=
  let depth := 0 in
  (* strafe *)
  a0 <- item 0 ;;
  (if Rgt_dec a0 (-(3 / 10)) then
     a0' <- item 0 ;;
     if Rlt_dec a0' (3 / 10) then assign_item 0 0 else ret tt
   else ret tt) ;;;
  (* forward, backward *)
  a1 <- item 1 ;;
  (if Rgt_dec a1 (-(3 / 10)) then
     a1' <- item 1 ;;
     if Rlt_dec a1' (3 / 10) then assign_item 1 0 else ret tt
   else ret tt) ;;;
  (* yaw *)
  a3 <- item 3 ;;
  (if Rgt_dec a3 (-(3 / 10)) then
     a3' <- item 3 ;;
     if Rlt_dec a3' (3 / 10) then assign_item 3 0 else ret tt
   else ret tt) ;;;
  (* depth *)
  a2 <- item 2 ;;
  depth <-
    (if Rgt_dec a2 0 then
       a2' <- item 2 ;; ret (-1 * ((a2' + 1) / 2))
     else
       a4 <- item 4 ;;
       if Rgt_dec a4 0 then
         a4' <- item 4 ;; ret ((a4' + 1) / 2)
       else ret depth) ;;
  b3 <- item 3 ;;
  b1 <- item 1 ;;
  b0 <- item 0 ;;
  b5 <- item 5 ;;
  b6 <- item 6 ;;
  b7 <- item 7 ;;
  ret [b3; b1; b0; depth; b5; b6; b7].

(** [Remote_Control_Input]: the axes and the three flags.  What
    [pygame] hands to a turn of the loop of its [run]: the event taken
    from the queue, which is the release of a button or something
    else, and the position of each axis of the joystick. *)
Record Remote_Control_Input : Type := {
  _axes : list R;
  _remote_depth_hold : bool;
  _record_waypoint : bool;
  _zero_waypoint : bool
}.

Inductive pygame_event : Type :=
| JOYBUTTONUP (button : Z)
| other_event.

Definition new_Remote_Control_Input : Remote_Control_Input :=
  {| _axes := [0; 0; 0; 0; 0; 0; 0; 0];
     _remote_depth_hold := false;
     _record_waypoint := false;
     _zero_waypoint := false |}.

Definition set_axes (v : list R) (rc : Remote_Control_Input) :=
  {| _axes := v; _remote_depth_hold := _remote_depth_hold rc;
     _record_waypoint := _record_waypoint rc;
     _zero_waypoint := _zero_waypoint rc |}.

Definition set_remote_depth_hold (v : bool) (rc : Remote_Control_Input) :=
  {| _axes := _axes rc; _remote_depth_hold := v;
     _record_waypoint := _record_waypoint rc;
     _zero_waypoint := _zero_waypoint rc |}.

Definition set_record_waypoint (v : bool) (rc : Remote_Control_Input) :=
  {| _axes := _axes rc; _remote_depth_hold := _remote_depth_hold rc;
     _record_waypoint := v; _zero_waypoint := _zero_waypoint rc |}.

Definition set_zero_waypoint (v : bool) (rc : Remote_Control_Input) :=
  {| _axes := _axes rc; _remote_depth_hold := _remote_depth_hold rc;
     _record_waypoint := _record_waypoint rc; _zero_waypoint := v |}.

Definition on_axes {A} (m : M (list R) A) : M Remote_Control_Input A :=
  zoom _axes set_axes m.

(** A boolean stored among the numbers of a list. *)
Definition of_bool (b : bool) : R := if b then 1 else 0.

(** [Remote_Control_Input.run]: one turn of its loop that finds an
    event in the queue; the value is the message published. *)
Definition remote_input_turn (instance : pygame_event) (get_axis : nat -> R)
  : M Remote_Control_Input (list R) :=
  on_axes (assign_item 0 (get_axis 0%nat)) ;;;
  on_axes (assign_item 1 (get_axis 1%nat)) ;;;
  on_axes (assign_item 2 (get_axis 2%nat)) ;;;
  on_axes (assign_item 3 (get_axis 3%nat)) ;;;
  on_axes (assign_item 4 (get_axis 5%nat)) ;;;
  (match instance with
   | JOYBUTTONUP button =>
       (if (button =? 1)%Z then
          hold <- gets _remote_depth_hold ;;
          modify (set_remote_depth_hold (negb hold))
        else ret tt) ;;;
       (if (button =? 0)%Z then modify (set_record_waypoint true) else ret tt) ;;;
       (if (button =? 2)%Z then modify (set_zero_waypoint true) else ret tt)
   | other_event => ret tt
   end) ;;;
  hold <- gets _remote_depth_hold ;;
  on_axes (assign_item 5 (of_bool hold)) ;;;
  record <- gets _record_waypoint ;;
  on_axes (assign_item 6 (of_bool record)) ;;;
  zero <- gets _zero_waypoint ;;
  on_axes (assign_item 7 (of_bool zero)) ;;;
  message <- on_axes _control ;;
  modify (set_record_waypoint false) ;;;
  modify (set_zero_waypoint false) ;;;
  ret message.

(** [Thruster_Test._update_test_thrust]: [desired_thrust] is the value
    of the slider, [checked] the state of the eight check boxes; the
    state is [self.thrusts], which is also the message published. *)
Definition test_thrust_of_box (desired_thrust : Z) (checked : list bool) (i : nat)
  : M (list R) unit :=
  box <- index checked i ;;
  if (box : bool) then assign_item i (IZR desired_thrust) else assign_item i 0.

Definition _update_test_thrust (desired_thrust : Z) (checked : list bool)
  : M (list R) (list R) :=
  test_thrust_of_box desired_thrust checked 0 ;;;
  test_thrust_of_box desired_thrust checked 1 ;;;
  test_thrust_of_box desired_thrust checked 2 ;;;
  test_thrust_of_box desired_thrust checked 3 ;;;
  test_thrust_of_box desired_thrust checked 4 ;;;
  test_thrust_of_box desired_thrust checked 5 ;;;
  test_thrust_of_box desired_thrust checked 6 ;;;
  test_thrust_of_box desired_thrust checked 7 ;;;
  gets (fun thrusts : list R => thrusts).

(** * Specification-side definitions *)

(** Components of an orientation or location vector. *)
Definition vec_x (v : list R) : R := nth 0 v 0.
Definition vec_y (v : list R) : R := nth 1 v 0.
Definition vec_z (v : list R) : R := nth 2 v 0.

Definition well_formed (t : Thruster) : Prop :=
  length (orientation t) = 3%nat /\ length (location t) = 3%nat.

(** The six-term allocation of one thruster. *)
Definition base_allocation (t : Thruster) (roll_c pitch_c yaw_c x_c y_c z_c : R) : R :=
  (- roll_c * vec_z (orientation t) * vec_y (location t))
  + (pitch_c * vec_z (orientation t) * vec_x (location t))
  + (yaw_c * vec_y (orientation t) * vec_x (location t))
  + (- x_c * vec_x (orientation t))
  + (y_c * vec_y (orientation t))
  + (z_c * vec_z (orientation t)).

(** The allocation, trimmed by the strength of the thruster, then
    biased below the activation depth. *)
Definition commanded_thrust (mp : Movement_PID) (t : Thruster) (strength : R)
    (roll_c pitch_c yaw_c x_c y_c z_c current_depth : R) : R :=
  base_allocation t roll_c pitch_c yaw_c x_c y_c z_c * (1 + strength)
  + (if Rge_dec current_depth (z_active_bias_depth mp)
     then z_bias mp * vec_z (orientation t) else 0).

Definition thrust_commands (mp : Movement_PID)
    (roll_c pitch_c yaw_c x_c y_c z_c current_depth : R) : list effect :=
  zip_with
    (fun t s => set_thrust (id t)
       (commanded_thrust mp t s roll_c pitch_c yaw_c x_c y_c z_c current_depth))
    (thrusters mp) (thruster_strengths mp).

(** The state [__init__] and [set_up_PID_controllers] keep: each
    thruster has two vectors of three components and a strength. *)
Definition configured_thrusters (mp : Movement_PID) : Prop :=
  Forall well_formed (thrusters mp)
  /\ (length (thrusters mp) <= length (thruster_strengths mp))%nat.

(** The limits on the desired pose: roll and pitch keep their sign and
    take the magnitude of the limit, depth takes the boundary. *)
Definition clamp_angle (limit desired : R) : R :=
  if Rgt_dec (Rabs desired) limit then copysign limit desired else desired.

Definition clamp_depth (lo hi desired : R) : R :=
  if Rlt_dec desired lo then lo
  else if Rgt_dec desired hi then hi
  else desired.

(** The yaw error along the shorter way round. *)
Definition shortest_yaw_error (desired_yaw current_yaw : R) : R :=
  let e := desired_yaw - current_yaw in
  if Rgt_dec (Rabs e) 180
  then if Rlt_dec e 0 then e + 360 else e - 360
  else e.

(** The north/east error seen from the sub, for a yaw in degrees. *)
Definition body_frame_x (yaw north_error east_error : R) : R :=
  cos (radians yaw) * north_error + sin (radians yaw) * east_error.

Definition body_frame_y (yaw north_error east_error : R) : R :=
  - sin (radians yaw) * north_error + cos (radians yaw) * east_error.

(** One controller stepped with an error: the controller object
    afterwards, and the control output. *)
Definition stepped (a : axis) (error : R) (mp : Movement_PID) : Movement_PID :=
  set_pid a (snd (control_step (pid_of a mp) error)) mp.

Definition control (a : axis) (error : R) (mp : Movement_PID) : R :=
  fst (control_step (pid_of a mp) error).

(** The desired pose [advance_move] leaves behind. *)
Definition clamped_pose (mp : Movement_PID) (d0 d1 d2 d3 d4 d5 : R) : list R :=
  [clamp_angle (max_roll mp) d0; clamp_angle (max_pitch mp) d1; d2; d3; d4;
   clamp_depth (min_z mp) (max_z mp) d5].

(** The depth latch of [remote_move] after a call at depth [c5] with
    the hold flag [hold], and the depth error of that call for the
    trigger value [r3]. *)
Definition after_latch (hold : bool) (c5 : R) (mp : Movement_PID) : Movement_PID :=
  if hold then
    if remote_depth_recorded mp then mp
    else set_remote_depth_recorded true (set_remote_desired_depth c5 mp)
  else set_remote_desired_depth 0 (set_remote_depth_recorded false mp).

Definition remote_depth_error (hold : bool) (r3 c5 : R) (mp : Movement_PID) : R :=
  if hold then
    bound_error (remote_desired_depth (after_latch hold c5 mp) - c5)
      (z_min_error mp) (z_max_error mp)
  else if Rle_dec r3 0 then interp r3 (-1) 0 (z_min_error mp) 0
  else interp r3 0 1 0 (z_max_error mp).

(** Calls of [remote_move] one after the other, as the loop of [run]
    makes them in remote-control mode; each call is a current position
    and a list of remote commands. *)
Fixpoint remote_moves (calls : list (list R * list R)) : M Movement_PID unit :=
  match calls with
  | [] => ret tt
  | (current_position, remote_commands) :: rest =>
      remote_move current_position remote_commands ;;; remote_moves rest
  end.

(** A call with a full pose and the hold-depth flag set. *)
Definition holds_depth (call : list R * list R) : Prop :=
  length (fst call) = 6%nat
  /\ exists r0 r1 r2 r3 r4 rest,
       snd call = r0 :: r1 :: r2 :: r3 :: r4 :: rest /\ truthy r4 = true.


(** What reaches the waypoint file: the part of an output made of
    file operations and rows. *)
Definition is_waypoint_effect (e : effect) : bool :=
  match e with
  | file_open | file_close | writerow _ _ _ _ => true
  | set_thrust _ _ | publish_zero_position => false
  end.

Definition waypoint_log (out : list effect) : list effect :=
  List.filter is_waypoint_effect out.


Definition is_enable (e : event) : bool :=
  match e with
  | ENABLE_WAYPOINT_COLLECTION _ => true
  | _ => false
  end.

(** The part of the controller the waypoint collection lives in. *)
Definition waypoint_state (nc : Navigation_Controller)
  : option bool * bool * option Z :=
  (waypoint_file nc, enable_waypoint_collection nc, current_waypoint_number nc).

(** A computation that writes nothing to the waypoint file, and one
    that in addition leaves the waypoint collection as it is. *)
Definition silent {St A} (m : M St A) : Prop :=
  forall s, waypoint_log (output_of (m s)) = [].

Definition quiet {A} (m : M Navigation_Controller A) : Prop :=
  forall nc,
    waypoint_log (output_of (m nc)) = []
    /\ waypoint_state (state_of (m nc)) = waypoint_state nc.

(** Waypoint collection is on, the file is open and the next row gets
    the number [n]. *)
Definition recording (nc : Navigation_Controller) (n : Z) : Prop :=
  waypoint_state nc = (Some true, true, Some n).


(** A property of the state that a computation keeps, and the one
    [__init__] sets up for the thrusters: the eight thrusters built
    there and a strength for each. *)
Definition keeps {St A} (P : St -> Prop) (m : M St A) : Prop :=
  forall s, P s -> P (state_of (m s)).

Definition built_thrusters (mt : R) (mp : Movement_PID) : Prop :=
  thrusters mp = make_thrusters mt /\ length (thruster_strengths mp) = 8%nat.

(** A configuration to run the controller on. *)
Definition sample_control : Control_Params :=
  {| roll_min_error := -30; roll_max_error := 30; max_roll := 20;
     pitch_min_error := -30; pitch_max_error := 30; max_pitch := 20;
     yaw_min_error := -45; yaw_max_error := 45;
     x_min_error := -5; x_max_error := 5;
     y_min_error := -5; y_max_error := 5;
     z_min_error := -2; z_max_error := 4;
     min_z := 0; max_z := 30;
     z_bias := 5; z_active_bias_depth := 10 |}.

Definition sample_remote : Remote_Params :=
  {| remote_yaw_min_thrust := -40; remote_yaw_max_thrust := 40;
     remote_x_min_thrust := -60; remote_x_max_thrust := 80;
     remote_y_min_thrust := -50; remote_y_max_thrust := 50 |}.

Definition sample_params : Param_Server :=
  {| ps_max_thrust := 80;
     ps_remote := sample_remote;
     ps_dt := 1 / 10;
     ps_gains := fun _ => (2, 0, 1);
     ps_control := sample_control;
     ps_thruster_strength := fun i => if (i =? 3)%nat then 1 / 4 else 0 |}.

(** The controller after an unkill and a desired pose beyond the
    limits of [sample_params]. *)
Definition sample_controller : Navigation_Controller :=
  set_desired_position [45; -45; 10; 1; 2; 50]
    (set_sub_killed 0 (new_Navigation_Controller sample_params)).

(** The values written to the thrusters, in the order of the writes. *)
Definition thrust_values (out : list effect) : list R :=
  omap (fun e => match e with set_thrust _ v => Some v | _ => None end) out.

(** The error ranges are ordered, and an error vector of six values
    lies within them. *)
Definition ordered_error_limits (mp : Movement_PID) : Prop :=
  roll_min_error mp <= roll_max_error mp
  /\ pitch_min_error mp <= pitch_max_error mp
  /\ yaw_min_error mp <= yaw_max_error mp
  /\ x_min_error mp <= x_max_error mp
  /\ y_min_error mp <= y_max_error mp
  /\ z_min_error mp <= z_max_error mp.

Definition within_error_limits (mp : Movement_PID) (error : list R) : Prop :=
  exists e0 e1 e2 e3 e4 e5,
    error = [e0; e1; e2; e3; e4; e5]
    /\ roll_min_error mp <= e0 <= roll_max_error mp
    /\ pitch_min_error mp <= e1 <= pitch_max_error mp
    /\ yaw_min_error mp <= e2 <= yaw_max_error mp
    /\ x_min_error mp <= e3 <= x_max_error mp
    /\ y_min_error mp <= e4 <= y_max_error mp
    /\ z_min_error mp <= e5 <= z_max_error mp.

(** The limits on the desired pose are ordered, and a desired pose of
    six values lies within them. *)
Definition ordered_pose_limits (mp : Movement_PID) : Prop :=
  0 <= max_roll mp /\ 0 <= max_pitch mp /\ min_z mp <= max_z mp.

Definition within_pose_limits (mp : Movement_PID) (desired : list R) : Prop :=
  exists d0 d1 d2 d3 d4 d5 rest,
    desired = d0 :: d1 :: d2 :: d3 :: d4 :: d5 :: rest
    /\ Rabs d0 <= max_roll mp
    /\ Rabs d1 <= max_pitch mp
    /\ min_z mp <= d5 <= max_z mp.

(** Eight writes, one to each of the thrusters 1 to 8, in this order. *)
Definition eight_writes (out : list effect) : Prop :=
  exists v1 v2 v3 v4 v5 v6 v7 v8,
    out = [set_thrust 1 v1; set_thrust 2 v2; set_thrust 3 v3; set_thrust 4 v4;
           set_thrust 5 v5; set_thrust 6 v6; set_thrust 7 v7; set_thrust 8 v8].





(** The waypoint file as the controller may use it: no file has been
    opened yet, or the last one opened is open, or it is closed.  A
    log of file operations is in order when a file is opened only
    while none is open, closed only after one has been opened, and
    rows are written only to an open file, each with the number of
    rows written to that file before it. *)
Inductive file_state : Type := no_file | file_is_open | file_is_closed.

Fixpoint in_order (st : file_state) (next : Z) (log : list effect) : bool :=
  match log with
  | [] => true
  | file_open :: log' =>
      match st with file_is_open => false | _ => in_order file_is_open 0 log' end
  | file_close :: log' =>
      match st with no_file => false | _ => in_order file_is_closed next log' end
  | writerow n _ _ _ :: log' =>
      match st with
      | file_is_open => (n =? next)%Z && in_order file_is_open (next + 1) log'
      | _ => false
      end
  | _ :: log' => in_order st next log'
  end.

(** Where a log that is in order leaves the file and the count. *)
Fixpoint after_log (st : file_state) (next : Z) (log : list effect)
  : file_state * Z :=
  match log with
  | [] => (st, next)
  | file_open :: log' => after_log file_is_open 0 log'
  | file_close :: log' => after_log file_is_closed next log'
  | writerow _ _ _ _ :: log' => after_log st (next + 1) log'
  | _ :: log' => after_log st next log'
  end.

(** The file as the controller sees it, and the states in which the
    attributes of the waypoint collection agree with each other. *)
Definition file_of (nc : Navigation_Controller) : file_state :=
  match waypoint_file nc with
  | None => no_file
  | Some true => file_is_open
  | Some false => file_is_closed
  end.

Definition collecting (nc : Navigation_Controller) (next : Z) : Prop :=
  if enable_waypoint_collection nc
  then waypoint_file nc = Some true /\ current_waypoint_number nc = Some next
  else waypoint_file nc <> Some true.

(** ** The senders, specification side *)

(** A stick past its dead zone of three tenths to either side. *)
Definition dead_zone (v : R) : R :=
  if Rgt_dec v (-(3 / 10)) then if Rlt_dec v (3 / 10) then 0 else v else v.

(** The depth command of the two triggers. *)
Definition trigger_depth (left_trigger right_trigger : R) : R :=
  if Rgt_dec left_trigger 0 then -1 * ((left_trigger + 1) / 2)
  else if Rgt_dec right_trigger 0 then (right_trigger + 1) / 2
  else 0.

(** The turns of the loop of [Remote_Control_Input.run] that find an
    event: the state after them and the messages published, oldest
    first.  A turn that raises ends the thread. *)
Fixpoint remote_input_turns (turns : list (pygame_event * (nat -> R)))
    (rc : Remote_Control_Input) : Remote_Control_Input * list (list R) :=
  match turns with
  | [] => (rc, [])
  | (instance, get_axis) :: turns' =>
      match remote_input_turn instance get_axis rc with
      | Returns message rc' _ =>
          let '(rc'', messages) := remote_input_turns turns' rc' in
          (rc'', message :: messages)
      | Raises rc' _ => (rc', [])
      end
  end.

(** The event is the release of the given button. *)
Definition released (button : Z) (instance : pygame_event) : bool :=
  match instance with
  | JOYBUTTONUP b => (b =? button)%Z
  | other_event => false
  end.

(** Button 1 was released an odd number of times. *)
Definition odd_releases_of_hold (turns : list (pygame_event * (nat -> R))) : bool :=
  foldr (fun turn hold => xorb (released 1 (fst turn)) hold) false turns.

(** A pose whose values are small enough for the differences, sums and
    products of [advance_move] to stay finite in double precision,
    where the largest finite value is about 1.8e308. *)
Definition pose_without_overflow (pose : list R) : Prop :=
  Forall (fun v => Rabs v <= 1e307) pose.

(** The list [_control] leaves behind: the dead zone applied to the
    items 0, 1 and 3 that exist. *)
Definition written_dead_zones (axes : list R) : list R :=
  let write i (l : list R) :=
    match l !! i with
    | Some v => <[i := dead_zone v]> l
    | None => l
    end in
  write 3%nat (write 1%nat (write 0%nat axes)).

(** * The rotation of [advance_move] in double precision

    A second embedding of lines 315 to 325 of [advance_move], on the
    IEEE 754 doubles of the kernel instead of the real numbers, to
    evaluate them as the interpreter does: rounding, infinities and NaN
    are those of the machine.  [math.radians] multiplies by the double
    nearest pi/180; [math.cos] and [math.sin] are the platform's and
    are a parameter. *)
Module Double.
Import PrimFloat.

Record libm : Type := {
  cos : float -> float;
  sin : float -> float
}.

(** [math.radians]. *)
Definition radians (deg : float) : float :=
  (deg * 0x1.1df46a2529d39p-6)%float.

(** [bound_error]. *)
Definition bound_error (unbounded_error min_error max_error : float) : float :=
  if (unbounded_error <? min_error)%float then min_error
  else if (max_error <? unbounded_error)%float then max_error
  else unbounded_error.

(** The local variables of [advance_move] after line 325. *)
Record position_error : Type := {
  north_error : float;
  east_error : float;
  yaw_rad : float;
  x_error : float;
  y_error : float;
  error_3 : float;
  error_4 : float
}.

(** Lines 315 to 325; [None] is the IndexError of a short list. *)
Definition advance_move_position_error (m : libm)
    (x_min_error x_max_error y_min_error y_max_error : float)
    (current_position desired_position : list float) : option position_error :=
  curr_yaw ← current_position !! 2%nat;
  d3 ← desired_position !! 3%nat;
  c3 ← current_position !! 3%nat;
  let north_error := (d3 - c3)%float in
  d4 ← desired_position !! 4%nat;
  c4 ← current_position !! 4%nat;
  let east_error := (d4 - c4)%float in
  let yaw_rad := radians curr_yaw in
  let x_error :=
    ((cos m yaw_rad * north_error) + (sin m yaw_rad * east_error))%float in
  let y_error :=
    ((-1 * sin m yaw_rad * north_error) + (cos m yaw_rad * east_error))%float in
  Some {| north_error := north_error; east_error := east_error;
          yaw_rad := yaw_rad; x_error := x_error; y_error := y_error;
          error_3 := bound_error x_error x_min_error x_max_error;
          error_4 := bound_error y_error y_min_error y_max_error |}.

(** [math.cos] and [math.sin] at the two arguments met below: at zero,
    where the C standard fixes them, and at the double nearest pi/2,
    [math.radians(90)], where the cosine is the double nearest
    6.123e-17.  At any other argument this table holds NaN. *)
Definition libm_at_0_and_90 : libm :=
  {| cos x :=
       if (x =? 0)%float then 1%float
       else if (x =? 0x1.921fb54442d18p+0)%float then 0x1.1a62633145c07p-54%float
       else nan;
     sin x :=
       if (x =? 0)%float then x
       else if (x =? 0x1.921fb54442d18p+0)%float then 1%float
       else nan |}.

End Double.

(** * Proofs *)

#[local] Arguments controlled_thrust : simpl never.
#[local] Arguments control_step : simpl never.
#[local] Arguments bound_error : simpl never.
#[local] Arguments copysign : simpl never.
#[local] Arguments radians : simpl never.
#[local] Arguments interp : simpl never.
#[local] Arguments thrust_commands : simpl never.
#[local] Arguments advance_move : simpl never.
#[local] Arguments remote_move : simpl never.
#[local] Arguments simple_thrust : simpl never.

Ltac run_py :=
  unfold bind, gets, index, ret, emit, modify, raise, zoom; cbn.

(** Two commands to the same thruster are equal when their values are. *)
Ltac same_thrust :=
  try reflexivity;
  match goal with
  | |- ?lhs = ?rhs =>
      match lhs with
      | context [set_thrust _ ?a] =>
          match rhs with
          | context [set_thrust _ ?b] =>
              let E := fresh in assert (E : a = b) by ring; rewrite E; reflexivity
          end
      end
  end.

Lemma bound_error_cases (raw lo hi : R) :
  (raw < lo /\ bound_error raw lo hi = lo)
  \/ (lo <= raw /\ raw > hi /\ bound_error raw lo hi = hi)
  \/ (lo <= raw <= hi /\ bound_error raw lo hi = raw).
Proof.
  unfold bound_error.
  destruct (Rlt_dec raw lo) as [Hlt | Hge].
  - left. split; [exact Hlt | reflexivity].
  - destruct (Rgt_dec raw hi) as [Hgt | Hle].
    + right. left. repeat split; [lra | exact Hgt].
    + right. right. split; [lra | reflexivity].
Qed.

(** C8: [bound_error] returns [min_error] below it, [max_error] above
    it and the argument otherwise; with [min_error <= max_error] the
    result is in the range, and a value in the range is returned as it
    is. *)
Theorem bound_error_clamp (raw min_error max_error : R) :
  (raw < min_error -> bound_error raw min_error max_error = min_error)
  /\ (~ raw < min_error -> raw > max_error ->
      bound_error raw min_error max_error = max_error)
  /\ (~ raw < min_error -> ~ raw > max_error ->
      bound_error raw min_error max_error = raw)
  /\ (min_error <= max_error ->
      min_error <= bound_error raw min_error max_error <= max_error)
  /\ (min_error <= raw <= max_error ->
      bound_error raw min_error max_error = raw).
Proof.
  destruct (bound_error_cases raw min_error max_error)
    as [[H ->] | [(H1 & H2 & ->) | (H & ->)]];
    repeat split; intros; lra.
Qed.

Lemma bound_error_clamp_witness :
  bound_error (-20) (-30) 30 = -20 /\ -30 <= bound_error 45 (-30) 30 <= 30.
Proof.
  split.
  - apply (bound_error_clamp (-20) (-30) 30). lra.
  - apply (bound_error_clamp 45 (-30) 30). lra.
Defined.

(** ** Control allocation *)

Lemma allocate_thruster_command (mp : Movement_PID) (rc pc yc xc yyc zc depth : R)
    (i : nat) (t : Thruster) (s : R) :
  thrusters mp !! i = Some t ->
  well_formed t ->
  thruster_strengths mp !! i = Some s ->
  allocate_thruster rc pc yc xc yyc zc depth i t mp =
  Returns tt mp
    [set_thrust (id t) (commanded_thrust mp t s rc pc yc xc yyc zc depth)].
Proof.
  intros Hi [Ho Hl] Hs.
  destruct t as [tid o l mt inv]. cbn in Ho, Hl.
  destruct o as [|o0 [|o1 [|o2 [|? ?]]]]; try discriminate Ho.
  destruct l as [|l0 [|l1 [|l2 [|? ?]]]]; try discriminate Hl.
  unfold allocate_thruster. run_py. rewrite Hs. cbn. rewrite Hi. cbn.
  unfold commanded_thrust, base_allocation. cbn.
  destruct (Rge_dec depth (z_active_bias_depth mp)); same_thrust.
Qed.

Lemma for_thrusters_commands (mp : Movement_PID) (rc pc yc xc yyc zc depth : R) :
  forall (ts : list Thruster) (i : nat),
    (forall k t, ts !! k = Some t ->
       thrusters mp !! (i + k)%nat = Some t /\ well_formed t
       /\ is_Some (thruster_strengths mp !! (i + k)%nat)) ->
    for_enumerate (allocate_thruster rc pc yc xc yyc zc depth) i ts mp =
    Returns tt mp
      (zip_with (fun t s => set_thrust (id t)
                   (commanded_thrust mp t s rc pc yc xc yyc zc depth))
         ts (drop i (thruster_strengths mp))).
Proof.
  induction ts as [| t ts IH]; intros i H.
  - reflexivity.
  - destruct (H 0%nat t eq_refl) as (Hi & Hwf & [s Hs]).
    rewrite Nat.add_0_r in Hi, Hs.
    cbn [for_enumerate]. unfold bind at 1.
    rewrite (allocate_thruster_command _ _ _ _ _ _ _ _ _ _ _ Hi Hwf Hs).
    rewrite IH.
    + rewrite (drop_S _ _ _ Hs). reflexivity.
    + intros k t' Hk. replace (S i + k)%nat with (i + S k)%nat by lia.
      apply H. exact Hk.
Qed.

Lemma controlled_thrust_commands (mp : Movement_PID) (rc pc yc xc yyc zc depth : R) :
  configured_thrusters mp ->
  controlled_thrust rc pc yc xc yyc zc depth mp =
  Returns tt mp (thrust_commands mp rc pc yc xc yyc zc depth).
Proof.
  intros [Hwf Hlen]. unfold controlled_thrust, bind, gets.
  rewrite for_thrusters_commands.
  - reflexivity.
  - intros k t Hk. cbn. split; [exact Hk |]. split.
    + exact (proj1 (Forall_lookup _ _) Hwf k t Hk).
    + apply lookup_lt_is_Some. apply lookup_lt_Some in Hk. lia.
Qed.

(** C2: the value written to each thruster is its six-term allocation,
    multiplied by one plus its strength, and then, exactly when the
    current depth has reached the activation depth, increased by the
    depth bias times the z component of its orientation. *)
Theorem controlled_thrust_allocation (mp : Movement_PID)
    (roll_c pitch_c yaw_c x_c y_c z_c current_depth : R) :
  configured_thrusters mp ->
  exists out : list effect,
    controlled_thrust roll_c pitch_c yaw_c x_c y_c z_c current_depth mp
    = Returns tt mp out
    /\ length out = length (thrusters mp)
    /\ forall (i : nat) (t : Thruster) (strength : R),
         thrusters mp !! i = Some t ->
         thruster_strengths mp !! i = Some strength ->
         let base :=
           (- roll_c * vec_z (orientation t) * vec_y (location t))
           + (pitch_c * vec_z (orientation t) * vec_x (location t))
           + (yaw_c * vec_y (orientation t) * vec_x (location t))
           + (- x_c * vec_x (orientation t))
           + (y_c * vec_y (orientation t))
           + (z_c * vec_z (orientation t)) in
         let trimmed := base * (1 + strength) in
         out !! i =
         Some (set_thrust (id t)
                 (if Rge_dec current_depth (z_active_bias_depth mp)
                  then trimmed + z_bias mp * vec_z (orientation t)
                  else trimmed)).
Proof.
  intros Hcfg. exists (thrust_commands mp roll_c pitch_c yaw_c x_c y_c z_c current_depth).
  split; [exact (controlled_thrust_commands _ _ _ _ _ _ _ _ Hcfg) |].
  destruct Hcfg as [_ Hlen]. unfold thrust_commands. split.
  - rewrite length_zip_with. lia.
  - intros i t s Ht Hs. cbn zeta.
    rewrite lookup_zip_with, Ht, Hs. cbn.
    unfold commanded_thrust, base_allocation.
    destruct (Rge_dec current_depth (z_active_bias_depth mp)); same_thrust.
Qed.

Lemma new_Movement_PID_configured (ps : Param_Server) :
  configured_thrusters (new_Movement_PID ps).
Proof.
  split.
  - cbn. repeat constructor.
  - cbn. lia.
Qed.

Lemma controlled_thrust_allocation_witness :
  exists out : list effect,
    controlled_thrust 1 2 3 4 5 6 12 (new_Movement_PID sample_params)
    = Returns tt (new_Movement_PID sample_params) out
    /\ length out = 8%nat.
Proof.
  destruct (controlled_thrust_allocation (new_Movement_PID sample_params)
              1 2 3 4 5 6 12 (new_Movement_PID_configured sample_params))
    as (out & Hrun & Hlen & _).
  exists out. split; [exact Hrun | exact Hlen].
Defined.

(** ** The yaw column of the allocation *)

Lemma make_thrusters_configured (mp : Movement_PID) (mt : R) :
  thrusters mp = make_thrusters mt ->
  length (thruster_strengths mp) = 8%nat ->
  configured_thrusters mp.
Proof.
  intros Hts Hlen. split.
  - rewrite Hts. cbn. repeat constructor.
  - rewrite Hts, Hlen. cbn. lia.
Qed.

Lemma make_thrusters_yaw_coefficient (mt : R) (t : Thruster) :
  t ∈ make_thrusters mt ->
  (id t = 2%Z /\ vec_y (orientation t) * vec_x (location t) = 1)
  \/ (id t = 6%Z /\ vec_y (orientation t) * vec_x (location t) = -1)
  \/ (id t <> 2%Z /\ id t <> 6%Z
      /\ vec_y (orientation t) * vec_x (location t) = 0).
Proof.
  unfold make_thrusters. intros H.
  repeat (apply elem_of_cons in H as [-> | H]);
    [ .. | apply elem_of_nil in H; destruct H ]; cbn.
  all: first
    [ left; split; [reflexivity | ring]
    | right; left; split; [reflexivity | ring]
    | right; right; split; [discriminate | split; [discriminate | ring]] ].
Qed.

Lemma base_allocation_yaw (t : Thruster) (r p x y z yaw yaw' : R) :
  base_allocation t r p yaw' x y z - base_allocation t r p yaw x y z
  = (yaw' - yaw) * (vec_y (orientation t) * vec_x (location t)).
Proof. unfold base_allocation. ring. Qed.

Lemma built_thrusters_commands (mt : R) (mp : Movement_PID)
    (rc pc yc xc yyc zc depth : R) :
  built_thrusters mt mp ->
  exists s1 s2 s3 s4 s5 s6 s7 s8,
    thruster_strengths mp = [s1; s2; s3; s4; s5; s6; s7; s8]
    /\ let bias := if Rge_dec depth (z_active_bias_depth mp) then z_bias mp else 0 in
       thrust_commands mp rc pc yc xc yyc zc depth
       = [set_thrust 1 ((rc + pc + zc) * (1 + s1) + bias);
          set_thrust 2 ((yc + yyc) * (1 + s2));
          set_thrust 3 ((- rc + pc + zc) * (1 + s3) + bias);
          set_thrust 4 (- xc * (1 + s4));
          set_thrust 5 ((- rc - pc + zc) * (1 + s5) + bias);
          set_thrust 6 ((- yc + yyc) * (1 + s6));
          set_thrust 7 ((rc - pc + zc) * (1 + s7) + bias);
          set_thrust 8 (- xc * (1 + s8))].
Proof.
  intros [Hts Hlen].
  destruct (thruster_strengths mp)
    as [|s1 [|s2 [|s3 [|s4 [|s5 [|s6 [|s7 [|s8 [|? ?]]]]]]]]] eqn:Hs;
    try discriminate Hlen.
  exists s1, s2, s3, s4, s5, s6, s7, s8. split; [reflexivity |].
  unfold thrust_commands, commanded_thrust, base_allocation.
  rewrite Hts, Hs. cbn.
  destruct (Rge_dec depth (z_active_bias_depth mp));
    repeat (apply f_equal2; [apply f_equal; ring |]); reflexivity.
Qed.

(** C3: with the eight thrusters of [__init__], the yaw term of the
    six-term sum has a non-zero coefficient for thrusters 2 and 6 only,
    1 and -1.  Whatever the other five controls, [controlled_thrust]
    writes the eight thrusters in the order 1 to 8; the value written
    is the sum times one plus the strength of the thruster, and the
    yaw control enters the values written to thrusters 2 and 6, as
    [yaw_c + y_c] and [- yaw_c + y_c], and no other: the other six
    values are the same for every yaw control.  Changing the yaw
    control changes the sum of thrusters 2 and 6. *)
Theorem yaw_control_reaches_thrusters_2_and_6 (mp : Movement_PID) (mt : R)
    (roll_c pitch_c x_c y_c z_c current_depth : R) :
  thrusters mp = make_thrusters mt ->
  length (thruster_strengths mp) = 8%nat ->
  (forall t, t ∈ thrusters mp ->
     (vec_y (orientation t) * vec_x (location t) <> 0
      <-> id t = 2%Z \/ id t = 6%Z)
     /\ forall yaw_c yaw_c' : R,
          (base_allocation t roll_c pitch_c yaw_c' x_c y_c z_c
           - base_allocation t roll_c pitch_c yaw_c x_c y_c z_c
           = (yaw_c' - yaw_c) * (vec_y (orientation t) * vec_x (location t)))
          /\ (id t = 2%Z \/ id t = 6%Z -> yaw_c <> yaw_c' ->
              base_allocation t roll_c pitch_c yaw_c' x_c y_c z_c
              <> base_allocation t roll_c pitch_c yaw_c x_c y_c z_c))
  /\ map id (thrusters mp) = [1; 2; 3; 4; 5; 6; 7; 8]%Z
  /\ exists strength_2 strength_6 v1 v3 v4 v5 v7 v8 : R,
       thruster_strengths mp !! 1%nat = Some strength_2
       /\ thruster_strengths mp !! 5%nat = Some strength_6
       /\ forall yaw_c : R,
            controlled_thrust roll_c pitch_c yaw_c x_c y_c z_c current_depth mp
            = Returns tt mp
                [set_thrust 1 v1;
                 set_thrust 2 ((yaw_c + y_c) * (1 + strength_2));
                 set_thrust 3 v3;
                 set_thrust 4 v4;
                 set_thrust 5 v5;
                 set_thrust 6 ((- yaw_c + y_c) * (1 + strength_6));
                 set_thrust 7 v7;
                 set_thrust 8 v8].
Proof.
  intros Hts Hlen. split; [| split].
  - intros t Ht. rewrite Hts in Ht.
    destruct (make_thrusters_yaw_coefficient mt t Ht)
      as [[Hid Hc] | [[Hid Hc] | (H2 & H6 & Hc)]].
    + split; [split; [intros _; left; exact Hid | intros _; lra] |].
      intros yaw_c yaw_c'. split; [apply base_allocation_yaw |].
      intros _ Hyaw Heq.
      pose proof (base_allocation_yaw t roll_c pitch_c x_c y_c z_c yaw_c yaw_c') as Hd.
      rewrite Heq, Hc in Hd. lra.
    + split; [split; [intros _; right; exact Hid | intros _; lra] |].
      intros yaw_c yaw_c'. split; [apply base_allocation_yaw |].
      intros _ Hyaw Heq.
      pose proof (base_allocation_yaw t roll_c pitch_c x_c y_c z_c yaw_c yaw_c') as Hd.
      rewrite Heq, Hc in Hd. lra.
    + split; [split; [intros H; lra | intros [H | H]; contradiction] |].
      intros yaw_c yaw_c'. split; [apply base_allocation_yaw |].
      intros [H | H]; contradiction.
  - rewrite Hts. reflexivity.
  - pose proof (make_thrusters_configured mp mt Hts Hlen) as Hcfg.
    destruct (built_thrusters_commands mt mp roll_c pitch_c 0 x_c y_c z_c
                current_depth (conj Hts Hlen))
      as (s1 & s2 & s3 & s4 & s5 & s6 & s7 & s8 & Hstr & _).
    set (bias := if Rge_dec current_depth (z_active_bias_depth mp)
                 then z_bias mp else 0).
    exists s2, s6,
      ((roll_c + pitch_c + z_c) * (1 + s1) + bias),
      ((- roll_c + pitch_c + z_c) * (1 + s3) + bias),
      (- x_c * (1 + s4)),
      ((- roll_c - pitch_c + z_c) * (1 + s5) + bias),
      ((roll_c - pitch_c + z_c) * (1 + s7) + bias),
      (- x_c * (1 + s8)).
    rewrite Hstr. split; [reflexivity |]. split; [reflexivity |].
    intros yaw_c.
    rewrite (controlled_thrust_commands _ _ _ _ _ _ _ _ Hcfg).
    destruct (built_thrusters_commands mt mp roll_c pitch_c yaw_c x_c y_c z_c
                current_depth (conj Hts Hlen))
      as (t1 & t2 & t3 & t4 & t5 & t6 & t7 & t8 & Hstr' & ->).
    rewrite Hstr in Hstr'. injection Hstr' as <- <- <- <- <- <- <- <-.
    reflexivity.
Qed.

Lemma yaw_control_reaches_thrusters_2_and_6_witness :
  exists strength_2 strength_6 v1 v3 v4 v5 v7 v8 : R,
    controlled_thrust 1 2 3 4 5 6 12 (new_Movement_PID sample_params)
    = Returns tt (new_Movement_PID sample_params)
        [set_thrust 1 v1; set_thrust 2 ((3 + 5) * (1 + strength_2));
         set_thrust 3 v3; set_thrust 4 v4; set_thrust 5 v5;
         set_thrust 6 ((- 3 + 5) * (1 + strength_6));
         set_thrust 7 v7; set_thrust 8 v8]
    /\ controlled_thrust 1 2 30 4 5 6 12 (new_Movement_PID sample_params)
       = Returns tt (new_Movement_PID sample_params)
           [set_thrust 1 v1; set_thrust 2 ((30 + 5) * (1 + strength_2));
            set_thrust 3 v3; set_thrust 4 v4; set_thrust 5 v5;
            set_thrust 6 ((- 30 + 5) * (1 + strength_6));
            set_thrust 7 v7; set_thrust 8 v8].
Proof.
  destruct (yaw_control_reaches_thrusters_2_and_6
              (new_Movement_PID sample_params) 80 1 2 4 5 6 12
              eq_refl eq_refl)
    as (_ & _ & s2 & s6 & v1 & v3 & v4 & v5 & v7 & v8 & _ & _ & Hrun).
  exists s2, s6, v1, v3, v4, v5, v7, v8.
  split; apply Hrun.
Defined.

(** ** [advance_move] *)

Lemma opp1_mult (a : R) : -1 * a = - a.
Proof. ring. Qed.

(** [advance_move] run on a pose and a desired pose of six numbers. *)
Lemma advance_move_run (mp : Movement_PID)
    (c0 c1 c2 c3 c4 c5 d0 d1 d2 d3 d4 d5 : R) :
  configured_thrusters mp ->
  let d0' := clamp_angle (max_roll mp) d0 in
  let d1' := clamp_angle (max_pitch mp) d1 in
  let d5' := clamp_depth (min_z mp) (max_z mp) d5 in
  let e0 := bound_error (d0' - c0) (roll_min_error mp) (roll_max_error mp) in
  let e1 := bound_error (d1' - c1) (pitch_min_error mp) (pitch_max_error mp) in
  let e2 := bound_error (shortest_yaw_error d2 c2)
              (yaw_min_error mp) (yaw_max_error mp) in
  let e3 := bound_error (body_frame_x c2 (d3 - c3) (d4 - c4))
              (x_min_error mp) (x_max_error mp) in
  let e4 := bound_error (body_frame_y c2 (d3 - c3) (d4 - c4))
              (y_min_error mp) (y_max_error mp) in
  let e5 := bound_error (d5' - c5) (z_min_error mp) (z_max_error mp) in
  let mp' :=
    stepped Z_ e5 (stepped Y e4 (stepped X e3
      (stepped Yaw e2 (stepped Pitch e1 (stepped Roll e0 mp))))) in
  advance_move [c0; c1; c2; c3; c4; c5] (mp, [d0; d1; d2; d3; d4; d5])
  = Returns [e0; e1; e2; e3; e4; e5] (mp', [d0'; d1'; d2; d3; d4; d5'])
      (thrust_commands mp'
         (control Roll e0 mp) (control Pitch e1 mp) (control Yaw e2 mp)
         (control X e3 mp) (control Y e4 mp) (control Z_ e5 mp) c5).
Proof.
  intros Hcfg d0' d1' d5' e0 e1 e2 e3 e4 e5 mp'.
  subst d0' d1' d5' e0 e1 e2 e3 e4 e5 mp'.
  unfold advance_move, advance_move_with, desired, assign_desired, self_, on_self, pid_control_step.
  unfold clamp_angle, clamp_depth, shortest_yaw_error, body_frame_x, body_frame_y.
  unfold stepped, control.
  run_py.
  destruct (Rgt_dec (Rabs d0) (max_roll mp)); cbn;
    (destruct (Rgt_dec (Rabs d1) (max_pitch mp)); cbn);
    (destruct (Rlt_dec d5 (min_z mp)); cbn;
       [| destruct (Rgt_dec d5 (max_z mp)); cbn]).
  all: rewrite controlled_thrust_commands by exact Hcfg; cbn.
  all: rewrite ?opp1_mult, ?app_nil_r; reflexivity.
Qed.

Lemma bound_error_inside (raw lo hi : R) :
  lo <= raw <= hi -> bound_error raw lo hi = raw.
Proof.
  intros H.
  destruct (bound_error_cases raw lo hi) as [[H1 _] | [(_ & H1 & _) | [_ E]]];
    [lra | lra | exact E].
Qed.

Lemma shortest_yaw_error_cases (desired_yaw current_yaw : R) :
  let raw := desired_yaw - current_yaw in
  (raw > 180 -> shortest_yaw_error desired_yaw current_yaw = raw - 360)
  /\ (raw < -180 -> shortest_yaw_error desired_yaw current_yaw = raw + 360)
  /\ (-180 <= raw <= 180 -> shortest_yaw_error desired_yaw current_yaw = raw).
Proof.
  intros raw. unfold shortest_yaw_error. fold raw.
  destruct (Rgt_dec (Rabs raw) 180) as [Hbig | Hsmall];
    [destruct (Rlt_dec raw 0) |];
    revert Hbig || revert Hsmall; unfold Rabs; destruct (Rcase_abs raw);
    intros; repeat split; intros; lra.
Qed.

(** C4: the yaw error of [advance_move] is desired minus current yaw,
    moved by 360 towards zero when its magnitude is above 180, and
    only then bounded; 170 against -170 gives 340 and wraps to -20,
    -170 against 170 wraps to 20. *)
Theorem advance_move_yaw_error (mp : Movement_PID)
    (c0 c1 c2 c3 c4 c5 d0 d1 d2 d3 d4 d5 : R) :
  configured_thrusters mp ->
  let raw := d2 - c2 in
  let wrapped :=
    if Rgt_dec (Rabs raw) 180
    then if Rlt_dec raw 0 then raw + 360 else raw - 360
    else raw in
  (exists error st out,
      advance_move [c0; c1; c2; c3; c4; c5] (mp, [d0; d1; d2; d3; d4; d5])
      = Returns error st out
      /\ error !! 2%nat
         = Some (bound_error wrapped (yaw_min_error mp) (yaw_max_error mp)))
  /\ (raw > 180 -> wrapped = raw - 360)
  /\ (raw < -180 -> wrapped = raw + 360)
  /\ (-180 <= raw <= 180 -> wrapped = raw)
  /\ (-360 <= raw <= 360 -> -180 <= wrapped <= 180)
  /\ (d2 = 170 -> c2 = -170 -> raw = 340 /\ wrapped = -20)
  /\ (d2 = -170 -> c2 = 170 -> wrapped = 20).
Proof.
  intros Hcfg raw wrapped.
  change wrapped with (shortest_yaw_error d2 c2).
  destruct (shortest_yaw_error_cases d2 c2) as (Hhi & Hlo & Hmid). fold raw in Hhi, Hlo, Hmid.
  split.
  { eexists _, _, _. split.
    - exact (advance_move_run mp c0 c1 c2 c3 c4 c5 d0 d1 d2 d3 d4 d5 Hcfg).
    - reflexivity. }
  split; [exact Hhi |]. split; [exact Hlo |]. split; [exact Hmid |].
  split; [| split].
  - intros Hr.
    destruct (Rlt_dec raw (-180)); [rewrite Hlo by lra; lra |].
    destruct (Rgt_dec raw 180); [rewrite Hhi by lra; lra |].
    rewrite Hmid by lra. lra.
  - intros -> ->. assert (Hraw : raw = 340) by (unfold raw; lra).
    split; [exact Hraw |]. rewrite Hhi; unfold raw; lra.
  - intros -> ->. rewrite Hlo; unfold raw; lra.
Qed.

Lemma advance_move_yaw_error_witness :
  exists error st out,
    advance_move [0; 0; -170; 0; 0; 0]
      (new_Movement_PID sample_params, [0; 0; 170; 0; 0; 0])
    = Returns error st out
    /\ error !! 2%nat = Some (-20).
Proof.
  destruct (advance_move_yaw_error (new_Movement_PID sample_params)
              0 0 (-170) 0 0 0 0 0 170 0 0 0
              (new_Movement_PID_configured sample_params))
    as ((error & st & out & Hrun & Herr) & _ & _ & _ & _ & Hex & _).
  exists error, st, out. split; [exact Hrun |].
  rewrite Herr. destruct (Hex eq_refl eq_refl) as [_ ->].
  f_equal. apply bound_error_inside. cbn. lra.
Defined.

Lemma radians_90 : radians 90 = PI / 2.
Proof. unfold radians. field. Qed.

Lemma radians_0 : radians 0 = 0.
Proof. unfold radians. ring. Qed.

Lemma small_pose_without_overflow (pose : list R) :
  Forall (fun v => -1000 <= v <= 1000) pose -> pose_without_overflow pose.
Proof.
  unfold pose_without_overflow. intros H. eapply Forall_impl; [exact H |].
  intros v Hv. apply Rabs_le. lra.
Qed.

(** [advance_move_with] on two poses of six values, whatever the three
    functions of [math] are. *)
Lemma advance_move_with_run (math_radians math_cos math_sin : R -> R)
    (mp : Movement_PID) (c0 c1 c2 c3 c4 c5 d0 d1 d2 d3 d4 d5 : R) :
  configured_thrusters mp ->
  let d0' := clamp_angle (max_roll mp) d0 in
  let d1' := clamp_angle (max_pitch mp) d1 in
  let d5' := clamp_depth (min_z mp) (max_z mp) d5 in
  let yaw_rad := math_radians c2 in
  let e0 := bound_error (d0' - c0) (roll_min_error mp) (roll_max_error mp) in
  let e1 := bound_error (d1' - c1) (pitch_min_error mp) (pitch_max_error mp) in
  let e2 := bound_error (shortest_yaw_error d2 c2)
              (yaw_min_error mp) (yaw_max_error mp) in
  let e3 := bound_error
              (math_cos yaw_rad * (d3 - c3) + math_sin yaw_rad * (d4 - c4))
              (x_min_error mp) (x_max_error mp) in
  let e4 := bound_error
              (- math_sin yaw_rad * (d3 - c3) + math_cos yaw_rad * (d4 - c4))
              (y_min_error mp) (y_max_error mp) in
  let e5 := bound_error (d5' - c5) (z_min_error mp) (z_max_error mp) in
  let mp' :=
    stepped Z_ e5 (stepped Y e4 (stepped X e3
      (stepped Yaw e2 (stepped Pitch e1 (stepped Roll e0 mp))))) in
  advance_move_with math_radians math_cos math_sin
    [c0; c1; c2; c3; c4; c5] (mp, [d0; d1; d2; d3; d4; d5])
  = Returns [e0; e1; e2; e3; e4; e5] (mp', [d0'; d1'; d2; d3; d4; d5'])
      (thrust_commands mp'
         (control Roll e0 mp) (control Pitch e1 mp) (control Yaw e2 mp)
         (control X e3 mp) (control Y e4 mp) (control Z_ e5 mp) c5).
Proof.
  intros Hcfg d0' d1' d5' yaw_rad e0 e1 e2 e3 e4 e5 mp'.
  subst d0' d1' d5' yaw_rad e0 e1 e2 e3 e4 e5 mp'.
  unfold advance_move_with, desired, assign_desired, self_, on_self,
    pid_control_step.
  unfold clamp_angle, clamp_depth, shortest_yaw_error.
  unfold stepped, control.
  run_py.
  destruct (Rgt_dec (Rabs d0) (max_roll mp)); cbn;
    (destruct (Rgt_dec (Rabs d1) (max_pitch mp)); cbn);
    (destruct (Rlt_dec d5 (min_z mp)); cbn;
       [| destruct (Rgt_dec d5 (max_z mp)); cbn]).
  all: rewrite controlled_thrust_commands by exact Hcfg; cbn.
  all: rewrite ?opp1_mult, ?app_nil_r; reflexivity.
Qed.

(** C5, amended: whatever [math.radians], [math.cos] and [math.sin]
    return, and for poses without overflow, the north/east error is
    turned by the current yaw, taken in radians, into the frame of the
    sub before it is bounded.  At yaw 0, where the angle has cosine 1
    and sine 0, the x error is the north error and the y error the
    east error.  At yaw 90, where the angle has sine 1, the x error is
    the east error plus the cosine of the angle times the north error,
    and the y error minus the north error plus the cosine times the
    east error: the cosine of [math.radians(90)] is zero in exact
    arithmetic only.  The exact functions have these values at 0 and
    at 90. *)
Theorem advance_move_body_frame_error (mp : Movement_PID)
    (math_radians math_cos math_sin : R -> R)
    (c0 c1 c2 c3 c4 c5 d0 d1 d2 d3 d4 d5 : R) :
  configured_thrusters mp ->
  pose_without_overflow [c0; c1; c2; c3; c4; c5] ->
  pose_without_overflow [d0; d1; d2; d3; d4; d5] ->
  let north_error := d3 - c3 in
  let east_error := d4 - c4 in
  let yaw_rad := math_radians c2 in
  let x_error := math_cos yaw_rad * north_error + math_sin yaw_rad * east_error in
  let y_error := - math_sin yaw_rad * north_error + math_cos yaw_rad * east_error in
  (exists error st out,
      advance_move_with math_radians math_cos math_sin
        [c0; c1; c2; c3; c4; c5] (mp, [d0; d1; d2; d3; d4; d5])
      = Returns error st out
      /\ error !! 3%nat
         = Some (bound_error x_error (x_min_error mp) (x_max_error mp))
      /\ error !! 4%nat
         = Some (bound_error y_error (y_min_error mp) (y_max_error mp)))
  /\ (c2 = 0 -> math_cos (math_radians 0) = 1 -> math_sin (math_radians 0) = 0 ->
      x_error = north_error /\ y_error = east_error)
  /\ (c2 = 90 -> math_sin (math_radians 90) = 1 ->
      x_error = east_error + math_cos yaw_rad * north_error
      /\ y_error = - north_error + math_cos yaw_rad * east_error)
  /\ advance_move = advance_move_with radians cos sin
  /\ radians c2 = c2 * (PI / 180)
  /\ cos (radians 0) = 1 /\ sin (radians 0) = 0 /\ sin (radians 90) = 1.
Proof.
  intros Hcfg _ _ north_error east_error yaw_rad x_error y_error.
  split.
  { eexists _, _, _. split.
    - exact (advance_move_with_run math_radians math_cos math_sin mp
               c0 c1 c2 c3 c4 c5 d0 d1 d2 d3 d4 d5 Hcfg).
    - split; reflexivity. }
  split.
  { intros -> Hcos Hsin. unfold x_error, y_error, yaw_rad.
    rewrite Hcos, Hsin. split; ring. }
  split.
  { intros -> Hsin. unfold x_error, y_error, yaw_rad.
    rewrite Hsin. split; ring. }
  split; [reflexivity |]. split; [reflexivity |].
  rewrite radians_0, radians_90, cos_0, sin_0, sin_PI2. repeat split.
Qed.

Lemma advance_move_body_frame_error_witness :
  exists error st out,
    advance_move [0; 0; 0; 1; 2; 0]
      (new_Movement_PID sample_params, [0; 0; 0; 3; 1; 0])
    = Returns error st out
    /\ error !! 3%nat = Some 2
    /\ error !! 4%nat = Some (-1).
Proof.
  destruct (advance_move_body_frame_error (new_Movement_PID sample_params)
              radians cos sin 0 0 0 1 2 0 0 0 0 3 1 0
              (new_Movement_PID_configured sample_params))
    as ((error & st & out & Hrun & Hx & Hy) & H0 & _ & _ & _ & Hc & Hs & _).
  - apply small_pose_without_overflow. repeat constructor; lra.
  - apply small_pose_without_overflow. repeat constructor; lra.
  - destruct (H0 eq_refl Hc Hs) as [Ex Ey].
    exists error, st, out. split; [exact Hrun |].
    rewrite Hx, Hy, Ex, Ey.
    split; f_equal; rewrite bound_error_inside; cbn; lra.
Defined.

(** ** The rotation in double precision *)

Section Double_precision.
Import PrimFloat.

(** Whatever the platform's functions are elsewhere, a cosine of
    6.123e-17 and a sine of 1 at [math.radians(90)] give an x error of
    -0.9999999999999999 for a north error of 2 and an east error
    of -1. *)
Lemma position_error_at_90_degrees (m : Double.libm) :
  Double.cos m 0x1.921fb54442d18p+0%float = 0x1.1a62633145c07p-54%float ->
  Double.sin m 0x1.921fb54442d18p+0%float = 1%float ->
  Double.advance_move_position_error m (-5) 5 (-5) 5
    [0; 0; 90; 1; 2; 0]%float [0; 0; 90; 3; 1; 0]%float
  = Some {| Double.north_error := 2; Double.east_error := -1;
            Double.yaw_rad := 0x1.921fb54442d18p+0;
            Double.x_error := -0x1.fffffffffffffp-1;
            Double.y_error := -2;
            Double.error_3 := -0x1.fffffffffffffp-1;
            Double.error_4 := -2 |}%float.
Proof.
  intros Hcos Hsin. unfold Double.advance_move_position_error. cbn.
  change (Double.radians 90) with 0x1.921fb54442d18p+0%float.
  rewrite Hcos, Hsin. reflexivity.
Qed.

(** C5, as stated, fails on doubles.  At a current yaw of 90 degrees,
    with a north error of 2 and an east error of -1, the x error is
    -0.9999999999999999 and not the east error; at a current yaw of 0,
    with positions of magnitude 1e308, both differences overflow and
    the x error is NaN, not the north error. *)
Lemma body_frame_error_inexact_in_doubles :
  (exists e,
      Double.advance_move_position_error Double.libm_at_0_and_90 (-5) 5 (-5) 5
        [0; 0; 90; 1; 2; 0]%float [0; 0; 90; 3; 1; 0]%float = Some e
      /\ Double.x_error e = (-0x1.fffffffffffffp-1)%float
      /\ PrimFloat.eqb (Double.x_error e) (Double.east_error e) = false)
  /\ (exists e,
        Double.advance_move_position_error Double.libm_at_0_and_90 (-5) 5 (-5) 5
          [0; 0; 0; -0x1.1ccf385ebc8ap+1023; -0x1.1ccf385ebc8ap+1023; 0]%float
          [0; 0; 0; 0x1.1ccf385ebc8ap+1023; 0x1.1ccf385ebc8ap+1023; 0]%float
        = Some e
        /\ Double.north_error e = PrimFloat.infinity
        /\ PrimFloat.eqb (Double.x_error e) (Double.x_error e) = false
        /\ PrimFloat.eqb (Double.x_error e) (Double.north_error e) = false).
Proof.
  split.
  - eexists. split; [apply position_error_at_90_degrees; reflexivity |].
    split; reflexivity.
  - eexists. split; [reflexivity |]. repeat split; reflexivity.
Qed.

End Double_precision.

(** ** The desired pose is clamped in place *)

Lemma copysign_cases (limit v : R) :
  0 <= limit ->
  (v < 0 -> copysign limit v = - limit)
  /\ (0 <= v -> copysign limit v = limit).
Proof.
  intros Hl. unfold copysign.
  rewrite (Rabs_pos_eq limit Hl).
  destruct (Rlt_dec v 0); split; intros; lra.
Qed.

Lemma clamp_angle_cases (limit v : R) :
  (Rabs v <= limit -> clamp_angle limit v = v)
  /\ (Rabs v > limit -> clamp_angle limit v = copysign limit v)
  /\ (0 <= limit -> v > limit -> clamp_angle limit v = limit)
  /\ (0 <= limit -> v < - limit -> clamp_angle limit v = - limit).
Proof.
  unfold clamp_angle.
  destruct (Rgt_dec (Rabs v) limit) as [Hbig | Hsmall].
  - split; [intros; lra |]. split; [reflexivity |].
    split; intros Hl Hv; apply copysign_cases; lra.
  - split; [reflexivity |]. split; [intros; lra |].
    revert Hsmall. unfold Rabs. destruct (Rcase_abs v); intros; split; intros; lra.
Qed.

Lemma clamp_depth_cases (lo hi v : R) :
  (v < lo -> clamp_depth lo hi v = lo)
  /\ (lo <= v -> v > hi -> clamp_depth lo hi v = hi)
  /\ (lo <= v <= hi -> clamp_depth lo hi v = v).
Proof.
  unfold clamp_depth.
  destruct (Rlt_dec v lo); [| destruct (Rgt_dec v hi)];
    repeat split; intros; lra.
Qed.

(** A turn of the loop in PID-tuning or autonomous mode. *)
Lemma run_tick_advance_move (nc : Navigation_Controller)
    (c0 c1 c2 c3 c4 c5 d0 d1 d2 d3 d4 d5 : R) :
  configured_thrusters (pid_controller nc) ->
  sub_killed nc <> 1%Z ->
  movement_mode nc = 0%Z \/ movement_mode nc = 3%Z ->
  current_position nc = [c0; c1; c2; c3; c4; c5] ->
  desired_position nc = [d0; d1; d2; d3; d4; d5] ->
  exists nc' out,
    run nc = Returns tt nc' out
    /\ desired_position nc'
       = clamped_pose (pid_controller nc) d0 d1 d2 d3 d4 d5
    /\ current_position nc' = current_position nc.
Proof.
  intros Hcfg Hkill Hmode Hcur Hdes.
  unfold run, with_desired_position. run_py.
  destruct (Z.eqb_spec (sub_killed nc) 1) as [E | _]; [contradiction |].
  destruct Hmode as [-> | ->]; cbn; rewrite Hcur, Hdes;
    rewrite (advance_move_run _ _ _ _ _ _ _ _ _ _ _ _ _ Hcfg); cbn;
    eexists _, _; (split; [reflexivity |]); split; cbn; auto.
Qed.

(** C10: [advance_move] assigns to the list it is given as desired
    pose: afterwards the list holds the roll and pitch with the
    magnitude of their limits and their own sign where they were
    beyond them, the depth moved to the boundary it was outside of,
    and every other value unchanged; called from [run] with the
    desired position of the controller, it is that attribute which
    holds the clamped values after the turn. *)
Theorem advance_move_clamps_desired_position (nc : Navigation_Controller)
    (c0 c1 c2 c3 c4 c5 d0 d1 d2 d3 d4 d5 : R) :
  configured_thrusters (pid_controller nc) ->
  sub_killed nc <> 1%Z ->
  movement_mode nc = 0%Z \/ movement_mode nc = 3%Z ->
  current_position nc = [c0; c1; c2; c3; c4; c5] ->
  desired_position nc = [d0; d1; d2; d3; d4; d5] ->
  let mp := pid_controller nc in
  let roll := if Rgt_dec (Rabs d0) (max_roll mp)
              then copysign (max_roll mp) d0 else d0 in
  let pitch := if Rgt_dec (Rabs d1) (max_pitch mp)
               then copysign (max_pitch mp) d1 else d1 in
  let depth := if Rlt_dec d5 (min_z mp) then min_z mp
               else if Rgt_dec d5 (max_z mp) then max_z mp else d5 in
  (exists error mp' out,
      advance_move (current_position nc) (mp, desired_position nc)
      = Returns error (mp', [roll; pitch; d2; d3; d4; depth]) out)
  /\ (exists nc' out,
         run nc = Returns tt nc' out
         /\ desired_position nc' = [roll; pitch; d2; d3; d4; depth])
  /\ (Rabs d0 <= max_roll mp -> roll = d0)
  /\ (Rabs d1 <= max_pitch mp -> pitch = d1)
  /\ (min_z mp <= d5 <= max_z mp -> depth = d5)
  /\ (0 <= max_roll mp -> d0 > max_roll mp -> roll = max_roll mp)
  /\ (0 <= max_roll mp -> d0 < - max_roll mp -> roll = - max_roll mp)
  /\ (0 <= max_pitch mp -> d1 > max_pitch mp -> pitch = max_pitch mp)
  /\ (0 <= max_pitch mp -> d1 < - max_pitch mp -> pitch = - max_pitch mp)
  /\ (d5 < min_z mp -> depth = min_z mp)
  /\ (min_z mp <= d5 -> d5 > max_z mp -> depth = max_z mp).
Proof.
  intros Hcfg Hkill Hmode Hcur Hdes mp roll pitch depth.
  change roll with (clamp_angle (max_roll mp) d0).
  change pitch with (clamp_angle (max_pitch mp) d1).
  change depth with (clamp_depth (min_z mp) (max_z mp) d5).
  split.
  { rewrite Hcur, Hdes. eexists _, _, _.
    exact (advance_move_run mp c0 c1 c2 c3 c4 c5 d0 d1 d2 d3 d4 d5 Hcfg). }
  split.
  { destruct (run_tick_advance_move nc c0 c1 c2 c3 c4 c5 d0 d1 d2 d3 d4 d5
                Hcfg Hkill Hmode Hcur Hdes) as (nc' & out & Hrun & Hd & _).
    exists nc', out. split; [exact Hrun | exact Hd]. }
  destruct (clamp_angle_cases (max_roll mp) d0) as (R1 & _ & R3 & R4).
  destruct (clamp_angle_cases (max_pitch mp) d1) as (P1 & _ & P3 & P4).
  destruct (clamp_depth_cases (min_z mp) (max_z mp) d5) as (D1 & D2 & D3).
  repeat split; assumption.
Qed.

Lemma advance_move_clamps_desired_position_witness :
  exists nc' out,
    run sample_controller = Returns tt nc' out
    /\ desired_position nc' = [20; -20; 10; 1; 2; 30].
Proof.
  destruct (advance_move_clamps_desired_position sample_controller
              0 0 0 0 0 0 45 (-45) 10 1 2 50
              (new_Movement_PID_configured sample_params)
              ltac:(discriminate) (or_introl eq_refl) eq_refl eq_refl)
    as (_ & (nc' & out & Hrun & Hd) & _ & _ & _ & R3 & _ & _ & P4 & _ & D2).
  exists nc', out. split; [exact Hrun |].
  rewrite Hd. cbn in R3, P4, D2 |- *.
  rewrite R3, P4, D2 by lra. reflexivity.
Defined.

(** ** [remote_move] *)

Lemma remote_move_run (mp : Movement_PID)
    (c0 c1 c2 c3 c4 c5 r0 r1 r2 r3 r4 : R) (rest : list R) :
  configured_thrusters mp ->
  let hold := truthy r4 in
  let roll_error := bound_error (0 - c0) (roll_min_error mp) (roll_max_error mp) in
  let pitch_error := bound_error (0 - c1) (pitch_min_error mp) (pitch_max_error mp) in
  let depth_error := remote_depth_error hold r3 c5 mp in
  let yaw_control :=
    interp r0 (-1) 1 (remote_yaw_min_thrust mp) (remote_yaw_max_thrust mp) in
  let x_control :=
    interp r1 (-1) 1 (remote_x_min_thrust mp) (remote_x_max_thrust mp) in
  let y_control :=
    interp r2 (-1) 1 (remote_y_min_thrust mp) (remote_y_max_thrust mp) in
  let mp' :=
    stepped Z_ depth_error (stepped Pitch pitch_error
      (stepped Roll roll_error (after_latch hold c5 mp))) in
  remote_move [c0; c1; c2; c3; c4; c5] (r0 :: r1 :: r2 :: r3 :: r4 :: rest) mp
  = Returns tt mp'
      (thrust_commands mp'
         (control Roll roll_error mp) (control Pitch pitch_error mp)
         yaw_control (-1 * x_control) y_control
         (control Z_ depth_error mp) c5).
Proof.
  intros Hcfg hold roll_error pitch_error depth_error yaw_control x_control
    y_control mp'.
  subst hold roll_error pitch_error depth_error yaw_control x_control
    y_control mp'.
  unfold remote_move, pid_control_step, remote_depth_error, after_latch,
    stepped, control.
  run_py.
  destruct (truthy r4); cbn;
    [destruct (remote_depth_recorded mp) eqn:Hrec; cbn
    | destruct (Rle_dec r3 0); cbn].
  all: rewrite controlled_thrust_commands by exact Hcfg; cbn.
  all: rewrite ?app_nil_r; reflexivity.
Qed.

Lemma truthy_1 : truthy 1 = true.
Proof. unfold truthy. destruct (Req_dec_T 1 0); [lra | reflexivity]. Qed.

Lemma truthy_0 : truthy 0 = false.
Proof. unfold truthy. destruct (Req_dec_T 0 0); [reflexivity | lra]. Qed.

(** While the flag stays set and the latch is recorded, calls of
    [remote_move] leave the latch alone. *)
Lemma remote_moves_hold (calls : list (list R * list R)) :
  forall mp : Movement_PID,
    Forall holds_depth calls ->
    configured_thrusters mp ->
    remote_depth_recorded mp = true ->
    exists mp' out,
      remote_moves calls mp = Returns tt mp' out
      /\ remote_desired_depth mp' = remote_desired_depth mp
      /\ remote_depth_recorded mp' = true.
Proof.
  induction calls as [| [cur rc] calls IH]; intros mp Hall Hcfg Hrec.
  - exists mp, []. repeat split. exact Hrec.
  - apply Forall_cons in Hall as [[Hlen Hrc] Hall]. cbn in Hlen, Hrc.
    destruct Hrc as (r0 & r1 & r2 & r3 & r4 & rest & -> & Hhold).
    destruct cur as [|c0 [|c1 [|c2 [|c3 [|c4 [|c5 [|? ?]]]]]]];
      try discriminate Hlen.
    cbn [remote_moves]. unfold bind.
    rewrite (remote_move_run mp c0 c1 c2 c3 c4 c5 r0 r1 r2 r3 r4 rest Hcfg).
    rewrite Hhold. unfold after_latch at 1 2. rewrite Hrec.
    match goal with
    | |- context [remote_moves calls ?st] =>
        destruct (IH st Hall Hcfg Hrec) as (mp' & out & -> & Hd & Hr)
    end.
    eexists _, _. split; [reflexivity |]. split; [exact Hd | exact Hr].
Qed.

(** C6: in [remote_move] with the hold-depth flag set, a call that
    finds no depth recorded takes the current depth as desired depth;
    a call that finds one recorded keeps it, whatever the current
    depth, and so do all the calls after it while the flag stays set;
    the depth error is the bounded difference between the recorded
    depth and the current one; a call with the flag unset clears the
    record, so that the next call with the flag set records the depth
    of that moment. *)
Theorem remote_move_depth_hold (mp : Movement_PID)
    (c0 c1 c2 c3 c4 c5 r0 r1 r2 r3 r4 : R) (rest : list R) :
  configured_thrusters mp ->
  exists mp' out,
    remote_move [c0; c1; c2; c3; c4; c5] (r0 :: r1 :: r2 :: r3 :: r4 :: rest) mp
    = Returns tt mp' out
    /\ (truthy r4 = true -> remote_depth_recorded mp = false ->
        remote_desired_depth mp' = c5 /\ remote_depth_recorded mp' = true)
    /\ (truthy r4 = true -> remote_depth_recorded mp = true ->
        remote_desired_depth mp' = remote_desired_depth mp
        /\ remote_depth_recorded mp' = true)
    /\ (truthy r4 = true ->
        let depth_error :=
          bound_error (remote_desired_depth mp' - c5)
            (z_min_error mp) (z_max_error mp) in
        z_pid_controller mp'
        = snd (control_step (z_pid_controller mp) depth_error)
        /\ exists roll_c pitch_c yaw_c x_c y_c,
             out = thrust_commands mp' roll_c pitch_c yaw_c x_c y_c
                     (fst (control_step (z_pid_controller mp) depth_error)) c5)
    /\ (truthy r4 = true ->
        forall calls, Forall holds_depth calls ->
          exists mp'' out',
            remote_moves calls mp' = Returns tt mp'' out'
            /\ remote_desired_depth mp'' = remote_desired_depth mp'
            /\ remote_depth_recorded mp'' = true)
    /\ (truthy r4 = false ->
        remote_depth_recorded mp' = false /\ remote_desired_depth mp' = 0)
    /\ (truthy r4 = false ->
        forall b0 b1 b2 b3 b4 b5 s0 s1 s2 s3 s4 rest',
          truthy s4 = true ->
          exists mp'' out',
            remote_move [b0; b1; b2; b3; b4; b5]
              (s0 :: s1 :: s2 :: s3 :: s4 :: rest') mp'
            = Returns tt mp'' out'
            /\ remote_desired_depth mp'' = b5
            /\ remote_depth_recorded mp'' = true).
Proof.
  intros Hcfg. eexists _, _. split.
  { exact (remote_move_run mp c0 c1 c2 c3 c4 c5 r0 r1 r2 r3 r4 rest Hcfg). }
  unfold remote_depth_error, after_latch.
  split; [| split; [| split; [| split; [| split]]]].
  - intros -> Hrec. rewrite Hrec. cbn. split; reflexivity.
  - intros -> Hrec. rewrite Hrec. cbn. split; [reflexivity | exact Hrec].
  - intros ->. cbn zeta.
    destruct (remote_depth_recorded mp) eqn:Hrec; cbn;
      (split; [reflexivity | eexists _, _, _, _, _; reflexivity]).
  - intros -> calls Hcalls. apply remote_moves_hold.
    + exact Hcalls.
    + destruct (remote_depth_recorded mp); exact Hcfg.
    + destruct (remote_depth_recorded mp) eqn:Hrec; cbn; [exact Hrec | reflexivity].
  - intros ->. cbn. split; reflexivity.
  - intros -> b0 b1 b2 b3 b4 b5 s0 s1 s2 s3 s4 rest' Hhold.
    eexists _, _. split.
    { apply remote_move_run. exact Hcfg. }
    rewrite Hhold. unfold after_latch. cbn. split; reflexivity.
Qed.

Lemma remote_move_depth_hold_witness :
  exists mp' out,
    remote_move [0; 0; 0; 0; 0; 12] [0; 0; 0; 0; 1; 0; 0]
      (new_Movement_PID sample_params)
    = Returns tt mp' out
    /\ remote_desired_depth mp' = 12
    /\ exists mp'' out',
         remote_moves [([0; 0; 0; 0; 0; 15], [0; 0; 0; 0; 1; 0; 0])] mp'
         = Returns tt mp'' out'
         /\ remote_desired_depth mp'' = 12.
Proof.
  destruct (remote_move_depth_hold (new_Movement_PID sample_params)
              0 0 0 0 0 12 0 0 0 0 1 [0; 0]
              (new_Movement_PID_configured sample_params))
    as (mp' & out & Hrun & Hrise & _ & _ & Hkeep & _).
  exists mp', out. split; [exact Hrun |].
  destruct (Hrise truthy_1 eq_refl) as [Hd _]. split; [exact Hd |].
  destruct (Hkeep truthy_1 [([0; 0; 0; 0; 0; 15], [0; 0; 0; 0; 1; 0; 0])])
    as (mp'' & out' & Hrun' & Hd' & _).
  { constructor; [| constructor]. split; [reflexivity |].
    exists 0, 0, 0, 0, 1, [0; 0]. split; [reflexivity | exact truthy_1]. }
  exists mp'', out'. split; [exact Hrun' |]. rewrite Hd'. exact Hd.
Defined.

Lemma interp_inside (x lo hi : R) :
  -1 <= x <= 1 -> interp x (-1) 1 lo hi = lo + (x + 1) / 2 * (hi - lo).
Proof.
  intros Hx. unfold interp.
  destruct (Rlt_dec x (-1)); [lra |].
  destruct (Rlt_dec 1 x); [lra |]. field.
Qed.

(** C7: [remote_move] levels roll and pitch (error zero minus current,
    bounded), takes the yaw, x and y controls from the joystick axes
    by interpolation from [-1, 1] onto the configured thrust ranges,
    steps the roll, pitch and depth controllers only, and hands the
    controls to [controlled_thrust] with the x control negated. *)
Theorem remote_move_controls (mp : Movement_PID)
    (c0 c1 c2 c3 c4 c5 r0 r1 r2 r3 r4 : R) (rest : list R) :
  configured_thrusters mp ->
  let roll_error := bound_error (0 - c0) (roll_min_error mp) (roll_max_error mp) in
  let pitch_error := bound_error (0 - c1) (pitch_min_error mp) (pitch_max_error mp) in
  let yaw_control :=
    interp r0 (-1) 1 (remote_yaw_min_thrust mp) (remote_yaw_max_thrust mp) in
  let x_control :=
    interp r1 (-1) 1 (remote_x_min_thrust mp) (remote_x_max_thrust mp) in
  let y_control :=
    interp r2 (-1) 1 (remote_y_min_thrust mp) (remote_y_max_thrust mp) in
  (exists mp' depth_error,
      remote_move [c0; c1; c2; c3; c4; c5] (r0 :: r1 :: r2 :: r3 :: r4 :: rest) mp
      = Returns tt mp'
          (thrust_commands mp'
             (fst (control_step (roll_pid_controller mp) roll_error))
             (fst (control_step (pitch_pid_controller mp) pitch_error))
             yaw_control (- x_control) y_control
             (fst (control_step (z_pid_controller mp) depth_error)) c5)
      /\ roll_pid_controller mp'
         = snd (control_step (roll_pid_controller mp) roll_error)
      /\ pitch_pid_controller mp'
         = snd (control_step (pitch_pid_controller mp) pitch_error)
      /\ z_pid_controller mp'
         = snd (control_step (z_pid_controller mp) depth_error)
      /\ yaw_pid_controller mp' = yaw_pid_controller mp
      /\ x_pid_controller mp' = x_pid_controller mp
      /\ y_pid_controller mp' = y_pid_controller mp)
  /\ (-1 <= r0 <= 1 ->
      yaw_control = remote_yaw_min_thrust mp
        + (r0 + 1) / 2 * (remote_yaw_max_thrust mp - remote_yaw_min_thrust mp))
  /\ (-1 <= r1 <= 1 ->
      x_control = remote_x_min_thrust mp
        + (r1 + 1) / 2 * (remote_x_max_thrust mp - remote_x_min_thrust mp))
  /\ (-1 <= r2 <= 1 ->
      y_control = remote_y_min_thrust mp
        + (r2 + 1) / 2 * (remote_y_max_thrust mp - remote_y_min_thrust mp)).
Proof.
  intros Hcfg roll_error pitch_error yaw_control x_control y_control.
  split; [| split; [| split]]; try apply interp_inside.
  eexists _, (remote_depth_error (truthy r4) r3 c5 mp). split.
  { rewrite (remote_move_run mp c0 c1 c2 c3 c4 c5 r0 r1 r2 r3 r4 rest Hcfg).
    fold roll_error pitch_error yaw_control x_control y_control.
    rewrite opp1_mult. reflexivity. }
  unfold after_latch.
  destruct (truthy r4); [destruct (remote_depth_recorded mp) |];
    repeat split; reflexivity.
Qed.

Lemma remote_move_controls_witness :
  exists mp' out,
    remote_move [3; -4; 0; 0; 0; 2] [1 / 2; 1; -1; 0; 0; 0; 0]
      (new_Movement_PID sample_params)
    = Returns tt mp' out
    /\ yaw_pid_controller mp' = yaw_pid_controller (new_Movement_PID sample_params)
    /\ interp (1 / 2) (-1) 1 (-40) 40 = 20.
Proof.
  destruct (remote_move_controls (new_Movement_PID sample_params)
              3 (-4) 0 0 0 2 (1 / 2) 1 (-1) 0 0 [0; 0]
              (new_Movement_PID_configured sample_params))
    as ((mp' & depth_error & Hrun & _ & _ & _ & Hyaw & _) & Hinterp & _).
  eexists mp', _. split; [exact Hrun |]. split; [exact Hyaw |].
  cbn in Hinterp. rewrite Hinterp by lra. lra.
Defined.

(** ** Thruster test and the kill flag *)

Lemma for_simple_thrust (mp : Movement_PID) :
  forall (thrusts : list R) (i : nat),
    (i + length thrusts <= length (thrusters mp))%nat ->
    for_enumerate
      (fun thruster_id thrust =>
         ts <- gets thrusters ;;
         t <- index ts thruster_id ;;
         emit (set_thrust (id t) thrust))
      i thrusts mp
    = Returns tt mp
        (zip_with (fun t v => set_thrust (id t) v)
           (drop i (thrusters mp)) thrusts).
Proof.
  induction thrusts as [| v thrusts IH]; intros i Hlen.
  - cbn. destruct (drop i (thrusters mp)); reflexivity.
  - cbn in Hlen. cbn [for_enumerate].
    destruct (lookup_lt_is_Some_2 (thrusters mp) i ltac:(lia)) as [t Ht].
    unfold bind at 1. run_py. rewrite Ht. cbn.
    rewrite IH by lia.
    rewrite (drop_S _ _ _ Ht). reflexivity.
Qed.

Lemma simple_thrust_commands (mp : Movement_PID) (thrusts : list R) :
  (length thrusts <= length (thrusters mp))%nat ->
  simple_thrust thrusts mp
  = Returns tt mp (zip_with (fun t v => set_thrust (id t) v) (thrusters mp) thrusts).
Proof.
  intros Hlen. unfold simple_thrust. rewrite for_simple_thrust by (cbn; lia).
  reflexivity.
Qed.

Lemma set_pid_controller_same (nc : Navigation_Controller) :
  set_pid_controller (pid_controller nc) nc = nc.
Proof. destruct nc. reflexivity. Qed.

(** A turn of the loop with the kill flag set writes zero to every
    thruster, whatever the mode, the poses and the remote commands. *)
Lemma run_tick_killed (nc : Navigation_Controller) (mt : R) :
  sub_killed nc = 1%Z ->
  thrusters (pid_controller nc) = make_thrusters mt ->
  run nc
  = Returns tt nc
      [set_thrust 1 0; set_thrust 2 0; set_thrust 3 0; set_thrust 4 0;
       set_thrust 5 0; set_thrust 6 0; set_thrust 7 0; set_thrust 8 0].
Proof.
  intros Hkill Hts. unfold run, on_pid_controller. run_py.
  rewrite Hkill. cbn.
  rewrite simple_thrust_commands by (rewrite Hts; cbn; lia).
  rewrite Hts, set_pid_controller_same. reflexivity.
Qed.

(** C1: with the kill flag set, a turn of the loop writes zero to all
    eight thrusters; a thruster-test message that arrives in the same
    state is written to the thrusters as it is, and the flag is still
    set afterwards. *)
Theorem thruster_test_commands_while_killed :
  let nc := new_Navigation_Controller sample_params in
  sub_killed nc = 1%Z
  /\ handle Tick nc
     = Returns tt nc
         [set_thrust 1 0; set_thrust 2 0; set_thrust 3 0; set_thrust 4 0;
          set_thrust 5 0; set_thrust 6 0; set_thrust 7 0; set_thrust 8 0]
  /\ handle (THRUSTS [50; 0; 0; 0; 0; 0; 0; 0]) nc
     = Returns tt nc
         [set_thrust 1 50; set_thrust 2 0; set_thrust 3 0; set_thrust 4 0;
          set_thrust 5 0; set_thrust 6 0; set_thrust 7 0; set_thrust 8 0]
  /\ 50 <> 0.
Proof.
  intros nc. split; [reflexivity |]. split; [| split; [| lra]].
  - exact (run_tick_killed nc 80 eq_refl eq_refl).
  - unfold handle, __update_thruster_test_callback, on_pid_controller, zoom.
    rewrite simple_thrust_commands by (cbn; lia).
    rewrite set_pid_controller_same. reflexivity.
Qed.

(** ** Waypoint collection *)


Lemma waypoint_log_app (o1 o2 : list effect) :
  waypoint_log (o1 ++ o2) = waypoint_log o1 ++ waypoint_log o2.
Proof. apply List.filter_app. Qed.

Section Silent.
Context {St : Type}.

Lemma silent_ret {A} (a : A) : silent (ret (St := St) a).
Proof. intros s. reflexivity. Qed.

Lemma silent_raise {A} : silent (raise (St := St) (A := A)).
Proof. intros s. reflexivity. Qed.

Lemma silent_gets {A} (f : St -> A) : silent (gets f).
Proof. intros s. reflexivity. Qed.

Lemma silent_modify (f : St -> St) : silent (modify f).
Proof. intros s. reflexivity. Qed.

Lemma silent_index {A} (l : list A) (i : nat) : silent (index (St := St) l i).
Proof. intros s. unfold index. destruct (l !! i); reflexivity. Qed.

Lemma silent_emit (e : effect) :
  is_waypoint_effect e = false -> silent (emit (St := St) e).
Proof. intros He s. unfold emit, waypoint_log. cbn. rewrite He. reflexivity. Qed.

Lemma silent_bind {A B} (m : M St A) (f : A -> M St B) :
  silent m -> (forall a, silent (f a)) -> silent (bind m f).
Proof.
  intros Hm Hf s. unfold bind. specialize (Hm s).
  destruct (m s) as [a s1 o1 | s1 o1]; cbn [output_of] in Hm; [| exact Hm].
  specialize (Hf a s1).
  destruct (f a s1) as [b s2 o2 | s2 o2]; cbn [output_of] in Hf |- *;
    rewrite waypoint_log_app, Hm, Hf; reflexivity.
Qed.

Lemma silent_for_enumerate {A} (body : nat -> A -> M St unit) (l : list A) :
  (forall i a, silent (body i a)) ->
  forall i, silent (for_enumerate body i l).
Proof.
  intros Hbody. induction l as [| a l IH]; intros i; cbn.
  - apply silent_ret.
  - apply silent_bind; [apply Hbody | intros _; apply IH].
Qed.

Lemma silent_zoom {T A} (get : St -> T) (set : T -> St -> St) (m : M T A) :
  silent m -> silent (zoom get set m).
Proof.
  intros Hm s. unfold zoom. specialize (Hm (get s)).
  destruct (m (get s)); exact Hm.
Qed.
End Silent.

Ltac silent_step :=
  lazymatch goal with
  | |- silent (bind _ _) => apply silent_bind; [| intros ?]
  | |- silent (ret _) => apply silent_ret
  | |- silent raise => apply silent_raise
  | |- silent (gets _) => apply silent_gets
  | |- silent (modify _) => apply silent_modify
  | |- silent (index _ _) => apply silent_index
  | |- silent (emit _) => apply silent_emit; reflexivity
  | |- silent (zoom _ _ _) => apply silent_zoom
  | |- silent (for_enumerate _ _ _) => apply silent_for_enumerate; intros ? ?
  | |- silent (if ?c then _ else _) => destruct c
  | |- silent (match ?c with _ => _ end) => destruct c
  end.

Ltac silent_auto := repeat (cbv zeta; silent_step).

Lemma silent_simple_thrust thrusts : silent (simple_thrust thrusts).
Proof. unfold simple_thrust. silent_auto. Qed.

Lemma silent_controlled_thrust a b c d e f g : silent (controlled_thrust a b c d e f g).
Proof. unfold controlled_thrust, allocate_thruster. silent_auto. Qed.

Lemma silent_pid_control_step a e : silent (pid_control_step a e).
Proof. intros s. reflexivity. Qed.

Lemma silent_remote_move cur rc : silent (remote_move cur rc).
Proof.
  unfold remote_move.
  repeat (cbv zeta; first [apply silent_pid_control_step | apply silent_controlled_thrust | silent_step]).
Qed.

Lemma silent_advance_move cur : silent (advance_move cur).
Proof.
  unfold advance_move, advance_move_with, desired, assign_desired, self_, on_self.
  repeat (cbv zeta; first [apply silent_pid_control_step | apply silent_controlled_thrust | silent_step]).
Qed.


Section Quiet.
Lemma quiet_ret {A} (a : A) : quiet (ret a).
Proof. intros nc. split; reflexivity. Qed.

Lemma quiet_raise {A} : quiet (raise (A := A)).
Proof. intros nc. split; reflexivity. Qed.

Lemma quiet_gets {A} (f : Navigation_Controller -> A) : quiet (gets f).
Proof. intros nc. split; reflexivity. Qed.

Lemma quiet_modify (f : Navigation_Controller -> Navigation_Controller) :
  (forall nc, waypoint_state (f nc) = waypoint_state nc) -> quiet (modify f).
Proof. intros Hf nc. split; [reflexivity | apply Hf]. Qed.

Lemma quiet_index {A} (l : list A) (i : nat) : quiet (index l i).
Proof. intros nc. unfold index. destruct (l !! i); split; reflexivity. Qed.

Lemma quiet_bind {A B} (m : M Navigation_Controller A)
    (f : A -> M Navigation_Controller B) :
  quiet m -> (forall a, quiet (f a)) -> quiet (bind m f).
Proof.
  intros Hm Hf nc. unfold bind. destruct (Hm nc) as [Ho Hs].
  destruct (m nc) as [a s1 o1 | s1 o1]; cbn [output_of state_of] in Ho, Hs;
    [| split; assumption].
  destruct (Hf a s1) as [Ho' Hs'].
  destruct (f a s1) as [b s2 o2 | s2 o2]; cbn [output_of state_of] in Ho', Hs' |- *;
    rewrite waypoint_log_app, Ho, Ho', Hs', Hs; split; reflexivity.
Qed.

Lemma quiet_for_enumerate {A} (body : nat -> A -> M Navigation_Controller unit)
    (l : list A) :
  (forall i a, quiet (body i a)) ->
  forall i, quiet (for_enumerate body i l).
Proof.
  intros Hbody. induction l as [| a l IH]; intros i; cbn.
  - apply quiet_ret.
  - apply quiet_bind; [apply Hbody | intros _; apply IH].
Qed.

Lemma quiet_on_pid_controller {A} (m : M Movement_PID A) :
  silent m -> quiet (on_pid_controller m).
Proof.
  intros Hm nc. unfold on_pid_controller, zoom.
  specialize (Hm (pid_controller nc)).
  destruct (m (pid_controller nc)); split; solve [exact Hm | reflexivity].
Qed.

Lemma quiet_with_desired_position {A} (m : M (Movement_PID * list R) A) :
  silent m -> quiet (with_desired_position m).
Proof.
  intros Hm nc. unfold with_desired_position, zoom.
  specialize (Hm (pid_controller nc, desired_position nc)).
  destruct (m (pid_controller nc, desired_position nc));
    split; solve [exact Hm | reflexivity].
Qed.
End Quiet.

Ltac quiet_step :=
  lazymatch goal with
  | |- quiet (bind _ _) => apply quiet_bind; [| intros ?]
  | |- quiet (ret _) => apply quiet_ret
  | |- quiet raise => apply quiet_raise
  | |- quiet (gets _) => apply quiet_gets
  | |- quiet (modify _) => apply quiet_modify; intros ?; reflexivity
  | |- quiet (index _ _) => apply quiet_index
  | |- quiet (on_pid_controller _) => apply quiet_on_pid_controller
  | |- quiet (with_desired_position _) => apply quiet_with_desired_position
  | |- quiet (for_enumerate _ _ _) => apply quiet_for_enumerate; intros ? ?
  | |- quiet (if ?c then _ else _) => destruct c
  | |- silent (simple_thrust _) => apply silent_simple_thrust
  | |- silent (advance_move _) => apply silent_advance_move
  | |- silent (remote_move _ _) => apply silent_remote_move
  | |- silent (modify _) => apply silent_modify
  end.

Lemma quiet_handle (e : event) :
  is_enable e = false ->
  (forall c, e <> REMOTE_CONTROL_COMMAND c) ->
  quiet (handle e).
Proof.
  intros He Hr. destruct e; try discriminate He; cbn [handle].
  - unfold run. repeat quiet_step.
  - unfold _update_sub_killed_state. repeat quiet_step.
  - unfold __update_sensor_data. repeat quiet_step.
  - unfold __update_movement_mode_callback. repeat quiet_step.
  - unfold __update_pid_configs_callback. repeat quiet_step.
  - destruct (Hr commands eq_refl).
  - unfold __unpack_desired_position_callback. repeat quiet_step.
  - unfold __update_thruster_test_callback. repeat quiet_step.
Qed.


Ltac remote_cases Hn Hf :=
  repeat (repeat (progress (cbn; rewrite ?Hn, ?Hf));
          match goal with
          | |- context [match ?l !! ?i with _ => _ end] => destruct (l !! i)
          | |- context [if truthy ?a then _ else _] => destruct (truthy a)
          | |- context [match drop 3 ?l with _ => _ end] =>
              destruct (drop 3 l) as [|? [|? [|? [|? ?]]]]
          end).

Lemma read_remote_control_recording (commands : list R) (nc : Navigation_Controller) (n : Z) :
  recording nc n ->
  let r := _read_remote_control commands nc in
  (recording (state_of r) n /\ waypoint_log (output_of r) = [])
  \/ (exists north_pos east_pos depth,
        recording (state_of r) (n + 1)
        /\ waypoint_log (output_of r) = [writerow n north_pos east_pos depth]).
Proof.
  unfold recording, waypoint_state. intros Hrec. injection Hrec as Hf He Hn.
  unfold _read_remote_control. run_py. rewrite He.
  remote_cases Hn Hf.
  all: cbn; rewrite ?Hf, ?He, ?Hn;
    solve [left; split; reflexivity
          | right; eexists _, _, _; split; reflexivity].
Qed.

Lemma read_remote_control_idle (commands : list R) (nc : Navigation_Controller) :
  enable_waypoint_collection nc = false ->
  let r := _read_remote_control commands nc in
  enable_waypoint_collection (state_of r) = false
  /\ waypoint_log (output_of r) = [].
Proof.
  intros He. unfold _read_remote_control. run_py. rewrite He.
  remote_cases He He.
  all: cbn; split; solve [exact He | reflexivity].
Qed.


Lemma handle_recording (e : event) (nc : Navigation_Controller) (n : Z) :
  is_enable e = false ->
  recording nc n ->
  (recording (state_of (handle e nc)) n
   /\ waypoint_log (output_of (handle e nc)) = [])
  \/ (exists north_pos east_pos depth,
        recording (state_of (handle e nc)) (n + 1)
        /\ waypoint_log (output_of (handle e nc))
           = [writerow n north_pos east_pos depth]).
Proof.
  intros He Hrec.
  destruct (match e with REMOTE_CONTROL_COMMAND c => Some c | _ => None end)
    as [c |] eqn:Hc.
  - destruct e; try discriminate Hc. injection Hc as ->.
    exact (read_remote_control_recording c nc n Hrec).
  - left. destruct (quiet_handle e He) with (nc := nc) as [Ho Hs].
    + intros c ->. discriminate Hc.
    + split; [| exact Ho]. unfold recording. rewrite Hs. exact Hrec.
Qed.


Lemma run_cons (e : event) (es : list event) (nc : Navigation_Controller) :
  run_events (e :: es) nc = (state_of (handle e nc), output_of (handle e nc))
  \/ run_events (e :: es) nc
     = (fst (run_events es (state_of (handle e nc))),
        output_of (handle e nc) ++ snd (run_events es (state_of (handle e nc)))).
Proof.
  cbn [run_events].
  destruct (handle e nc) as [[] nc' o | nc' o]; cbn [state_of output_of].
  - right. destruct (run_events es nc'). reflexivity.
  - destruct e; try (right; destruct (run_events es nc'); reflexivity).
    left. reflexivity.
Qed.








(** ** States the controller can reach

    Every event keeps the thrusters of [__init__] and eight strengths,
    so the hypotheses on the thrusters made above hold in every state
    reached from a new controller. *)

Section Keeps.
Context {St : Type} (P : St -> Prop).

Lemma keeps_ret {A} (a : A) : keeps P (ret a).
Proof. intros s Hs. exact Hs. Qed.

Lemma keeps_raise {A} : keeps P (raise (A := A)).
Proof. intros s Hs. exact Hs. Qed.

Lemma keeps_gets {A} (f : St -> A) : keeps P (gets f).
Proof. intros s Hs. exact Hs. Qed.

Lemma keeps_emit (e : effect) : keeps P (emit e).
Proof. intros s Hs. exact Hs. Qed.

Lemma keeps_index {A} (l : list A) (i : nat) : keeps P (index l i).
Proof. intros s Hs. unfold index. destruct (l !! i); exact Hs. Qed.

Lemma keeps_modify (f : St -> St) :
  (forall s, P s -> P (f s)) -> keeps P (modify f).
Proof. intros Hf s Hs. apply Hf. exact Hs. Qed.

Lemma keeps_bind {A B} (m : M St A) (f : A -> M St B) :
  keeps P m -> (forall a, keeps P (f a)) -> keeps P (bind m f).
Proof.
  intros Hm Hf s Hs. unfold bind. specialize (Hm s Hs).
  destruct (m s) as [a s1 o1 | s1 o1]; cbn [state_of] in Hm; [| exact Hm].
  specialize (Hf a s1 Hm). destruct (f a s1); exact Hf.
Qed.

Lemma keeps_for_enumerate {A} (body : nat -> A -> M St unit) (l : list A) :
  (forall i a, keeps P (body i a)) ->
  forall i, keeps P (for_enumerate body i l).
Proof.
  intros Hbody. induction l as [| a l IH]; intros i; cbn.
  - apply keeps_ret.
  - apply keeps_bind; [apply Hbody | intros _; apply IH].
Qed.

Lemma keeps_zoom {T A} (Q : T -> Prop) (get : St -> T) (set : T -> St -> St)
    (m : M T A) :
  keeps Q m ->
  (forall s, P s -> Q (get s)) ->
  (forall t s, P s -> Q t -> P (set t s)) ->
  keeps P (zoom get set m).
Proof.
  intros Hm Hget Hset s Hs. unfold zoom.
  specialize (Hm (get s) (Hget s Hs)).
  destruct (m (get s)); cbn [state_of] in *; apply Hset; assumption.
Qed.
End Keeps.

Ltac keeps_step :=
  lazymatch goal with
  | |- keeps _ (bind _ _) => apply keeps_bind; [| intros ?]
  | |- keeps _ (ret _) => apply keeps_ret
  | |- keeps _ raise => apply keeps_raise
  | |- keeps _ (gets _) => apply keeps_gets
  | |- keeps _ (emit _) => apply keeps_emit
  | |- keeps _ (index _ _) => apply keeps_index
  | |- keeps _ (for_enumerate _ _ _) => apply keeps_for_enumerate; intros ? ?
  | |- keeps _ (modify _) => apply keeps_modify; intros ? ?; assumption
  | |- keeps _ (if ?c then _ else _) => destruct c
  | |- keeps _ (match ?c with _ => _ end) => destruct c
  end.

Lemma keeps_simple_thrust mt thrusts :
  keeps (built_thrusters mt) (simple_thrust thrusts).
Proof. unfold simple_thrust. repeat keeps_step. Qed.

Lemma keeps_controlled_thrust mt a b c d e f g :
  keeps (built_thrusters mt) (controlled_thrust a b c d e f g).
Proof. unfold controlled_thrust, allocate_thruster. repeat (cbv zeta; keeps_step). Qed.

Lemma keeps_pid_control_step mt a e :
  keeps (built_thrusters mt) (pid_control_step a e).
Proof. intros s Hs. exact Hs. Qed.

Lemma keeps_remote_move mt cur rc :
  keeps (built_thrusters mt) (remote_move cur rc).
Proof.
  unfold remote_move.
  repeat (cbv zeta;
          first [apply keeps_pid_control_step | apply keeps_controlled_thrust
                | keeps_step]).
Qed.

Lemma keeps_advance_move mt cur :
  keeps (fun s : Movement_PID * list R => built_thrusters mt (fst s))
    (advance_move cur).
Proof.
  unfold advance_move, advance_move_with, desired, assign_desired, self_, on_self.
  repeat (cbv zeta;
          first [ apply keeps_zoom with (Q := built_thrusters mt);
                  [ first [apply keeps_pid_control_step | apply keeps_controlled_thrust]
                  | intros ? H; exact H | intros ? ? _ H; exact H ]
                | keeps_step ]).
Qed.

Lemma keeps_handle mt (e : event) :
  keeps (fun nc => built_thrusters mt (pid_controller nc)) (handle e).
Proof.
  destruct e; cbn [handle].
  - unfold run, on_pid_controller, with_desired_position.
    repeat first
      [ apply keeps_zoom with (Q := built_thrusters mt);
        [ first [apply keeps_simple_thrust | apply keeps_remote_move]
        | intros ? H; exact H | intros ? ? _ H; exact H ]
      | apply keeps_zoom
          with (Q := fun s : Movement_PID * list R => built_thrusters mt (fst s));
        [ apply keeps_advance_move | intros ? H; exact H | intros ? ? _ H; exact H ]
      | keeps_step ].
  - unfold _update_sub_killed_state. repeat keeps_step.
  - unfold __update_sensor_data. repeat keeps_step.
  - unfold __update_movement_mode_callback. repeat keeps_step.
  - unfold __update_pid_configs_callback, on_pid_controller.
    apply keeps_zoom with (Q := built_thrusters mt);
      [| intros ? H; exact H | intros ? ? _ H; exact H].
    apply keeps_modify. intros mp [Hts _]. split; [exact Hts | reflexivity].
  - unfold _read_remote_control. repeat keeps_step.
  - unfold __update_enable_waypoint_collection, close_waypoint_file.
    repeat keeps_step.
  - unfold __unpack_desired_position_callback. repeat keeps_step.
  - unfold __update_thruster_test_callback, on_pid_controller.
    apply keeps_zoom with (Q := built_thrusters mt);
      [apply keeps_simple_thrust | intros ? H; exact H | intros ? ? _ H; exact H].
Qed.

Lemma run_keeps_thrusters mt (es : list event) :
  forall nc,
    built_thrusters mt (pid_controller nc) ->
    built_thrusters mt (pid_controller (fst (run_events es nc))).
Proof.
  induction es as [| e es IH]; intros nc Hnc; [exact Hnc |].
  pose proof (keeps_handle mt e nc Hnc) as Hstep.
  destruct (run_cons e es nc) as [-> | ->]; cbn [fst]; [exact Hstep |].
  apply IH. exact Hstep.
Qed.

Lemma new_controller_built_thrusters (ps : Param_Server) :
  built_thrusters (ps_max_thrust ps)
    (pid_controller (new_Navigation_Controller ps)).
Proof. split; reflexivity. Qed.

Lemma reachable_configured (ps : Param_Server) (es : list event) :
  configured_thrusters
    (pid_controller (fst (run_events es (new_Navigation_Controller ps)))).
Proof.
  destruct (run_keeps_thrusters (ps_max_thrust ps) es _
              (new_controller_built_thrusters ps)) as [Hts Hlen].
  exact (make_thrusters_configured _ _ Hts Hlen).
Qed.

(** In every state reached from a new controller, a turn of the loop
    that finds the kill flag set writes zero to the eight thrusters
    and changes nothing else. *)
Lemma killed_tick_zeroes_thrusters (ps : Param_Server) (es : list event) :
  let nc := fst (run_events es (new_Navigation_Controller ps)) in
  sub_killed nc = 1%Z ->
  handle Tick nc
  = Returns tt nc
      [set_thrust 1 0; set_thrust 2 0; set_thrust 3 0; set_thrust 4 0;
       set_thrust 5 0; set_thrust 6 0; set_thrust 7 0; set_thrust 8 0].
Proof.
  intros nc Hkill.
  destruct (run_keeps_thrusters (ps_max_thrust ps) es _
              (new_controller_built_thrusters ps)) as [Hts _].
  exact (run_tick_killed nc (ps_max_thrust ps) Hkill Hts).
Qed.

(** In the same states a thruster-test message of eight values is
    written to the thrusters whatever the kill flag holds. *)
Lemma thruster_test_ignores_kill_flag (ps : Param_Server) (es : list event)
    (v1 v2 v3 v4 v5 v6 v7 v8 : R) :
  let nc := fst (run_events es (new_Navigation_Controller ps)) in
  handle (THRUSTS [v1; v2; v3; v4; v5; v6; v7; v8]) nc
  = Returns tt nc
      [set_thrust 1 v1; set_thrust 2 v2; set_thrust 3 v3; set_thrust 4 v4;
       set_thrust 5 v5; set_thrust 6 v6; set_thrust 7 v7; set_thrust 8 v8].
Proof.
  intros nc.
  destruct (run_keeps_thrusters (ps_max_thrust ps) es _
              (new_controller_built_thrusters ps)) as [Hts _].
  fold nc in Hts.
  unfold handle, __update_thruster_test_callback, on_pid_controller, zoom.
  rewrite simple_thrust_commands by (rewrite Hts; cbn; lia).
  rewrite Hts, set_pid_controller_same. reflexivity.
Qed.

(** ** Two runs of the machine *)

#[local] Arguments run : simpl never.

(** A thruster-test message to a killed controller reaches the
    thrusters; the next turn of the loop writes the zeros. *)
Example thruster_test_then_tick :
  snd (run_events [THRUSTS [50; 0; 0; 0; 0; 0; 0; 0]; Tick]
         (new_Navigation_Controller sample_params))
  = [set_thrust 1 50; set_thrust 2 0; set_thrust 3 0; set_thrust 4 0;
     set_thrust 5 0; set_thrust 6 0; set_thrust 7 0; set_thrust 8 0;
     set_thrust 1 0; set_thrust 2 0; set_thrust 3 0; set_thrust 4 0;
     set_thrust 5 0; set_thrust 6 0; set_thrust 7 0; set_thrust 8 0].
Proof.
  cbn [run_events handle].
  unfold __update_thruster_test_callback, on_pid_controller, zoom.
  rewrite simple_thrust_commands by (cbn; lia).
  rewrite set_pid_controller_same. cbn [state_of output_of].
  rewrite (run_tick_killed _ 80) by reflexivity. reflexivity.
Qed.

(** Two waypoints recorded at north 1, east 2, depth 3, with a turn of
    the loop in between. *)
Example two_waypoints :
  waypoint_log
    (snd (run_events [ENABLE_WAYPOINT_COLLECTION true;
               SENSOR_DATA [0; 0; 0; 1; 2; 3];
               REMOTE_CONTROL_COMMAND [0; 0; 0; 0; 0; 1; 0];
               Tick;
               REMOTE_CONTROL_COMMAND [0; 0; 0; 0; 0; 1; 0]]
            (new_Navigation_Controller sample_params)))
  = [file_open; writerow 0 1 2 3; writerow 1 1 2 3].
Proof.
  cbn [run_events handle].
  unfold __update_enable_waypoint_collection, close_waypoint_file,
    __update_sensor_data, _read_remote_control.
  run_py. rewrite truthy_1. cbn. rewrite truthy_0. cbn.
  rewrite (run_tick_killed _ 80) by reflexivity. cbn.
  rewrite truthy_1. cbn. rewrite truthy_0. cbn. reflexivity.
Qed.

(** The allocation of the eight thrusters of [__init__] above the
    activation depth of the bias, with the strengths of
    [sample_params] (one quarter more on thruster 3). *)
Example allocation_of_the_eight_thrusters (roll_c pitch_c yaw_c x_c y_c z_c : R) :
  controlled_thrust roll_c pitch_c yaw_c x_c y_c z_c 5
    (new_Movement_PID sample_params)
  = Returns tt (new_Movement_PID sample_params)
      [set_thrust 1 (roll_c + pitch_c + z_c);
       set_thrust 2 (yaw_c + y_c);
       set_thrust 3 ((- roll_c + pitch_c + z_c) * (5 / 4));
       set_thrust 4 (- x_c);
       set_thrust 5 (- roll_c - pitch_c + z_c);
       set_thrust 6 (- yaw_c + y_c);
       set_thrust 7 (roll_c - pitch_c + z_c);
       set_thrust 8 (- x_c)].
Proof.
  rewrite controlled_thrust_commands by apply new_Movement_PID_configured.
  f_equal. unfold thrust_commands, commanded_thrust, base_allocation. cbn.
  destruct (Rge_dec 5 10) as [H | _]; [lra |].
  repeat (apply f_equal2; [apply f_equal; field |]). reflexivity.
Qed.

(** ** [simple_thrust] on lists of any length *)

Lemma for_simple_thrust_any (mp : Movement_PID) :
  forall (thrusts : list R) (i : nat),
    (i <= length (thrusters mp))%nat ->
    for_enumerate
      (fun thruster_id thrust =>
         ts <- gets thrusters ;;
         t <- index ts thruster_id ;;
         emit (set_thrust (id t) thrust))
      i thrusts mp
    = (if (i + length thrusts <=? length (thrusters mp))%nat
       then Returns tt mp else Raises mp)
        (zip_with (fun t v => set_thrust (id t) v)
           (drop i (thrusters mp)) thrusts).
Proof.
  induction thrusts as [| v thrusts IH]; intros i Hi.
  - cbn. destruct (i + 0 <=? length (thrusters mp))%nat eqn:Hle.
    + destruct (drop i (thrusters mp)); reflexivity.
    + apply Nat.leb_gt in Hle. lia.
  - cbn [for_enumerate length]. unfold bind at 1. run_py.
    destruct (thrusters mp !! i) as [t |] eqn:Ht; cbn.
    + pose proof (lookup_lt_Some _ _ _ Ht) as Hlt.
      rewrite IH by lia. rewrite (drop_S _ _ _ Ht). cbn [zip_with].
      replace (i + S (length thrusts))%nat with (S i + length thrusts)%nat by lia.
      destruct (S i + length thrusts <=? length (thrusters mp))%nat; reflexivity.
    + apply lookup_ge_None in Ht.
      destruct (i + S (length thrusts) <=? length (thrusters mp))%nat eqn:Hle.
      * apply Nat.leb_le in Hle. lia.
      * rewrite drop_ge by lia. reflexivity.
Qed.

(** X1: [simple_thrust] writes the values to the thrusters in order,
    one thruster per value.  With at most as many values as thrusters
    it returns, and the thrusters beyond the values are not written;
    with more values it raises, after every thruster has been
    written. *)
Theorem simple_thrust_by_length (mp : Movement_PID) (thrusts : list R) :
  let out := zip_with (fun t v => set_thrust (id t) v) (thrusters mp) thrusts in
  simple_thrust thrusts mp
  = (if (length thrusts <=? length (thrusters mp))%nat
     then Returns tt mp out else Raises mp out)
  /\ length out = Nat.min (length (thrusters mp)) (length thrusts).
Proof.
  intros out. split.
  - unfold simple_thrust. rewrite for_simple_thrust_any by lia. cbn [Nat.add drop].
    destruct (length thrusts <=? length (thrusters mp))%nat; reflexivity.
  - unfold out. apply length_zip_with.
Qed.

(** ** Superposition in [controlled_thrust] *)

Lemma thrust_values_commands (mp : Movement_PID) (rc pc yc xc yyc zc depth : R) :
  thrust_values (thrust_commands mp rc pc yc xc yyc zc depth)
  = zip_with (fun t s => commanded_thrust mp t s rc pc yc xc yyc zc depth)
      (thrusters mp) (thruster_strengths mp).
Proof.
  unfold thrust_commands. generalize (thruster_strengths mp).
  induction (thrusters mp) as [| t ts IH]; intros [| s ss]; try reflexivity.
  cbn. unfold thrust_values in IH. rewrite IH. reflexivity.
Qed.

Lemma zip_with_pointwise {A B : Type} (f g : A -> B -> R) (h k : A -> B -> R)
    (la : list A) (lb : list B) :
  (forall a b, f a b + g a b = h a b + k a b) ->
  zip_with Rplus (zip_with f la lb) (zip_with g la lb)
  = zip_with Rplus (zip_with h la lb) (zip_with k la lb).
Proof.
  intros H. revert lb. induction la as [| a la IH]; intros [| b lb]; try reflexivity.
  cbn. rewrite H, IH. reflexivity.
Qed.

(** X2: the thrusts of [controlled_thrust] superpose.  At any depth the
    thrusts for the sum of two sets of controls, plus the thrusts for
    zero controls, are the thrusts for the one plus the thrusts for
    the other; above the activation depth of the bias the thrusts for
    zero controls are zero, so the thrusts are additive, and they
    scale with the controls. *)
Theorem controlled_thrust_superposition (mp : Movement_PID)
    (r1 p1 y1 x1 s1 z1 r2 p2 y2 x2 s2 z2 k depth : R) :
  configured_thrusters mp ->
  let V r p y x s z :=
    thrust_values (output_of (controlled_thrust r p y x s z depth mp)) in
  zip_with Rplus (V (r1 + r2) (p1 + p2) (y1 + y2) (x1 + x2) (s1 + s2) (z1 + z2))
    (V 0 0 0 0 0 0)
  = zip_with Rplus (V r1 p1 y1 x1 s1 z1) (V r2 p2 y2 x2 s2 z2)
  /\ (depth < z_active_bias_depth mp ->
      V (r1 + r2) (p1 + p2) (y1 + y2) (x1 + x2) (s1 + s2) (z1 + z2)
      = zip_with Rplus (V r1 p1 y1 x1 s1 z1) (V r2 p2 y2 x2 s2 z2)
      /\ V (k * r1) (k * p1) (k * y1) (k * x1) (k * s1) (k * z1)
         = map (Rmult k) (V r1 p1 y1 x1 s1 z1)).
Proof.
  intros Hcfg V.
  assert (HV : forall r p y x s z,
             V r p y x s z
             = zip_with (fun t st => commanded_thrust mp t st r p y x s z depth)
                 (thrusters mp) (thruster_strengths mp)).
  { intros. unfold V. rewrite (controlled_thrust_commands _ _ _ _ _ _ _ _ Hcfg).
    apply thrust_values_commands. }
  rewrite !HV. clear HV V. split.
  - apply zip_with_pointwise. intros t st.
    unfold commanded_thrust, base_allocation.
    destruct (Rge_dec depth (z_active_bias_depth mp)); ring.
  - intros Hshallow. split.
    + generalize (thruster_strengths mp).
      induction (thrusters mp) as [| t ts IH]; intros [| st ss]; try reflexivity.
      cbn [zip_with]. rewrite IH. f_equal.
      unfold commanded_thrust, base_allocation.
      destruct (Rge_dec depth (z_active_bias_depth mp)); [lra | ring].
    + generalize (thruster_strengths mp).
      induction (thrusters mp) as [| t ts IH]; intros [| st ss]; try reflexivity.
      cbn [zip_with map]. rewrite IH. f_equal.
      unfold commanded_thrust, base_allocation.
      destruct (Rge_dec depth (z_active_bias_depth mp)); [lra | ring].
Qed.

Lemma controlled_thrust_superposition_witness :
  let mp := new_Movement_PID sample_params in
  let V r p y x s z :=
    thrust_values (output_of (controlled_thrust r p y x s z 12 mp)) in
  zip_with Rplus (V (1 + 2) (0 + 1) (3 + 0) (0 + 0) (1 + 1) (5 + 5)) (V 0 0 0 0 0 0)
  = zip_with Rplus (V 1 0 3 0 1 5) (V 2 1 0 0 1 5).
Proof.
  intros mp V.
  exact (proj1 (controlled_thrust_superposition mp 1 0 3 0 1 5 2 1 0 0 1 5 2 12
                  (new_Movement_PID_configured sample_params))).
Defined.

(** ** The depth bias *)



(** ** More on [bound_error] *)

(** X4: with [min_error <= max_error], [bound_error] keeps the order of
    the errors and bounding twice is bounding once. *)
Theorem bound_error_monotone_idempotent (a b min_error max_error : R) :
  min_error <= max_error ->
  (a <= b -> bound_error a min_error max_error <= bound_error b min_error max_error)
  /\ bound_error (bound_error a min_error max_error) min_error max_error
     = bound_error a min_error max_error.
Proof.
  intros Hle.
  destruct (bound_error_cases a min_error max_error)
    as [[Ha Ea] | [(Ha1 & Ha2 & Ea) | (Ha & Ea)]];
    destruct (bound_error_cases b min_error max_error)
      as [[Hb Eb] | [(Hb1 & Hb2 & Eb) | (Hb & Eb)]];
    rewrite Ea, Eb; (split; [intros; lra |]);
    apply bound_error_inside; lra.
Qed.

Lemma bound_error_monotone_idempotent_witness :
  bound_error (bound_error 45 (-30) 30) (-30) 30 = bound_error 45 (-30) 30.
Proof.
  apply (bound_error_monotone_idempotent 45 45 (-30) 30). lra.
Defined.

(** X5: with the bounds the wrong way round, [max_error < min_error],
    [bound_error] never returns the error it is given unless it is one
    of the bounds: below [min_error] it returns [min_error], from
    [min_error] on it returns [max_error], so that a larger error can
    get the smaller value. *)
Theorem bound_error_inverted_bounds (raw min_error max_error : R) :
  max_error < min_error ->
  (raw < min_error -> bound_error raw min_error max_error = min_error)
  /\ (min_error <= raw -> bound_error raw min_error max_error = max_error).
Proof.
  intros Hinv.
  destruct (bound_error_cases raw min_error max_error)
    as [[H E] | [(H1 & H2 & E) | (H & E)]]; rewrite E; split; intros; lra.
Qed.

Lemma bound_error_inverted_bounds_witness :
  bound_error 0 4 (-2) = 4 /\ bound_error 10 4 (-2) = -2.
Proof.
  split.
  - apply (bound_error_inverted_bounds 0 4 (-2)); lra.
  - apply (bound_error_inverted_bounds 10 4 (-2)); lra.
Defined.

(** ** [advance_move] on lists of any length *)

Lemma advance_move_run_long (mp : Movement_PID)
    (c0 c1 c2 c3 c4 c5 d0 d1 d2 d3 d4 d5 : R) (crest drest : list R) :
  configured_thrusters mp ->
  let d0' := clamp_angle (max_roll mp) d0 in
  let d1' := clamp_angle (max_pitch mp) d1 in
  let d5' := clamp_depth (min_z mp) (max_z mp) d5 in
  let e0 := bound_error (d0' - c0) (roll_min_error mp) (roll_max_error mp) in
  let e1 := bound_error (d1' - c1) (pitch_min_error mp) (pitch_max_error mp) in
  let e2 := bound_error (shortest_yaw_error d2 c2)
              (yaw_min_error mp) (yaw_max_error mp) in
  let e3 := bound_error (body_frame_x c2 (d3 - c3) (d4 - c4))
              (x_min_error mp) (x_max_error mp) in
  let e4 := bound_error (body_frame_y c2 (d3 - c3) (d4 - c4))
              (y_min_error mp) (y_max_error mp) in
  let e5 := bound_error (d5' - c5) (z_min_error mp) (z_max_error mp) in
  let mp' :=
    stepped Z_ e5 (stepped Y e4 (stepped X e3
      (stepped Yaw e2 (stepped Pitch e1 (stepped Roll e0 mp))))) in
  advance_move (c0 :: c1 :: c2 :: c3 :: c4 :: c5 :: crest)
    (mp, d0 :: d1 :: d2 :: d3 :: d4 :: d5 :: drest)
  = Returns [e0; e1; e2; e3; e4; e5]
      (mp', d0' :: d1' :: d2 :: d3 :: d4 :: d5' :: drest)
      (thrust_commands mp'
         (control Roll e0 mp) (control Pitch e1 mp) (control Yaw e2 mp)
         (control X e3 mp) (control Y e4 mp) (control Z_ e5 mp) c5).
Proof.
  intros Hcfg d0' d1' d5' e0 e1 e2 e3 e4 e5 mp'.
  subst d0' d1' d5' e0 e1 e2 e3 e4 e5 mp'.
  unfold advance_move, advance_move_with, desired, assign_desired, self_, on_self, pid_control_step.
  unfold clamp_angle, clamp_depth, shortest_yaw_error, body_frame_x, body_frame_y.
  unfold stepped, control.
  run_py.
  destruct (Rgt_dec (Rabs d0) (max_roll mp)); cbn;
    (destruct (Rgt_dec (Rabs d1) (max_pitch mp)); cbn);
    (destruct (Rlt_dec d5 (min_z mp)); cbn;
       [| destruct (Rgt_dec d5 (max_z mp)); cbn]).
  all: rewrite controlled_thrust_commands by exact Hcfg; cbn.
  all: rewrite ?opp1_mult, ?app_nil_r; reflexivity.
Qed.

Ltac split_ifs :=
  repeat match goal with
         | |- context [if ?c then _ else _] => destruct c; cbn
         end.

Lemma advance_move_short (mp : Movement_PID) (cur des : list R) :
  (length cur < 6)%nat \/ (length des < 6)%nat ->
  exists s,
    advance_move cur (mp, des) = Raises s []
    /\ (forall a, pid_of a (fst s) = pid_of a mp)
    /\ length (snd s) = length des.
Proof.
  intros Hshort.
  destruct cur as [|c0 [|c1 [|c2 [|c3 [|c4 [|c5 crest]]]]]];
    destruct des as [|d0 [|d1 [|d2 [|d3 [|d4 [|d5 drest]]]]]];
    cbn in Hshort; try (exfalso; lia); clear Hshort.
  all: unfold advance_move, advance_move_with, desired, assign_desired, self_, on_self,
         pid_control_step; run_py; split_ifs.
  all: eexists; split; [reflexivity | split; [intros []; reflexivity | reflexivity]].
Qed.

(** X6: [advance_move] needs six values in both lists.  With them it
    returns six errors and has written every thruster once (further
    values in the lists are ignored); with fewer in either list it
    raises, and then no thruster has been written and no controller
    stepped. *)
Theorem advance_move_needs_six_values (mp : Movement_PID) (cur des : list R) :
  configured_thrusters mp ->
  ((6 <= length cur)%nat /\ (6 <= length des)%nat ->
   exists error s out,
     advance_move cur (mp, des) = Returns error s out
     /\ length error = 6%nat
     /\ length out = length (thrusters mp)
     /\ length (snd s) = length des)
  /\ ((length cur < 6)%nat \/ (length des < 6)%nat ->
      exists s,
        advance_move cur (mp, des) = Raises s []
        /\ (forall a, pid_of a (fst s) = pid_of a mp)
        /\ length (snd s) = length des).
Proof.
  intros Hcfg. split.
  - intros [Hc Hd].
    destruct cur as [|c0 [|c1 [|c2 [|c3 [|c4 [|c5 crest]]]]]];
      cbn in Hc; try (exfalso; lia).
    destruct des as [|d0 [|d1 [|d2 [|d3 [|d4 [|d5 drest]]]]]];
      cbn in Hd; try (exfalso; lia).
    eexists _, _, _. split.
    { exact (advance_move_run_long mp c0 c1 c2 c3 c4 c5 d0 d1 d2 d3 d4 d5
               crest drest Hcfg). }
    split; [reflexivity |]. split; [| reflexivity].
    unfold thrust_commands. rewrite length_zip_with.
    destruct Hcfg as [_ Hlen]. cbn in *. lia.
  - apply advance_move_short.
Qed.

Lemma advance_move_needs_six_values_witness :
  exists s,
    advance_move [0; 0; 0; 1; 2] (new_Movement_PID sample_params, [45; 0; 0; 0; 0; 3])
    = Raises s []
    /\ forall a, pid_of a (fst s) = pid_of a (new_Movement_PID sample_params).
Proof.
  destruct (advance_move_needs_six_values (new_Movement_PID sample_params)
              [0; 0; 0; 1; 2] [45; 0; 0; 0; 0; 3]
              (new_Movement_PID_configured sample_params)) as [_ Hshort].
  destruct Hshort as (s & Hrun & Hpid & _); [left; cbn; lia |].
  exists s. split; [exact Hrun | exact Hpid].
Defined.

Lemma bound_error_within (raw lo hi : R) :
  lo <= hi -> lo <= bound_error raw lo hi <= hi.
Proof.
  intros Hle.
  destruct (bound_error_cases raw lo hi)
    as [[H E] | [(H1 & H2 & E) | (H & E)]]; rewrite E; lra.
Qed.

Lemma sample_ordered_error_limits :
  ordered_error_limits (new_Movement_PID sample_params).
Proof. unfold ordered_error_limits. cbn. lra. Qed.

(** X7: with ordered error ranges and poses without overflow, the six
    errors [advance_move] returns lie each within the range of its
    axis. *)
Theorem advance_move_errors_within_limits (mp : Movement_PID)
    (c0 c1 c2 c3 c4 c5 d0 d1 d2 d3 d4 d5 : R) (crest drest : list R) :
  configured_thrusters mp ->
  ordered_error_limits mp ->
  pose_without_overflow [c0; c1; c2; c3; c4; c5] ->
  pose_without_overflow [d0; d1; d2; d3; d4; d5] ->
  exists error s out,
    advance_move (c0 :: c1 :: c2 :: c3 :: c4 :: c5 :: crest)
      (mp, d0 :: d1 :: d2 :: d3 :: d4 :: d5 :: drest)
    = Returns error s out
    /\ within_error_limits mp error.
Proof.
  intros Hcfg (H0 & H1 & H2 & H3 & H4 & H5) _ _.
  eexists _, _, _. split.
  { exact (advance_move_run_long mp c0 c1 c2 c3 c4 c5 d0 d1 d2 d3 d4 d5
             crest drest Hcfg). }
  eexists _, _, _, _, _, _. split; [reflexivity |].
  repeat split; apply bound_error_within; assumption.
Qed.

Lemma advance_move_errors_within_limits_witness :
  exists error s out,
    advance_move [0; 0; -170; 0; 0; 0]
      (new_Movement_PID sample_params, [90; -90; 170; 1000; -1000; 500])
    = Returns error s out
    /\ within_error_limits (new_Movement_PID sample_params) error.
Proof.
  apply (advance_move_errors_within_limits (new_Movement_PID sample_params)
           0 0 (-170) 0 0 0 90 (-90) 170 1000 (-1000) 500 [] []
           (new_Movement_PID_configured sample_params)
           sample_ordered_error_limits).
  - apply small_pose_without_overflow. repeat constructor; lra.
  - apply small_pose_without_overflow. repeat constructor; lra.
Defined.

(** ** The desired pose settles *)

Lemma clamp_angle_within (limit v : R) :
  0 <= limit -> Rabs (clamp_angle limit v) <= limit.
Proof.
  intros Hl. unfold clamp_angle.
  destruct (Rgt_dec (Rabs v) limit) as [Hbig | Hsmall]; [| lra].
  destruct (copysign_cases limit v Hl) as [Hneg Hpos].
  destruct (Rlt_dec v 0).
  - rewrite Hneg by lra. rewrite Rabs_Ropp, Rabs_pos_eq; lra.
  - rewrite Hpos by lra. rewrite Rabs_pos_eq; lra.
Qed.

Lemma clamp_angle_fixed (limit v : R) :
  Rabs v <= limit -> clamp_angle limit v = v.
Proof. apply clamp_angle_cases. Qed.

Lemma clamp_depth_within (lo hi v : R) :
  lo <= hi -> lo <= clamp_depth lo hi v <= hi.
Proof.
  intros Hle. unfold clamp_depth.
  destruct (Rlt_dec v lo); [lra |]. destruct (Rgt_dec v hi); lra.
Qed.

Lemma clamp_depth_fixed (lo hi v : R) :
  lo <= v <= hi -> clamp_depth lo hi v = v.
Proof. apply clamp_depth_cases. Qed.

(** X8: with ordered limits on the pose ([max_roll] and [max_pitch] not
    negative, [min_z <= max_z]), the desired pose [advance_move]
    leaves behind is within the limits, and a later call, at any
    current pose, leaves it as it is. *)
Theorem advance_move_desired_pose_settles (mp : Movement_PID)
    (c0 c1 c2 c3 c4 c5 d0 d1 d2 d3 d4 d5 b0 b1 b2 b3 b4 b5 : R)
    (crest drest brest : list R) :
  configured_thrusters mp ->
  ordered_pose_limits mp ->
  exists error mp' desired' out,
    advance_move (c0 :: c1 :: c2 :: c3 :: c4 :: c5 :: crest)
      (mp, d0 :: d1 :: d2 :: d3 :: d4 :: d5 :: drest)
    = Returns error (mp', desired') out
    /\ within_pose_limits mp desired'
    /\ exists error' mp'' out',
         advance_move (b0 :: b1 :: b2 :: b3 :: b4 :: b5 :: brest) (mp', desired')
         = Returns error' (mp'', desired') out'.
Proof.
  intros Hcfg (Hr & Hp & Hz).
  eexists _, _, _, _. split.
  { exact (advance_move_run_long mp c0 c1 c2 c3 c4 c5 d0 d1 d2 d3 d4 d5
             crest drest Hcfg). }
  split.
  { eexists _, _, _, _, _, _, _. split; [reflexivity |].
    split; [apply clamp_angle_within; exact Hr |].
    split; [apply clamp_angle_within; exact Hp |].
    apply clamp_depth_within; exact Hz. }
  eexists _, _, _.
  rewrite advance_move_run_long by exact Hcfg.
  cbn [control_params stepped set_pid].
  rewrite (clamp_angle_fixed (max_roll mp))
    by (apply clamp_angle_within; exact Hr).
  rewrite (clamp_angle_fixed (max_pitch mp))
    by (apply clamp_angle_within; exact Hp).
  rewrite (clamp_depth_fixed (min_z mp) (max_z mp))
    by (apply clamp_depth_within; exact Hz).
  reflexivity.
Qed.

Lemma sample_ordered_pose_limits :
  ordered_pose_limits (new_Movement_PID sample_params).
Proof. unfold ordered_pose_limits. cbn. lra. Qed.

Lemma advance_move_desired_pose_settles_witness :
  exists error mp' desired' out,
    advance_move [0; 0; 0; 0; 0; 0]
      (new_Movement_PID sample_params, [45; -45; 10; 1; 2; 50])
    = Returns error (mp', desired') out
    /\ within_pose_limits (new_Movement_PID sample_params) desired'.
Proof.
  destruct (advance_move_desired_pose_settles (new_Movement_PID sample_params)
              0 0 0 0 0 0 45 (-45) 10 1 2 50 1 1 1 1 1 1 [] [] []
              (new_Movement_PID_configured sample_params)
              sample_ordered_pose_limits)
    as (error & mp' & desired' & out & Hrun & Hin & _).
  exists error, mp', desired', out. split; [exact Hrun | exact Hin].
Defined.

(** ** [remote_move] on lists of any length *)

Lemma remote_move_run_long (mp : Movement_PID)
    (c0 c1 c2 c3 c4 c5 r0 r1 r2 r3 r4 : R) (crest rest : list R) :
  configured_thrusters mp ->
  let hold := truthy r4 in
  let roll_error := bound_error (0 - c0) (roll_min_error mp) (roll_max_error mp) in
  let pitch_error := bound_error (0 - c1) (pitch_min_error mp) (pitch_max_error mp) in
  let depth_error := remote_depth_error hold r3 c5 mp in
  let yaw_control :=
    interp r0 (-1) 1 (remote_yaw_min_thrust mp) (remote_yaw_max_thrust mp) in
  let x_control :=
    interp r1 (-1) 1 (remote_x_min_thrust mp) (remote_x_max_thrust mp) in
  let y_control :=
    interp r2 (-1) 1 (remote_y_min_thrust mp) (remote_y_max_thrust mp) in
  let mp' :=
    stepped Z_ depth_error (stepped Pitch pitch_error
      (stepped Roll roll_error (after_latch hold c5 mp))) in
  remote_move (c0 :: c1 :: c2 :: c3 :: c4 :: c5 :: crest)
    (r0 :: r1 :: r2 :: r3 :: r4 :: rest) mp
  = Returns tt mp'
      (thrust_commands mp'
         (control Roll roll_error mp) (control Pitch pitch_error mp)
         yaw_control (-1 * x_control) y_control
         (control Z_ depth_error mp) c5).
Proof.
  intros Hcfg hold roll_error pitch_error depth_error yaw_control x_control
    y_control mp'.
  subst hold roll_error pitch_error depth_error yaw_control x_control
    y_control mp'.
  unfold remote_move, pid_control_step, remote_depth_error, after_latch,
    stepped, control.
  run_py.
  destruct (truthy r4); cbn;
    [destruct (remote_depth_recorded mp) eqn:Hrec; cbn
    | destruct (Rle_dec r3 0); cbn].
  all: rewrite controlled_thrust_commands by exact Hcfg; cbn.
  all: rewrite ?app_nil_r; reflexivity.
Qed.

Lemma remote_move_short (mp : Movement_PID) (cur rc : list R) :
  (length cur < 6)%nat \/ (length rc < 5)%nat ->
  exists s,
    remote_move cur rc mp = Raises s []
    /\ thrusters s = thrusters mp
    /\ thruster_strengths s = thruster_strengths mp.
Proof.
  intros Hshort.
  destruct cur as [|c0 [|c1 [|c2 [|c3 [|c4 [|c5 crest]]]]]];
    destruct rc as [|r0 [|r1 [|r2 [|r3 [|r4 rest]]]]];
    cbn in Hshort; try (exfalso; lia); clear Hshort.
  all: unfold remote_move, pid_control_step; run_py; split_ifs.
  all: eexists; split; [reflexivity | split; reflexivity].
Qed.

(** ** A turn of the loop writes every thruster or none *)

Lemma built_eight_writes (mt : R) (mp : Movement_PID) (rc pc yc xc yyc zc depth : R) :
  built_thrusters mt mp ->
  eight_writes (thrust_commands mp rc pc yc xc yyc zc depth).
Proof.
  intros Hbuilt.
  destruct (built_thrusters_commands mt mp rc pc yc xc yyc zc depth Hbuilt)
    as (s1 & s2 & s3 & s4 & s5 & s6 & s7 & s8 & _ & ->).
  eexists _, _, _, _, _, _, _, _. reflexivity.
Qed.

Lemma built_configured (mt : R) (mp : Movement_PID) :
  built_thrusters mt mp -> configured_thrusters mp.
Proof. intros [Hts Hlen]. exact (make_thrusters_configured mp mt Hts Hlen). Qed.

Lemma advance_move_outcome (mt : R) (mp : Movement_PID) (cur des : list R) :
  built_thrusters mt mp ->
  (exists error s out,
      advance_move cur (mp, des) = Returns error s out /\ eight_writes out)
  \/ (exists s, advance_move cur (mp, des) = Raises s []).
Proof.
  intros Hbuilt. pose proof (built_configured mt mp Hbuilt) as Hcfg.
  destruct (le_lt_dec 6 (length cur)) as [Hc | Hc];
    [destruct (le_lt_dec 6 (length des)) as [Hd | Hd] |].
  - left.
    destruct cur as [|c0 [|c1 [|c2 [|c3 [|c4 [|c5 crest]]]]]];
      cbn in Hc; try (exfalso; lia).
    destruct des as [|d0 [|d1 [|d2 [|d3 [|d4 [|d5 drest]]]]]];
      cbn in Hd; try (exfalso; lia).
    eexists _, _, _. split.
    + exact (advance_move_run_long mp c0 c1 c2 c3 c4 c5 d0 d1 d2 d3 d4 d5
               crest drest Hcfg).
    + apply (built_eight_writes mt). exact Hbuilt.
  - right. destruct (advance_move_short mp cur des) as (s & Hs & _); [lia |].
    exists s. exact Hs.
  - right. destruct (advance_move_short mp cur des) as (s & Hs & _); [lia |].
    exists s. exact Hs.
Qed.

Lemma remote_move_outcome (mt : R) (mp : Movement_PID) (cur rc : list R) :
  built_thrusters mt mp ->
  (exists s out, remote_move cur rc mp = Returns tt s out /\ eight_writes out)
  \/ (exists s, remote_move cur rc mp = Raises s []).
Proof.
  intros Hbuilt. pose proof (built_configured mt mp Hbuilt) as Hcfg.
  destruct (le_lt_dec 6 (length cur)) as [Hc | Hc];
    [destruct (le_lt_dec 5 (length rc)) as [Hr | Hr] |].
  - left.
    destruct cur as [|c0 [|c1 [|c2 [|c3 [|c4 [|c5 crest]]]]]];
      cbn in Hc; try (exfalso; lia).
    destruct rc as [|r0 [|r1 [|r2 [|r3 [|r4 rest]]]]];
      cbn in Hr; try (exfalso; lia).
    eexists _, _. split.
    + exact (remote_move_run_long mp c0 c1 c2 c3 c4 c5 r0 r1 r2 r3 r4
               crest rest Hcfg).
    + apply (built_eight_writes mt). unfold after_latch.
      destruct (truthy r4); [destruct (remote_depth_recorded mp) |];
        exact Hbuilt.
  - right. destruct (remote_move_short mp cur rc) as (s & Hs & _); [lia |].
    exists s. exact Hs.
  - right. destruct (remote_move_short mp cur rc) as (s & Hs & _); [lia |].
    exists s. exact Hs.
Qed.

(** X9: in every state reached from a new controller, a turn of the
    loop of [run] that raises has written no thruster, and one that
    returns has written each of the eight thrusters once, in the order
    1 to 8, or, in thruster-test mode and in a mode it does not know,
    none. *)
Theorem tick_writes_every_thruster_or_none (ps : Param_Server) (es : list event) :
  let nc := fst (run_events es (new_Navigation_Controller ps)) in
  (forall s out, handle Tick nc = Raises s out -> out = [])
  /\ (forall s out, handle Tick nc = Returns tt s out ->
      if (sub_killed nc =? 1)%Z
         || (movement_mode nc =? 0)%Z || (movement_mode nc =? 2)%Z
         || (movement_mode nc =? 3)%Z
      then eight_writes out
      else out = [] /\ s = nc).
Proof.
  intros nc.
  pose proof (run_keeps_thrusters (ps_max_thrust ps) es _
                (new_controller_built_thrusters ps)) as Hbuilt.
  fold nc in Hbuilt.
  cbn [handle]. unfold run, on_pid_controller, with_desired_position. run_py.
  destruct (sub_killed nc =? 1)%Z; cbn.
  { rewrite simple_thrust_commands by (rewrite (proj1 Hbuilt); cbn; lia).
    rewrite (proj1 Hbuilt). cbn.
    split; [intros s out H; discriminate H |].
    intros s out H. injection H as _ <-.
    eexists _, _, _, _, _, _, _, _. reflexivity. }
  destruct (movement_mode nc =? 0)%Z; cbn.
  { destruct (advance_move_outcome (ps_max_thrust ps) (pid_controller nc)
                (current_position nc) (desired_position nc) Hbuilt)
      as [(e & s' & o & -> & Ho) | (s' & ->)]; cbn.
    - split; [intros s out H; discriminate H |].
      intros s out H. injection H as _ <-. rewrite app_nil_r. exact Ho.
    - split; [intros s out H; injection H as _ <-; reflexivity |].
      intros s out H. discriminate H. }
  destruct (movement_mode nc =? 1)%Z eqn:H1; cbn.
  { apply Z.eqb_eq in H1. rewrite H1. cbn.
    split; [intros s out H; discriminate H |].
    intros s out H. injection H as <- <-. split; reflexivity. }
  destruct (movement_mode nc =? 2)%Z; cbn.
  { destruct (remote_move_outcome (ps_max_thrust ps) (pid_controller nc)
                (current_position nc) (remote_commands nc) Hbuilt)
      as [(s' & o & -> & Ho) | (s' & ->)]; cbn.
    - split; [intros s out H; discriminate H |].
      intros s out H. injection H as _ <-. exact Ho.
    - split; [intros s out H; injection H as _ <-; reflexivity |].
      intros s out H. discriminate H. }
  destruct (movement_mode nc =? 3)%Z; cbn.
  { destruct (advance_move_outcome (ps_max_thrust ps) (pid_controller nc)
                (current_position nc) (desired_position nc) Hbuilt)
      as [(e & s' & o & -> & Ho) | (s' & ->)]; cbn.
    - split; [intros s out H; discriminate H |].
      intros s out H. injection H as _ <-. rewrite app_nil_r. exact Ho.
    - split; [intros s out H; injection H as _ <-; reflexivity |].
      intros s out H. discriminate H. }
  split; [intros s out H; discriminate H |].
  intros s out H. injection H as <- <-. split; reflexivity.
Qed.

(** ** After a kill message *)

Lemma thrust_values_app (o1 o2 : list effect) :
  thrust_values (o1 ++ o2) = thrust_values o1 ++ thrust_values o2.
Proof. apply omap_app. Qed.

Section Thrustless.
Context {St : Type}.









End Thrustless.








(** X11: while the kill flag is set, turns of the loop change nothing
    in the controller (no controller is stepped, the desired pose is
    not clamped): after any number of them the state is the same and
    eight zeros have been written per turn. *)
Theorem killed_ticks_change_nothing (mt : R) (nc : Navigation_Controller) (n : nat) :
  sub_killed nc = 1%Z ->
  thrusters (pid_controller nc) = make_thrusters mt ->
  fst (run_events (replicate n Tick) nc) = nc
  /\ thrust_values (snd (run_events (replicate n Tick) nc)) = replicate (8 * n) 0.
Proof.
  intros Hkill Hts. induction n as [| n [IHs IHo]].
  - split; reflexivity.
  - cbn [replicate run_events handle].
    rewrite (run_tick_killed nc mt Hkill Hts). cbn [state_of output_of].
    destruct (run_events (replicate n Tick) nc) as [nc' out].
    cbn [fst snd] in *. subst nc'. split; [reflexivity |].
    rewrite thrust_values_app, IHo.
    replace (8 * S n)%nat with (8 + 8 * n)%nat by lia. reflexivity.
Qed.

Lemma killed_ticks_change_nothing_witness :
  fst (run_events (replicate 3 Tick) (new_Navigation_Controller sample_params))
  = new_Navigation_Controller sample_params.
Proof.
  apply (killed_ticks_change_nothing 80 (new_Navigation_Controller sample_params) 3);
    reflexivity.
Defined.

(** ** The waypoint file over the whole life of the controller *)

Lemma in_order_app (o1 o2 : list effect) :
  forall st next,
    in_order st next (o1 ++ o2)
    = in_order st next o1
      && in_order (fst (after_log st next o1)) (snd (after_log st next o1)) o2.
Proof.
  induction o1 as [| e o1 IH]; intros st next; [reflexivity |].
  destruct e; cbn [app in_order after_log]; try apply IH.
  - destruct st; try reflexivity; apply IH.
  - destruct st; try reflexivity; apply IH.
  - destruct st; try reflexivity.
    rewrite IH. destruct (number =? next)%Z; reflexivity.
Qed.

Lemma after_log_app (o1 o2 : list effect) :
  forall st next,
    after_log st next (o1 ++ o2)
    = after_log (fst (after_log st next o1)) (snd (after_log st next o1)) o2.
Proof.
  induction o1 as [| e o1 IH]; intros st next; [reflexivity |].
  destruct e; cbn [app after_log]; apply IH.
Qed.

Lemma in_order_waypoint_log (o : list effect) :
  forall st next,
    in_order st next o = in_order st next (waypoint_log o)
    /\ after_log st next o = after_log st next (waypoint_log o).
Proof.
  induction o as [| e o IH]; intros st next; [split; reflexivity |].
  destruct e; cbn [waypoint_log List.filter is_waypoint_effect in_order after_log];
    fold (waypoint_log o); try apply IH.
  - destruct st; split; try reflexivity; apply IH.
  - destruct st; split; try reflexivity; apply IH.
  - destruct st; split; try reflexivity; try apply IH.
    destruct (IH file_is_open (next + 1)%Z) as [-> _]. reflexivity.
Qed.

Lemma read_remote_control_idle_state (commands : list R) (nc : Navigation_Controller) :
  enable_waypoint_collection nc = false ->
  waypoint_state (state_of (_read_remote_control commands nc)) = waypoint_state nc.
Proof.
  intros He. unfold _read_remote_control. run_py. rewrite He.
  remote_cases He He.
  all: reflexivity.
Qed.

Lemma same_waypoint_state (nc nc' : Navigation_Controller) (next : Z) :
  waypoint_state nc' = waypoint_state nc ->
  collecting nc next ->
  file_of nc' = file_of nc /\ collecting nc' next.
Proof.
  unfold waypoint_state, collecting, file_of. intros H Hc.
  injection H as -> -> ->. split; [reflexivity | exact Hc].
Qed.

Lemma quiet_in_order (st : file_state) (next : Z) (out : list effect) :
  waypoint_log out = [] ->
  in_order st next out = true /\ after_log st next out = (st, next).
Proof.
  intros Hq. destruct (in_order_waypoint_log out st next) as [-> ->].
  rewrite Hq. split; reflexivity.
Qed.

Lemma handle_collecting (e : event) (nc : Navigation_Controller) (next : Z) :
  collecting nc next ->
  in_order (file_of nc) next (output_of (handle e nc)) = true
  /\ file_of (state_of (handle e nc))
     = fst (after_log (file_of nc) next (output_of (handle e nc)))
  /\ collecting (state_of (handle e nc))
       (snd (after_log (file_of nc) next (output_of (handle e nc)))).
Proof.
  intros Hc.
  destruct (is_enable e) eqn:He.
  { destruct e; try discriminate He. clear He.
    unfold collecting, file_of in *. cbn [handle].
    unfold __update_enable_waypoint_collection, close_waypoint_file. run_py.
    destruct enable; cbn;
      destruct (enable_waypoint_collection nc),
        (waypoint_file nc) as [[|] |] eqn:Hf; cbn; rewrite ?Hf;
      try (destruct Hc as [Hc _]; discriminate Hc);
      try (exfalso; apply Hc; reflexivity);
      repeat split; try reflexivity; discriminate. }
  destruct (enable_waypoint_collection nc) eqn:Hen.
  - assert (Hrec : recording nc next).
    { unfold collecting in Hc. rewrite Hen in Hc. destruct Hc as [Hf Hn].
      unfold recording, waypoint_state. rewrite Hf, Hen, Hn. reflexivity. }
    assert (Hfile : file_of nc = file_is_open).
    { unfold recording, waypoint_state in Hrec. injection Hrec as Hf _ _.
      unfold file_of. rewrite Hf. reflexivity. }
    assert (Hstay : forall nc' n, recording nc' n ->
                      file_of nc' = file_is_open /\ collecting nc' n).
    { intros nc' n Hr. unfold recording, waypoint_state in Hr.
      injection Hr as Hf Hen' Hn. unfold file_of, collecting.
      rewrite Hf, Hen', Hn. repeat split. }
    rewrite Hfile.
    destruct (handle_recording e nc next He Hrec)
      as [[Hst Hout] | (a & b & c & Hst & Hout)].
    + destruct (quiet_in_order file_is_open next _ Hout) as [-> ->].
      cbn [fst snd]. destruct (Hstay _ _ Hst) as [Hf' Hc'].
      repeat split; assumption.
    + destruct (in_order_waypoint_log (output_of (handle e nc)) file_is_open next)
        as [-> ->].
      rewrite Hout. cbn [in_order after_log fst snd]. rewrite Z.eqb_refl.
      destruct (Hstay _ _ Hst) as [Hf' Hc']. repeat split; assumption.
  - assert (Hq : waypoint_log (output_of (handle e nc)) = []
                 /\ waypoint_state (state_of (handle e nc)) = waypoint_state nc).
    { destruct (match e with REMOTE_CONTROL_COMMAND c => Some c | _ => None end)
        as [c |] eqn:Hrc.
      - destruct e; try discriminate Hrc. injection Hrc as ->. cbn [handle].
        split; [exact (proj2 (read_remote_control_idle c nc Hen))
               | exact (read_remote_control_idle_state c nc Hen)].
      - apply (quiet_handle e He). intros c ->. discriminate Hrc. }
    destruct Hq as [Hout Hst].
    destruct (quiet_in_order (file_of nc) next _ Hout) as [-> ->].
    cbn [fst snd]. destruct (same_waypoint_state nc _ next Hst Hc) as [Hf' Hc'].
    repeat split; assumption.
Qed.

Lemma run_events_collecting (es : list event) :
  forall nc next,
    collecting nc next ->
    in_order (file_of nc) next (snd (run_events es nc)) = true.
Proof.
  induction es as [| e es IH]; intros nc next Hc; [reflexivity |].
  destruct (handle_collecting e nc next Hc) as (Hout & Hfile & Hc').
  destruct (run_cons e es nc) as [-> | ->]; cbn [fst snd]; [exact Hout |].
  rewrite in_order_app, Hout, <- Hfile. cbn [andb].
  apply IH. exact Hc'.
Qed.

(** X12: over the whole life of a controller, whatever the events, the
    waypoint file is used in order: a file is opened only while none
    is open, closed only after one has been opened, and a row is
    written only to an open file, with the number of rows written to
    that file before it. *)
Theorem waypoint_file_used_in_order (ps : Param_Server) (es : list event) :
  in_order no_file 0 (snd (run_events es (new_Navigation_Controller ps))) = true.
Proof.
  apply (run_events_collecting es (new_Navigation_Controller ps) 0).
  unfold collecting. cbn. discriminate.
Qed.

(** ** Remote commands that are too short, poses that are too short *)

(** X13: with the waypoint collection off, [_read_remote_control]
    stores the commands whatever their number, touches nothing else,
    and asks for a new zero position exactly when there is a seventh
    value and it is set; with fewer than seven values it raises, after
    the commands have been stored. *)
Theorem read_remote_control_without_collection
    (commands : list R) (nc : Navigation_Controller) :
  enable_waypoint_collection nc = false ->
  handle (REMOTE_CONTROL_COMMAND commands) nc
  = (if (7 <=? length commands)%nat then Returns tt else Raises)
      (set_remote_commands commands nc)
      (match commands !! 6%nat with
       | Some r6 => if truthy r6 then [publish_zero_position] else []
       | None => []
       end).
Proof.
  intros He. cbn [handle]. unfold _read_remote_control. run_py. rewrite He.
  destruct commands as [|c0 [|c1 [|c2 [|c3 [|c4 [|c5 [|c6 rest]]]]]]];
    cbn; try reflexivity.
  destruct (truthy c6); reflexivity.
Qed.

Lemma read_remote_control_without_collection_witness :
  handle (REMOTE_CONTROL_COMMAND [0; 0; 0; 0; 1])
    (new_Navigation_Controller sample_params)
  = Raises (set_remote_commands [0; 0; 0; 0; 1]
              (new_Navigation_Controller sample_params)) [].
Proof.
  exact (read_remote_control_without_collection [0; 0; 0; 0; 1]
           (new_Navigation_Controller sample_params) eq_refl).
Defined.

(** X14: while recording, a remote command with the record flag set
    needs a current position of exactly six values: with any other
    number the callback raises after storing the commands, no row is
    written, the waypoint number stays, and a request for a new zero
    position in the same command is not published. *)
Theorem record_needs_a_pose_of_six (nc : Navigation_Controller) (n : Z)
    (r0 r1 r2 r3 r4 r5 r6 : R) (rest : list R) :
  recording nc n ->
  truthy r5 = true ->
  length (current_position nc) <> 6%nat ->
  handle (REMOTE_CONTROL_COMMAND (r0 :: r1 :: r2 :: r3 :: r4 :: r5 :: r6 :: rest)) nc
  = Raises
      (set_remote_commands (r0 :: r1 :: r2 :: r3 :: r4 :: r5 :: r6 :: rest) nc) [].
Proof.
  intros Hrec H5 Hlen.
  unfold recording, waypoint_state in Hrec. injection Hrec as Hf He Hn.
  cbn [handle]. unfold _read_remote_control. run_py. rewrite He. cbn.
  rewrite H5. cbn.
  destruct (current_position nc) as [|c0 [|c1 [|c2 [|c3 [|c4 [|c5 [|c6 crest]]]]]]];
    cbn in Hlen |- *; try reflexivity.
  exfalso. apply Hlen. reflexivity.
Qed.

Lemma record_needs_a_pose_of_six_witness :
  let nc :=
    set_current_position [0; 0; 0; 1; 2]
      (fst (run_events [ENABLE_WAYPOINT_COLLECTION true]
              (new_Navigation_Controller sample_params))) in
  handle (REMOTE_CONTROL_COMMAND [0; 0; 0; 0; 0; 1; 1]) nc
  = Raises (set_remote_commands [0; 0; 0; 0; 0; 1; 1] nc) [].
Proof.
  intros nc.
  apply (record_needs_a_pose_of_six nc 0 0 0 0 0 0 1 1 []).
  - reflexivity.
  - exact truthy_1.
  - cbn. lia.
Defined.

Lemma run_events_stopped (e : event) (es : list event)
    (nc nc' : Navigation_Controller) (out : list effect) :
  handle e nc = Returns tt nc' out ->
  (exists s, handle Tick nc' = Raises s []) ->
  snd (run_events (e :: Tick :: es) nc) = out.
Proof.
  intros He Ht. cbn [run_events]. rewrite He. cbn [state_of output_of].
  destruct Ht as [s ->]. destruct e; cbn; rewrite ?app_nil_r; reflexivity.
Qed.

(** X15: a desired position or a sensor reading of fewer than six
    values is accepted by its callback, and stops the loop of [run] at
    the next turn in PID-tuning or autonomous mode with the kill flag
    off: that turn raises before any thruster is written, and nothing
    is written afterwards, whatever arrives ([run] is called on the
    main thread and the listeners are daemon threads, so the program
    ends with the loop). *)
Theorem short_pose_stops_the_loop (nc : Navigation_Controller)
    (pose : list R) (e : event) (es : list event) :
  sub_killed nc <> 1%Z ->
  movement_mode nc = 0%Z \/ movement_mode nc = 3%Z ->
  (length pose < 6)%nat ->
  e = DESIRED_POSITION pose \/ e = SENSOR_DATA pose ->
  (exists nc', handle e nc = Returns tt nc' [])
  /\ snd (run_events (e :: Tick :: es) nc) = [].
Proof.
  intros Hkill Hmode Hlen He.
  assert (Hcb : exists nc',
             handle e nc = Returns tt nc' []
             /\ sub_killed nc' = sub_killed nc
             /\ movement_mode nc' = movement_mode nc
             /\ ((length (current_position nc') < 6)%nat
                 \/ (length (desired_position nc') < 6)%nat)).
  { destruct He as [-> | ->]; cbn [handle].
    - unfold __unpack_desired_position_callback. run_py.
      destruct pose as [|p0 [|p1 [|p2 [|p3 [|p4 [|p5 prest]]]]]];
        cbn in Hlen |- *; try (exfalso; lia);
        (eexists; split; [reflexivity |]);
        (split; [reflexivity |]); (split; [reflexivity |]); right; cbn; lia.
    - unfold __update_sensor_data. run_py.
      eexists; split; [reflexivity |].
      split; [reflexivity |]. split; [reflexivity |]. left. cbn. lia. }
  destruct Hcb as (nc' & Hrun & Hk' & Hm' & Hshort).
  split; [exists nc'; exact Hrun |].
  apply (run_events_stopped e es nc nc' [] Hrun).
  rewrite <- Hk' in Hkill. rewrite <- Hm' in Hmode.
  cbn [handle]. unfold run, with_desired_position. run_py.
  destruct (Z.eqb_spec (sub_killed nc') 1) as [E | _]; [contradiction |].
  destruct (advance_move_short (pid_controller nc') (current_position nc')
              (desired_position nc') Hshort) as (s & Hs & _).
  destruct Hmode as [-> | ->]; cbn; rewrite Hs; cbn; eexists; reflexivity.
Qed.

Lemma short_pose_stops_the_loop_witness :
  snd (run_events
         [DESIRED_POSITION [0; 0; 90]; Tick; KILL_SUB true; Tick]
         sample_controller) = [].
Proof.
  apply (short_pose_stops_the_loop sample_controller [0; 0; 90]
           (DESIRED_POSITION [0; 0; 90]) [KILL_SUB true; Tick]).
  - discriminate.
  - left. reflexivity.
  - cbn. lia.
  - left. reflexivity.
Defined.

(** ** The remote control input *)

Ltac split_decs :=
  repeat (match goal with
          | |- context [Rgt_dec ?a ?b] => destruct (Rgt_dec a b)
          | |- context [Rlt_dec ?a ?b] => destruct (Rlt_dec a b)
          end; cbn).

Lemma control_run (a0 a1 a2 a3 a4 a5 a6 a7 : R) (rest : list R) :
  _control (a0 :: a1 :: a2 :: a3 :: a4 :: a5 :: a6 :: a7 :: rest)
  = Returns
      [dead_zone a3; dead_zone a1; dead_zone a0; trigger_depth a2 a4; a5; a6; a7]
      (dead_zone a0 :: dead_zone a1 :: a2 :: dead_zone a3 :: a4 :: a5 :: a6 :: a7 :: rest)
      [].
Proof.
  unfold _control, item, assign_item, dead_zone, trigger_depth. run_py.
  split_decs; first [reflexivity | contradiction | exfalso; lra].
Qed.

Lemma control_short (axes : list R) :
  (length axes < 8)%nat -> exists axes', _control axes = Raises axes' [].
Proof.
  intros Hlen.
  destruct axes as [|a0 [|a1 [|a2 [|a3 [|a4 [|a5 [|a6 [|a7 rest]]]]]]]];
    cbn in Hlen; try (exfalso; lia); clear Hlen.
  all: unfold _control, item, assign_item; run_py; split_decs;
    first [eexists; reflexivity | contradiction | exfalso; lra].
Qed.

Lemma dead_zone_cases (v : R) :
  (Rabs v < 3 / 10 /\ dead_zone v = 0)
  \/ (3 / 10 <= Rabs v /\ dead_zone v = v).
Proof.
  unfold dead_zone.
  destruct (Rgt_dec v (-(3 / 10))); [destruct (Rlt_dec v (3 / 10)) |].
  - left. split; [apply Rabs_def1; lra | reflexivity].
  - right. split; [| reflexivity]. rewrite Rabs_right; lra.
  - right. split; [| reflexivity]. rewrite Rabs_left1; lra.
Qed.

Lemma dead_zone_idempotent (v : R) : dead_zone (dead_zone v) = dead_zone v.
Proof.
  unfold dead_zone.
  destruct (Rgt_dec v (-(3 / 10))) as [Hg | Hg];
    [destruct (Rlt_dec v (3 / 10)) as [Hl | Hl] |].
  - destruct (Rgt_dec 0 (-(3 / 10))); [| lra].
    destruct (Rlt_dec 0 (3 / 10)); [reflexivity | lra].
  - destruct (Rgt_dec v (-(3 / 10))); [| contradiction].
    destruct (Rlt_dec v (3 / 10)); [contradiction | reflexivity].
  - destruct (Rgt_dec v (-(3 / 10))); [contradiction | reflexivity].
Qed.

Lemma trigger_depth_cases (left_trigger right_trigger : R) :
  -1 <= left_trigger <= 1 -> -1 <= right_trigger <= 1 ->
  let depth := trigger_depth left_trigger right_trigger in
  (0 < left_trigger /\ -1 <= depth < -(1 / 2))
  \/ (left_trigger <= 0 /\ 0 < right_trigger /\ 1 / 2 < depth <= 1)
  \/ (left_trigger <= 0 /\ right_trigger <= 0 /\ depth = 0).
Proof.
  intros Hl Hr depth. unfold depth, trigger_depth.
  destruct (Rgt_dec left_trigger 0); [| destruct (Rgt_dec right_trigger 0)].
  - left. lra.
  - right. left. lra.
  - right. right. lra.
Qed.

(** X16: given at least eight items, [_control] returns a message of
    seven values: yaw, forward and strafe are the sticks, set to zero
    inside the dead zone and passed on outside of it; with the
    triggers between -1 and 1 the depth command is in [-1, -1/2) when
    the left trigger is pressed past its middle, whatever the right
    one, in (1/2, 1] when only the right one is, and zero otherwise,
    so that no depth command is ever between -1/2 and 1/2 except
    zero; the three flags are passed on. *)
Theorem control_dead_zones_and_depth (a0 a1 a2 a3 a4 a5 a6 a7 : R) (rest : list R) :
  -1 <= a2 <= 1 ->
  -1 <= a4 <= 1 ->
  exists yaw x y depth axes',
    _control (a0 :: a1 :: a2 :: a3 :: a4 :: a5 :: a6 :: a7 :: rest)
    = Returns [yaw; x; y; depth; a5; a6; a7] axes' []
    /\ ((Rabs a3 < 3 / 10 /\ yaw = 0) \/ (3 / 10 <= Rabs a3 /\ yaw = a3))
    /\ ((Rabs a1 < 3 / 10 /\ x = 0) \/ (3 / 10 <= Rabs a1 /\ x = a1))
    /\ ((Rabs a0 < 3 / 10 /\ y = 0) \/ (3 / 10 <= Rabs a0 /\ y = a0))
    /\ ((0 < a2 /\ -1 <= depth < -(1 / 2))
        \/ (a2 <= 0 /\ 0 < a4 /\ 1 / 2 < depth <= 1)
        \/ (a2 <= 0 /\ a4 <= 0 /\ depth = 0)).
Proof.
  intros H2 H4. rewrite control_run.
  eexists _, _, _, _, _. split; [reflexivity |].
  split; [apply dead_zone_cases |]. split; [apply dead_zone_cases |].
  split; [apply dead_zone_cases |]. apply trigger_depth_cases; assumption.
Qed.

Lemma control_dead_zones_and_depth_witness :
  exists yaw x y depth axes',
    _control [2 / 10; -1; 1 / 2; 0; 1; 1; 0; 0]
    = Returns [yaw; x; y; depth; 1; 0; 0] axes' []
    /\ ((Rabs 0 < 3 / 10 /\ yaw = 0) \/ (3 / 10 <= Rabs 0 /\ yaw = 0))
    /\ ((Rabs (-1) < 3 / 10 /\ x = 0) \/ (3 / 10 <= Rabs (-1) /\ x = -1))
    /\ ((Rabs (2 / 10) < 3 / 10 /\ y = 0) \/ (3 / 10 <= Rabs (2 / 10) /\ y = 2 / 10))
    /\ ((0 < 1 / 2 /\ -1 <= depth < -(1 / 2))
        \/ (1 / 2 <= 0 /\ 0 < 1 /\ 1 / 2 < depth <= 1)
        \/ (1 / 2 <= 0 /\ 1 <= 0 /\ depth = 0)).
Proof.
  apply (control_dead_zones_and_depth (2 / 10) (-1) (1 / 2) 0 1 1 0 0 []); lra.
Defined.

Lemma dead_zone_abs (v : R) :
  dead_zone v = if Rlt_dec (Rabs v) (3 / 10) then 0 else v.
Proof.
  destruct (dead_zone_cases v) as [[Ha ->] | [Ha ->]];
    destruct (Rlt_dec (Rabs v) (3 / 10)); try reflexivity; lra.
Qed.

Lemma control_state (axes : list R) :
  state_of (_control axes) = written_dead_zones axes
  /\ output_of (_control axes) = [].
Proof.
  destruct axes as [|a0 [|a1 [|a2 [|a3 [|a4 [|a5 [|a6 [|a7 rest]]]]]]]].
  9: { rewrite control_run. split; reflexivity. }
  all: unfold _control, item, assign_item, written_dead_zones, dead_zone;
    run_py; split_decs;
    first [split; reflexivity | contradiction | exfalso; lra].
Qed.

Lemma written_dead_zones_lookup (axes : list R) (i : nat) (v : R) :
  axes !! i = Some v ->
  written_dead_zones axes !! i
  = Some (if bool_decide (i = 0 \/ i = 1 \/ i = 3)%nat
          then (if Rlt_dec (Rabs v) (3 / 10) then 0 else v)
          else v).
Proof.
  intros Hi. rewrite <- dead_zone_abs. unfold written_dead_zones.
  destruct axes as [|a0 [|a1 [|a2 [|a3 rest]]]];
    [ discriminate Hi
    | destruct i as [|i]
    | destruct i as [|[|i]]
    | destruct i as [|[|[|i]]]
    | destruct i as [|[|[|[|i]]]] ];
    cbn in Hi |- *;
    try (destruct i; discriminate Hi);
    try (injection Hi as <-);
    case_bool_decide as Hd; try (exfalso; lia);
    first [reflexivity | exact Hi].
Qed.

(** X17: [_control] returns exactly when the list it is given has at
    least eight items, and raises otherwise.  In both cases the dead
    zones have been written into that list: it keeps its length, each
    of its items 0, 1 and 3 that exists holds zero where its magnitude
    was below three tenths and its old value otherwise, and every
    other item holds its old value.  The message holds the items 3, 1
    and 0 of the list so written, and a second call on that list
    returns the same message and changes nothing more. *)
Theorem control_needs_eight_axes (axes : list R) :
  let axes' := state_of (_control axes) in
  length axes' = length axes
  /\ (forall (i : nat) (v : R), axes !! i = Some v ->
        axes' !! i
        = Some (if bool_decide (i = 0 \/ i = 1 \/ i = 3)%nat
                then (if Rlt_dec (Rabs v) (3 / 10) then 0 else v)
                else v))
  /\ output_of (_control axes) = []
  /\ match _control axes with
     | Returns message _ _ =>
         (8 <= length axes)%nat
         /\ length message = 7%nat
         /\ message !! 0%nat = axes' !! 3%nat
         /\ message !! 1%nat = axes' !! 1%nat
         /\ message !! 2%nat = axes' !! 0%nat
         /\ _control axes' = Returns message axes' []
     | Raises _ _ => (length axes < 8)%nat
     end.
Proof.
  intros axes'. destruct (control_state axes) as [Hst Hout].
  assert (Hlook : forall (i : nat) (v : R), axes !! i = Some v ->
            axes' !! i
            = Some (if bool_decide (i = 0 \/ i = 1 \/ i = 3)%nat
                    then (if Rlt_dec (Rabs v) (3 / 10) then 0 else v)
                    else v)).
  { intros i v Hi. unfold axes'. rewrite Hst.
    apply written_dead_zones_lookup. exact Hi. }
  split.
  { unfold axes'. rewrite Hst. unfold written_dead_zones.
    repeat (match goal with
            | |- context [match ?l !! ?i with _ => _ end] => destruct (l !! i)
            end; rewrite ?length_insert); reflexivity. }
  split; [exact Hlook |]. split; [exact Hout |].
  destruct (le_lt_dec 8 (length axes)) as [Hlen | Hlen].
  - destruct axes as [|a0 [|a1 [|a2 [|a3 [|a4 [|a5 [|a6 [|a7 rest]]]]]]]];
      cbn in Hlen; try (exfalso; lia).
    unfold axes'. rewrite control_run. cbn [state_of].
    split; [cbn; lia |]. repeat (split; [reflexivity |]).
    rewrite control_run, !dead_zone_idempotent. reflexivity.
  - destruct (control_short axes Hlen) as [s Hs]. rewrite Hs. exact Hlen.
Qed.

#[local] Arguments _control : simpl never.

Lemma remote_input_turn_run (instance : pygame_event) (get_axis : nat -> R)
    (rc : Remote_Control_Input) :
  length (_axes rc) = 8%nat ->
  let hold := xorb (released 1 instance) (_remote_depth_hold rc) in
  let record := released 0 instance || _record_waypoint rc in
  let zero := released 2 instance || _zero_waypoint rc in
  exists axes',
    remote_input_turn instance get_axis rc
    = Returns
        [dead_zone (get_axis 3%nat); dead_zone (get_axis 1%nat);
         dead_zone (get_axis 0%nat);
         trigger_depth (get_axis 2%nat) (get_axis 5%nat);
         of_bool hold; of_bool record; of_bool zero]
        {| _axes := axes'; _remote_depth_hold := hold;
           _record_waypoint := false; _zero_waypoint := false |} []
    /\ length axes' = 8%nat.
Proof.
  destruct rc as [axes hold0 record0 zero0]. cbn [_axes _remote_depth_hold
    _record_waypoint _zero_waypoint]. intros Hlen.
  destruct axes as [|a0 [|a1 [|a2 [|a3 [|a4 [|a5 [|a6 [|a7 [|? ?]]]]]]]]];
    try discriminate Hlen. clear Hlen.
  unfold remote_input_turn, on_axes, assign_item.
  destruct instance as [button |]; run_py.
  - destruct (button =? 1)%Z eqn:H1, (button =? 0)%Z eqn:H0,
      (button =? 2)%Z eqn:H2; cbn;
      try (apply Z.eqb_eq in H1; apply Z.eqb_eq in H0; lia);
      try (apply Z.eqb_eq in H1; apply Z.eqb_eq in H2; lia);
      try (apply Z.eqb_eq in H0; apply Z.eqb_eq in H2; lia);
      rewrite control_run; cbn; eexists; split; reflexivity.
  - rewrite control_run. cbn. eexists; split; reflexivity.
Qed.

Lemma remote_input_turns_state (turns : list (pygame_event * (nat -> R))) :
  forall rc : Remote_Control_Input,
    length (_axes rc) = 8%nat ->
    _record_waypoint rc = false ->
    _zero_waypoint rc = false ->
    let r := remote_input_turns turns rc in
    length (_axes (fst r)) = 8%nat
    /\ _record_waypoint (fst r) = false
    /\ _zero_waypoint (fst r) = false
    /\ _remote_depth_hold (fst r)
       = xorb (odd_releases_of_hold turns) (_remote_depth_hold rc)
    /\ length (snd r) = length turns.
Proof.
  induction turns as [| [instance get_axis] turns IH]; intros rc Hlen Hrec Hzero.
  - cbn. repeat split; try assumption.
  - cbn [remote_input_turns].
    destruct (remote_input_turn_run instance get_axis rc Hlen) as (axes' & -> & Hlen').
    lazymatch goal with
    | |- context [remote_input_turns turns ?s] =>
        pose proof (IH s Hlen' eq_refl eq_refl) as IH'
    end.
    cbn in IH'.
    destruct (remote_input_turns turns _) as [rc'' messages] eqn:Hturns.
    cbn in IH' |- *. destruct IH' as (H1 & H2 & H3 & H4 & H5).
    repeat split; try assumption; [| lia].
    rewrite H4.
    unfold odd_releases_of_hold. cbn [foldr fst].
    generalize (foldr (fun turn hold => xorb (released 1 (fst turn)) hold)
                  false turns), (released 1 instance), (_remote_depth_hold rc).
    intros [] [] []; reflexivity.
Qed.

Lemma remote_input_reached (turns : list (pygame_event * (nat -> R))) :
  let r := remote_input_turns turns new_Remote_Control_Input in
  length (_axes (fst r)) = 8%nat
  /\ _record_waypoint (fst r) = false
  /\ _zero_waypoint (fst r) = false
  /\ _remote_depth_hold (fst r) = odd_releases_of_hold turns
  /\ length (snd r) = length turns.
Proof.
  pose proof (remote_input_turns_state turns new_Remote_Control_Input
                eq_refl eq_refl eq_refl) as H.
  cbn in H. rewrite xorb_false_r in H. exact H.
Qed.

(** X18: from a new [Remote_Control_Input], every turn of the loop of
    [run] that finds an event publishes one message, of seven values;
    in it the depth-hold flag is set exactly when button 1 has been
    released an odd number of times so far, this event included, the
    record flag exactly when this event is the release of button 0,
    and the zero flag exactly when it is the release of button 2:
    a release is reported in one message only. *)
Theorem remote_input_flags (turns : list (pygame_event * (nat -> R)))
    (instance : pygame_event) (get_axis : nat -> R) :
  let r := remote_input_turns turns new_Remote_Control_Input in
  length (snd r) = length turns
  /\ exists yaw x y depth rc',
       remote_input_turn instance get_axis (fst r)
       = Returns
           [yaw; x; y; depth;
            of_bool (odd_releases_of_hold ((instance, get_axis) :: turns));
            of_bool (released 0 instance);
            of_bool (released 2 instance)] rc' [].
Proof.
  intros r. destruct (remote_input_reached turns) as (Hlen & Hrec & Hzero & Hhold & Hn).
  fold r in Hlen, Hrec, Hzero, Hhold, Hn. split; [exact Hn |].
  destruct (remote_input_turn_run instance get_axis (fst r) Hlen) as (axes' & Hrun & _).
  rewrite Hrec, Hzero, Hhold, !orb_false_r in Hrun.
  eexists _, _, _, _, _. exact Hrun.
Qed.

Lemma truthy_of_bool (b : bool) : truthy (of_bool b) = b.
Proof. destruct b; [exact truthy_1 | exact truthy_0]. Qed.

(** X19: the message of such a turn, delivered to a controller that
    is recording waypoints and has a position of six values: the
    callback returns; it writes one row, with the current waypoint
    number and the north, east and depth values of the position,
    exactly when the event is the release of button 0, and the number
    moves on by one; it asks for a new zero position exactly when the
    event is the release of button 2. *)
Theorem button_release_reaches_the_sub
    (turns : list (pygame_event * (nat -> R)))
    (instance : pygame_event) (get_axis : nat -> R)
    (nc : Navigation_Controller) (n : Z) (c0 c1 c2 c3 c4 c5 : R) :
  recording nc n ->
  current_position nc = [c0; c1; c2; c3; c4; c5] ->
  let rc := fst (remote_input_turns turns new_Remote_Control_Input) in
  exists message rc' nc',
    remote_input_turn instance get_axis rc = Returns message rc' []
    /\ handle (REMOTE_CONTROL_COMMAND message) nc
       = Returns tt nc'
           ((if released 0 instance then [writerow n c3 c4 c5] else [])
            ++ (if released 2 instance then [publish_zero_position] else []))
    /\ recording nc' (if released 0 instance then n + 1 else n)%Z.
Proof.
  intros Hrec Hcur rc.
  destruct (remote_input_reached turns) as (Hlen & Hr & Hz & _ & _).
  fold rc in Hlen, Hr, Hz.
  destruct (remote_input_turn_run instance get_axis rc Hlen) as (axes' & Hrun & _).
  rewrite Hr, Hz, !orb_false_r in Hrun. rewrite Hrun.
  unfold recording, waypoint_state in Hrec |- *. injection Hrec as Hf He Hn.
  destruct (released 0 instance), (released 2 instance);
    eexists _, _, _; (split; [reflexivity |]);
    (split;
     [ cbn [handle]; unfold _read_remote_control; run_py;
       rewrite He; cbn; rewrite ?truthy_1, ?truthy_0;
       cbn; rewrite ?Hcur; cbn; rewrite ?Hn; cbn; rewrite ?Hf; cbn;
       rewrite ?truthy_1, ?truthy_0; reflexivity
     | cbn; rewrite ?Hf, ?He, ?Hn; reflexivity ]).
Qed.

Lemma button_release_reaches_the_sub_witness :
  let nc :=
    set_current_position [0; 0; 0; 1; 2; 3]
      (fst (run_events [ENABLE_WAYPOINT_COLLECTION true]
              (new_Navigation_Controller sample_params))) in
  exists message rc' nc',
    remote_input_turn (JOYBUTTONUP 0) (fun _ => 0) new_Remote_Control_Input
    = Returns message rc' []
    /\ handle (REMOTE_CONTROL_COMMAND message) nc
       = Returns tt nc' ([writerow 0 1 2 3] ++ [])
    /\ recording nc' 1.
Proof.
  intros nc.
  apply (button_release_reaches_the_sub [] (JOYBUTTONUP 0) (fun _ => 0)
           nc 0 0 0 0 1 2 3); reflexivity.
Defined.

(** ** The thruster test widget *)

Lemma update_test_thrust_run (desired_thrust : Z)
    (b0 b1 b2 b3 b4 b5 b6 b7 : bool) (more : list bool)
    (t0 t1 t2 t3 t4 t5 t6 t7 : R) (rest : list R) :
  let v (box : bool) := if box then IZR desired_thrust else 0 in
  _update_test_thrust desired_thrust
    (b0 :: b1 :: b2 :: b3 :: b4 :: b5 :: b6 :: b7 :: more)
    (t0 :: t1 :: t2 :: t3 :: t4 :: t5 :: t6 :: t7 :: rest)
  = Returns
      (v b0 :: v b1 :: v b2 :: v b3 :: v b4 :: v b5 :: v b6 :: v b7 :: rest)
      (v b0 :: v b1 :: v b2 :: v b3 :: v b4 :: v b5 :: v b6 :: v b7 :: rest) [].
Proof.
  unfold _update_test_thrust, test_thrust_of_box, assign_item. run_py.
  destruct b0, b1, b2, b3, b4, b5, b6, b7; reflexivity.
Qed.

(** X20: with eight check boxes and a list [thrusts] of eight values,
    [_update_test_thrust] publishes, whatever [thrusts] held before,
    the value of the slider for each checked box and zero for each
    other one; delivered to a controller in any state reached from a
    new one, that message is written to the thrusters 1 to 8 in this
    order, the zeros included, so that unchecking a box stops its
    thruster. *)
Theorem thruster_test_message_reaches_thrusters (ps : Param_Server)
    (es : list event) (desired_thrust : Z) (checked : list bool)
    (thrusts : list R) :
  length checked = 8%nat ->
  length thrusts = 8%nat ->
  let nc := fst (run_events es (new_Navigation_Controller ps)) in
  let message :=
    map (fun box : bool => if box then IZR desired_thrust else 0) checked in
  _update_test_thrust desired_thrust checked thrusts = Returns message message []
  /\ handle (THRUSTS message) nc
     = Returns tt nc
         (zip_with set_thrust [1; 2; 3; 4; 5; 6; 7; 8]%Z message).
Proof.
  intros Hc Ht nc message.
  destruct checked as [|b0 [|b1 [|b2 [|b3 [|b4 [|b5 [|b6 [|b7 [|? ?]]]]]]]]];
    try discriminate Hc.
  destruct thrusts as [|t0 [|t1 [|t2 [|t3 [|t4 [|t5 [|t6 [|t7 [|? ?]]]]]]]]];
    try discriminate Ht.
  split; [apply update_test_thrust_run |].
  destruct (run_keeps_thrusters (ps_max_thrust ps) es _
              (new_controller_built_thrusters ps)) as [Hts _].
  fold nc in Hts.
  unfold handle, __update_thruster_test_callback, on_pid_controller, zoom.
  rewrite simple_thrust_commands by (rewrite Hts; cbn; lia).
  rewrite Hts, set_pid_controller_same. reflexivity.
Qed.

Lemma thruster_test_message_reaches_thrusters_witness :
  let checked := [true; false; false; true; false; false; false; false] in
  let message := map (fun box : bool => if box then IZR 40 else 0) checked in
  _update_test_thrust 40 checked [9; 9; 9; 9; 9; 9; 9; 9]
  = Returns message message []
  /\ handle (THRUSTS message) (fst (run_events [] (new_Navigation_Controller sample_params)))
     = Returns tt (fst (run_events [] (new_Navigation_Controller sample_params)))
         (zip_with set_thrust [1; 2; 3; 4; 5; 6; 7; 8]%Z message).
Proof.
  intros checked message.
  apply (thruster_test_message_reaches_thrusters sample_params [] 40 checked
           [9; 9; 9; 9; 9; 9; 9; 9]); reflexivity.
Defined.

(** ** The tuning helper *)

(** X21: with the thrusters of [__init__], [simple_depth_move_no_yaw]
    returns the three differences as they are, not bounded by the
    error ranges, followed by three zeros; it writes to all eight
    thrusters, and to each of the horizontal ones, 2, 4, 6 and 8, it
    writes zero; the yaw, x and y controllers are not stepped. *)
Theorem simple_depth_move_spares_horizontal_thrusters (mt : R) (mp : Movement_PID)
    (curr_roll curr_pitch curr_z_pos desired_roll desired_pitch desired_z_pos : R) :
  built_thrusters mt mp ->
  exists mp' v1 v3 v5 v7,
    simple_depth_move_no_yaw curr_roll curr_pitch curr_z_pos
      desired_roll desired_pitch desired_z_pos mp
    = Returns
        [desired_roll - curr_roll; desired_pitch - curr_pitch;
         desired_z_pos - curr_z_pos; 0; 0; 0]
        mp'
        [set_thrust 1 v1; set_thrust 2 0; set_thrust 3 v3; set_thrust 4 0;
         set_thrust 5 v5; set_thrust 6 0; set_thrust 7 v7; set_thrust 8 0]
    /\ pid_of Yaw mp' = pid_of Yaw mp
    /\ pid_of X mp' = pid_of X mp
    /\ pid_of Y mp' = pid_of Y mp
    /\ built_thrusters mt mp'.
Proof.
  intros Hbuilt.
  unfold simple_depth_move_no_yaw, pid_control_step. run_py.
  match goal with
  | |- context [controlled_thrust ?r ?p 0 0 0 ?z ?d ?s] =>
      set (mp' := s); set (rc := r); set (pc := p); set (zc := z)
  end.
  assert (Hb' : built_thrusters mt mp') by exact Hbuilt.
  pose proof (make_thrusters_configured mp' mt (proj1 Hb') (proj2 Hb')) as Hcfg.
  rewrite (controlled_thrust_commands _ _ _ _ _ _ _ _ Hcfg). cbn.
  destruct (built_thrusters_commands mt mp' rc pc 0 0 0 zc curr_z_pos Hb')
    as (s1 & s2 & s3 & s4 & s5 & s6 & s7 & s8 & _ & ->).
  rewrite ?app_nil_r.
  replace ((0 + 0) * (1 + s2)) with 0 by ring.
  replace (- 0 * (1 + s4)) with 0 by ring.
  replace ((- 0 + 0) * (1 + s6)) with 0 by ring.
  replace (- 0 * (1 + s8)) with 0 by ring.
  eexists _, _, _, _, _. split; [reflexivity |].
  repeat split; try reflexivity; apply Hbuilt.
Qed.

Lemma simple_depth_move_spares_horizontal_thrusters_witness :
  exists mp' v1 v3 v5 v7,
    simple_depth_move_no_yaw 1 2 3 4 5 6 (new_Movement_PID sample_params)
    = Returns [4 - 1; 5 - 2; 6 - 3; 0; 0; 0] mp'
        [set_thrust 1 v1; set_thrust 2 0; set_thrust 3 v3; set_thrust 4 0;
         set_thrust 5 v5; set_thrust 6 0; set_thrust 7 v7; set_thrust 8 0]
    /\ pid_of Yaw mp' = pid_of Yaw (new_Movement_PID sample_params)
    /\ pid_of X mp' = pid_of X (new_Movement_PID sample_params)
    /\ pid_of Y mp' = pid_of Y (new_Movement_PID sample_params)
    /\ built_thrusters (ps_max_thrust sample_params) mp'.
Proof.
  apply (simple_depth_move_spares_horizontal_thrusters
           (ps_max_thrust sample_params) (new_Movement_PID sample_params)
           1 2 3 4 5 6).
  split; reflexivity.
Defined.
